(** * Resource handlers of the OpenTelekomCloud Terraform provider

    A shallow embedding of three resource files of the provider,

      - [services/vpc/resource_opentelekomcloud_networking_router_v2.go]
      - [services/sfs/resource_opentelekomcloud_sfs_file_system_v2.go]
      - [services/waf/resource_opentelekomcloud_waf_preciseprotection_rule_v1.go]

    Every handler is a program over the calls of the vendor SDK: a finite
    tree whose nodes are SDK calls and whose leaves are the value the Go
    function returns together with the [ResourceData] it leaves behind.  Go's
    run-time panics (a failed type assertion, a nil pointer dereference) are a
    leaf of their own. *)

From stdpp Require Import gmap strings list fin_maps.
From Stdlib Require Import ZArith Ascii DecimalString DecimalZ.

Set Warnings "-register-all".
Set Default Proof Using "Type".
Local Open Scope string_scope.
Local Open Scope Z_scope.

(** ** Go values held by a [schema.ResourceData] *)

(** What an [interface{}] read from or written to a resource can hold. *)
Inductive Value : Type :=
| VNil
| VString (s : string)
| VBool (b : bool)
| VInt (z : Z)
| VList (l : list Value)
| VMap (m : gmap string Value).

#[global] Instance Value_eq_dec : EqDecision Value.
Proof.
  refine (fix go (a b : Value) {struct a} : Decision (a = b) :=
    let _ : EqDecision Value := @go in
    match a, b with
    | VNil, VNil => left eq_refl
    | VString s, VString t => cast_if (decide (s = t))
    | VBool x, VBool y => cast_if (decide (x = y))
    | VInt x, VInt y => cast_if (decide (x = y))
    | VList l1, VList l2 => cast_if (decide (l1 = l2))
    | VMap m1, VMap m2 => cast_if (decide (m1 = m2))
    | _, _ => right _
    end); abstract congruence.
Defined.

(** [schema.ValueType], as far as the three schemas use it. *)
Inductive ValueType : Type := TypeBool | TypeInt | TypeString | TypeList | TypeMap.

Definition zeroValue (t : ValueType) : Value :=
  match t with
  | TypeBool => VBool false
  | TypeInt => VInt 0
  | TypeString => VString ""
  | TypeList => VList []
  | TypeMap => VMap ∅
  end.

(** ** Go errors *)

Inductive NumErrKind : Type := ErrSyntax | ErrRange.

(** The error values the handlers see.  [ErrFmt] keeps the format string and
    the arguments of [fmt.Errorf] apart instead of rendering them. *)
Inductive Err : Type :=
| ErrDefault404 (body : string)
| ErrSdk (msg : string)
| NumError (func num : string) (kind : NumErrKind)
| TimeoutError (lastState : string)
| UnexpectedStateError (state : string)
| NotFoundError (retries : nat)
| ErrSet (key : string)
| ErrFmt (format : string) (args : list Err)
| ErrMulti (errs : list Err).

(** A Go [error]: [None] is [nil]. *)
Abbreviation error := (option Err).

(** The type switch [_, ok := err.(golangsdk.ErrDefault404)]. *)
Definition isErrDefault404 (e : Err) : bool :=
  match e with ErrDefault404 _ => true | _ => false end.

(** [diag.Diagnostics]; the empty list is the [nil] a handler returns on
    success. *)
Abbreviation Diagnostics := (list Err).

(** [multierror.Append(nil, errs...)] keeps the errors that are not nil, and
    [ErrorOrNil] is nil when none was kept. *)
Module multierror.
Definition Append (acc : list Err) (errs : list error) : list Err :=
  acc ++ omap id errs.
Definition ErrorOrNil (acc : list Err) : error :=
  match acc with [] => None | _ => Some (ErrMulti acc) end.
End multierror.

(** Modelled from the spec: the package [common/fmterr] is not among the
    sources.  [fmterr.Errorf] is taken to wrap [fmt.Errorf format args] into
    one error diagnostic, which is how every handler uses it. *)
Module fmterr.
Definition Errorf (format : string) (args : list Err) : Diagnostics :=
  [ErrFmt format args].
End fmterr.

Module fmt.
Definition Errorf (format : string) (args : list Err) : error :=
  Some (ErrFmt format args).
End fmt.

(** ** [strconv] and [strings] *)

Module strconv.
Definition isDigit (c : ascii) : bool :=
  let n := N_of_ascii c in ((48 <=? n) && (n <=? 57))%N.

Definition digitVal (c : ascii) : Z := Z.of_N (N_of_ascii c) - 48.

Definition maxUint64 : Z := 2 ^ 64 - 1.

(** The digit loop of [ParseUint] in base 10 and 64 bits, character by
    character: a character that is not a decimal digit is a syntax error; a
    digit that would take the number past [maxUint64] is a range error, with
    [maxUint64] as the value, whatever follows it. *)
Fixpoint parseDigits (s : string) (n : Z) : Z * option NumErrKind :=
  match s with
  | EmptyString => (n, None)
  | String c s' =>
      if isDigit c then
        let cutoff := maxUint64 / 10 + 1 in
        if cutoff <=? n then (maxUint64, Some ErrRange)
        else
          let n1 := 10 * n + digitVal c in
          if maxUint64 <? n1 then (maxUint64, Some ErrRange)
          else parseDigits s' n1
      else (0, Some ErrSyntax)
  end.

(** [ParseUint(s, 10, 64)]. *)
Definition ParseUint (s : string) : Z * option NumErrKind :=
  match s with
  | EmptyString => (0, Some ErrSyntax)
  | _ => parseDigits s 0
  end.

(** [ParseInt(s, 10, 64)]. *)
Definition ParseInt (s0 : string) : Z * error :=
  match s0 with
  | EmptyString => (0, Some (NumError "ParseInt" s0 ErrSyntax))
  | String c rest =>
      let neg := bool_decide (c = "-"%char) in
      let s := if bool_decide (c = "+"%char) || neg then rest else s0 in
      match ParseUint s with
      | (_, Some ErrSyntax) => (0, Some (NumError "ParseInt" s0 ErrSyntax))
      | (un, _) =>
          let cutoff := 2 ^ 63 in
          if negb neg && (cutoff <=? un) then
            (cutoff - 1, Some (NumError "ParseInt" s0 ErrRange))
          else if neg && (cutoff <? un) then
            (- cutoff, Some (NumError "ParseInt" s0 ErrRange))
          else (if neg then - un else un, None)
      end
  end.

(** [FormatInt(i, 10)]. *)
Definition FormatInt (i : Z) : string := NilZero.string_of_int (Z.to_int i).
End strconv.

Module strings.
(** [HasPrefix(s, prefix)]: [s] is at least as long as [prefix] and its
    first bytes are those of [prefix]. *)
Fixpoint HasPrefix (s pre : string) : bool :=
  match pre, s with
  | EmptyString, _ => true
  | String _ _, EmptyString => false
  | String a pre', String b s' => bool_decide (a = b) && HasPrefix s' pre'
  end.

(** [Contains(s, substr)]: [substr] starts at some index of [s]. *)
Fixpoint Contains (s substr : string) : bool :=
  HasPrefix s substr
  || match s with
     | EmptyString => false
     | String _ s' => Contains s' substr
     end.
End strings.

(** ** Programs over SDK calls *)

Section Prog.
(** The calls of one service of the SDK and what each returns. *)
Context {call : Type} {result : call → Type}.

Inductive Prog (A : Type) : Type :=
| Ret (a : A)
| Panic (msg : string)
| Vis (c : call) (k : result c → Prog A).
Arguments Ret {A} a.
Arguments Panic {A} msg.
Arguments Vis {A} c k.

Fixpoint bind {A B} (m : Prog A) (f : A → Prog B) : Prog B :=
  match m with
  | Ret a => f a
  | Panic msg => Panic msg
  | Vis c k => Vis c (λ r, bind (k r) f)
  end.

(** How a run of a handler ends. *)
Inductive Outcome (A : Type) : Type :=
| Returned (a : A)
| Panicked (msg : string).
Arguments Returned {A} a.
Arguments Panicked {A} msg.

(** The cloud behind the SDK: it answers a call and moves on. *)
Definition Cloud (W : Type) : Type := ∀ c : call, W → result c * W.

(** Runs a program against a cloud; the calls issued are logged in order. *)
Fixpoint run {W A} (h : Cloud W) (p : Prog A) (w : W)
  : Outcome A * W * list call :=
  match p with
  | Ret a => (Returned a, w, [])
  | Panic msg => (Panicked msg, w, [])
  | Vis c k =>
      let '(r, w1) := h c w in
      let '(o, w2, log) := run h (k r) w1 in
      (o, w2, c :: log)
  end.

Definition outcome {W A} (x : Outcome A * W * list call) : Outcome A := x.1.1.
Definition world {W A} (x : Outcome A * W * list call) : W := x.1.2.
Definition calls {W A} (x : Outcome A * W * list call) : list call := x.2.

(** Type assertions [v.(T)] and pointer dereferences. *)
Definition asString (v : Value) : Prog string :=
  match v with VString s => Ret s | _ => Panic "interface conversion: not a string" end.
Definition asBool (v : Value) : Prog bool :=
  match v with VBool b => Ret b | _ => Panic "interface conversion: not a bool" end.
Definition asInt (v : Value) : Prog Z :=
  match v with VInt z => Ret z | _ => Panic "interface conversion: not an int" end.
Definition asList (v : Value) : Prog (list Value) :=
  match v with VList l => Ret l | _ => Panic "interface conversion: not a []interface {}" end.
Definition asMap (v : Value) : Prog (gmap string Value) :=
  match v with VMap m => Ret m | _ => Panic "interface conversion: not a map[string]interface {}" end.
Definition deref {T} (p : option T) : Prog T :=
  match p with Some x => Ret x | None => Panic "invalid memory address or nil pointer dereference" end.

(** A [for ... range] loop that builds one element per iteration. *)
Fixpoint forRange {A B} (f : A → Prog B) (l : list A) : Prog (list B) :=
  match l with
  | [] => Ret []
  | x :: l' => bind (f x) (λ y, bind (forRange f l') (λ ys, Ret (y :: ys)))
  end.
End Prog.

Arguments Prog {call} result A.
Arguments Cloud {call} result W.
Arguments Ret {call result A} a.
Arguments Panic {call result A} msg.
Arguments Vis {call result A} c k.
Arguments Returned {A} a.
Arguments Panicked {A} msg.

Notation "x <- m ;; k" := (bind m (λ x, k))
  (at level 100, m at next level, right associativity) : stdpp_scope.

(** ** [schema.ResourceData] *)

Module schema.
(** The part of a [*schema.ResourceData] the handlers touch: the schema of
    the resource, the ID, the prior state, the planned values (state merged
    with the diff), the values written by [d.Set], and the configured
    timeouts.  A timeout is counted in refresh rounds: the number of calls of
    a refresh function that complete before the timer of a wait fires. *)
Record ResourceData : Type := {
  rd_schema : gmap string ValueType;
  rd_id : string;
  rd_state : gmap string Value;
  rd_plan : gmap string Value;
  rd_set : gmap string Value;
  rd_timeout : string → nat;
}.

Definition TimeoutCreate : string := "create".
Definition TimeoutDelete : string := "delete".

(** Reads [key] from a level of values; an attribute of the schema that has
    no value reads as the zero value of its type, a key the schema does not
    have reads as nil. *)
Definition readLevel (d : ResourceData) (level : gmap string Value) (key : string)
  : Value * bool :=
  match rd_schema d !! key with
  | None => (VNil, false)
  | Some t =>
      match level !! key with
      | Some v => (v, true)
      | None => (zeroValue t, false)
      end
  end.

Definition Get (d : ResourceData) (key : string) : Value :=
  (readLevel d (rd_set d ∪ rd_plan d) key).1.

(** [d.GetOk(key)]: the value, and whether it is set to something other than
    the zero value of its type. *)
Definition GetOk (d : ResourceData) (key : string) : Value * bool :=
  let '(v, found) := readLevel d (rd_set d ∪ rd_plan d) key in
  match rd_schema d !! key with
  | Some t => (v, found && bool_decide (v ≠ zeroValue t))
  | None => (v, false)
  end.

Definition GetChange (d : ResourceData) (key : string) : Value * Value :=
  ((readLevel d (rd_state d) key).1, (readLevel d (rd_plan d) key).1).

Definition HasChange (d : ResourceData) (key : string) : bool :=
  let '(o, n) := GetChange d key in bool_decide (o ≠ n).

Definition Id (d : ResourceData) : string := rd_id d.

Definition SetId (d : ResourceData) (v : string) : ResourceData :=
  {| rd_schema := rd_schema d; rd_id := v; rd_state := rd_state d;
     rd_plan := rd_plan d; rd_set := rd_set d; rd_timeout := rd_timeout d |}.

(** [d.Set(key, value)]: an error, and no write, for a key the schema does not
    have. *)
Definition Set_ (d : ResourceData) (key : string) (v : Value)
  : ResourceData * error :=
  match rd_schema d !! key with
  | None => (d, Some (ErrSet key))
  | Some _ =>
      ({| rd_schema := rd_schema d; rd_id := rd_id d; rd_state := rd_state d;
          rd_plan := rd_plan d; rd_set := <[key := v]> (rd_set d);
          rd_timeout := rd_timeout d |}, None)
  end.

Definition Timeout (d : ResourceData) (key : string) : nat := rd_timeout d key.

(** Values of a schema type.  None of the three schemas gives its maps an
    [Elem], so their values are strings. *)
Definition isString (v : Value) : bool :=
  match v with VString _ => true | _ => false end.

Definition hasType (t : ValueType) (v : Value) : bool :=
  match t, v with
  | TypeBool, VBool _ => true
  | TypeInt, VInt _ => true
  | TypeString, VString _ => true
  | TypeList, VList _ => true
  | TypeMap, VMap m => bool_decide (map_Forall (λ _ x, isString x = true) m)
  | _, _ => false
  end.

(** What the SDK guarantees of the values a handler reads: every attribute
    holds a value of the type its schema declares. *)
Definition wellTyped (d : ResourceData) : bool :=
  bool_decide (map_Forall
    (λ k v, match rd_schema d !! k with Some t => hasType t v | None => true end = true)
    (rd_set d ∪ rd_plan d)).

(** Several [d.Set] in a row, as in the argument list of
    [multierror.Append]: the writes from left to right and their errors. *)
Fixpoint SetAll (d : ResourceData) (kvs : list (string * Value))
  : ResourceData * list error :=
  match kvs with
  | [] => (d, [])
  | (k, v) :: rest =>
      let '(d1, e) := Set_ d k v in
      let '(d2, es) := SetAll d1 rest in
      (d2, e :: es)
  end.
End schema.

(** ** [cfg.Config] *)

(** The package [common/cfg] is not among the sources, so a [*cfg.Config] is
    a parameter of every handler: a record of the methods the handlers call.
    They use it for the region of a resource and for the service clients; a
    client constructor either fails with an error or hands out the client the
    later SDK calls go through. *)
Module cfg.
Record Config : Type := {
  GetRegion : schema.ResourceData → string;
  NetworkingV2Client : string → error;
  SfsV2Client : string → error;
  WafV1Client : string → error;
}.
End cfg.

(** ** [resource.StateChangeConf] *)

(** The wait helper of the Terraform plugin SDK ([helper/resource]).  The
    handlers only fill in a [StateChangeConf] and call [WaitForState] (or
    [WaitForStateContext]) on it; what is modelled here is the loop they rely
    on: refresh, compare the reported state with [Target] and [Pending], give
    up on an error, on an unexpected state, or when the timeout fires. *)

Module resource.
(** The [interface{}] a refresh function returns first: the untyped nil, or
    a pointer, which may itself be nil. *)
Inductive iface (T : Type) : Type :=
| Nil
| Ptr (p : option T).
Arguments Nil {T}.
Arguments Ptr {T} p.

Section StateChange.
Context {call : Type} {result : call → Type} {T : Type}.

Definition StateRefreshFunc : Type := Prog result (iface T * string * error).

(** [Timeout] is in refresh rounds (see [schema.ResourceData]); [Delay]
    and [MinTimeout] are in seconds and only pace the loop. *)
Record StateChangeConf : Type := {
  Pending : list string;
  Target : list string;
  Refresh : StateRefreshFunc;
  Timeout : nat;
  Delay : nat;
  MinTimeout : nat;
}.

(** The default of [NotFoundChecks]. *)
Definition NotFoundChecks : nat := 20.

Definition stateIn (s : string) (l : list string) : bool :=
  bool_decide (s ∈ l).

(** The refresh loop of [WaitForStateContext], with
    [ContinuousTargetOccurence] at its default of one, so that the first
    refresh that reports a target state ends the wait.  [rounds] is what
    is left of the timeout. *)
Fixpoint waitLoop (conf : StateChangeConf) (rounds notfoundTick : nat)
    (lastState : string) : Prog result (iface T * error) :=
  match rounds with
  | O => Ret (Nil, Some (TimeoutError lastState))
  | S rounds' =>
      r <- Refresh conf ;;
      let '(res, currentState, err) := r in
      match err with
      | Some e => Ret (res, Some e)
      | None =>
          match res with
          | Nil =>
              if bool_decide (Target conf = []) then Ret (res, None)
              else
                let notfoundTick := S notfoundTick in
                if (NotFoundChecks <? notfoundTick)%nat
                then Ret (res, Some (NotFoundError notfoundTick))
                else waitLoop conf rounds' notfoundTick currentState
          | Ptr _ =>
              if stateIn currentState (Target conf) then Ret (res, None)
              else if stateIn currentState (Pending conf)
              then waitLoop conf rounds' O currentState
              else if negb (bool_decide (Pending conf = []))
              then Ret (res, Some (UnexpectedStateError currentState))
              else waitLoop conf rounds' O currentState
          end
      end
  end.

Definition WaitForState (conf : StateChangeConf)
  : Prog result (iface T * error) :=
  waitLoop conf (Timeout conf) O "".
End StateChange.
Arguments StateRefreshFunc {call} result T.
Arguments StateChangeConf {call} result T.
End resource.

(** An SDK call as a program. *)
Definition sdk {call} {result : call → Type} (c : call) : Prog result (result c) :=
  Vis c Ret.

(** Indexing a Go map: a missing key reads as nil. *)
Definition index (m : gmap string Value) (key : string) : Value :=
  default VNil (m !! key).

(** ** WAF precise protection rules *)

(** The SDK package [openstack/waf/v1/preciseprotection_rules], as the handlers
    use it. *)
Module preciseprotection_rules.
Module Condition.
Record t : Type := mk {
  Category : string;
  Index : string;
  Logic : Z;
  Contents : list string;
}.
End Condition.

Module Action.
Record t : Type := mk { Category : string }.
End Action.

Module CreateOpts.
Record t : Type := mk {
  Name : string;
  Time : bool;
  Start : Z;
  End_ : Z;
  Conditions : list Condition.t;
  Action : Action.t;
  Priority : option Z;
}.

Definition setStart (o : t) (v : Z) : t :=
  mk (Name o) (Time o) v (End_ o) (Conditions o) (Action o) (Priority o).
Definition setEnd (o : t) (v : Z) : t :=
  mk (Name o) (Time o) (Start o) v (Conditions o) (Action o) (Priority o).
End CreateOpts.

Module Precise.
Record t : Type := mk {
  Id : string;
  PolicyID : string;
  Name : string;
  Time : bool;
  Start : Z;
  End_ : Z;
  Conditions : list Condition.t;
  Action : Action.t;
  Priority : Z;
}.
End Precise.

Inductive call : Type :=
| Create (policy_id : string) (opts : CreateOpts.t)
| Get (policy_id id : string)
| Delete (policy_id id : string).

(** What [Extract] and [ExtractErr] give for each call: the pointer decoded
    from the response, nil when there is none to decode, and the error. *)
Definition result (c : call) : Type :=
  match c with
  | Create _ _ => (option Precise.t * error)%type
  | Get _ _ => (option Precise.t * error)%type
  | Delete _ _ => error
  end.
End preciseprotection_rules.

Module waf.
Import schema cfg.
Module Condition := preciseprotection_rules.Condition.
Module Action := preciseprotection_rules.Action.
Module CreateOpts := preciseprotection_rules.CreateOpts.
Module Precise := preciseprotection_rules.Precise.

Abbreviation M := (Prog preciseprotection_rules.result).

Definition Schema : gmap string ValueType :=
  list_to_map [
    ("policy_id", TypeString);
    ("name", TypeString);
    ("time", TypeBool);
    ("start", TypeString);
    ("end", TypeString);
    ("conditions", TypeList);
    ("action_category", TypeString);
    ("priority", TypeInt)
  ].

Definition getConditions (d : ResourceData) : M (list Condition.t) :=
  conditions <- asList (Get d "conditions") ;;
  forRange (λ v,
    cond <- asMap v ;;
    contents_raw <- asList (index cond "contents") ;;
    contents <- forRange asString contents_raw ;;
    category <- asString (index cond "category") ;;
    idx <- asString (index cond "index") ;;
    logic <- asInt (index cond "logic") ;;
    Ret (Condition.mk category idx logic contents)) conditions.

(** A [conditions] block of the configuration, and the map [d.Get] presents
    it as: one entry per attribute of the nested schema. *)
Record ConditionBlock : Type := Block {
  category : string;
  index_ : string;
  logic : Z;
  contents : list string;
}.

Definition blockValue (b : ConditionBlock) : Value :=
  VMap (list_to_map [
    ("category", VString (category b));
    ("index", VString (index_ b));
    ("logic", VInt (logic b));
    ("contents", VList (VString <$> contents b))
  ]).

(** The payload condition a configured block stands for. *)
Definition toCondition (b : ConditionBlock) : Condition.t :=
  Condition.mk (category b) (index_ b) (logic b) (contents b).

Definition getPreciseAction (d : ResourceData) : M Action.t :=
  category <- asString (Get d "action_category") ;;
  Ret (Action.mk category).

Definition conditionValue (condition : Condition.t) : Value :=
  VMap (<["contents" := VList (VString <$> Condition.Contents condition)]>
       (<["logic" := VInt (Condition.Logic condition)]>
       (<["index" := VString (Condition.Index condition)]>
       (<["category" := VString (Condition.Category condition)]> ∅)))).

Definition resourceWafPreciseProtectionRuleV1Read
    (d : ResourceData) (meta : Config) : M (Diagnostics * ResourceData) :=
  match WafV1Client meta (GetRegion meta d) with
  | Some err =>
      Ret (fmterr.Errorf "error creating OpenTelekomCloud WAF client: %s" [err], d)
  | None =>
      policy_id <- asString (Get d "policy_id") ;;
      r <- sdk (preciseprotection_rules.Get policy_id (Id d)) ;;
      let '(n, err) := r in
      match err with
      | Some err =>
          if isErrDefault404 err then Ret ([], SetId d "")
          else Ret (fmterr.Errorf
                      "error retrieving OpenTelekomCloud Waf Precise Protection Rule: %s"
                      [err], d)
      | None =>
          n <- deref n ;;
          let d := SetId d (Precise.Id n) in
          let d := (Set_ d "policy_id" (VString (Precise.PolicyID n))).1 in
          let d := (Set_ d "name" (VString (Precise.Name n))).1 in
          let d := (Set_ d "time" (VBool (Precise.Time n))).1 in
          let d := (Set_ d "start" (VString (strconv.FormatInt (Precise.Start n)))).1 in
          let d := (Set_ d "end" (VString (strconv.FormatInt (Precise.End_ n)))).1 in
          let conditions := conditionValue <$> Precise.Conditions n in
          let d := (Set_ d "conditions" (VList conditions)).1 in
          let d := (Set_ d "action_category"
                      (VString (Action.Category (Precise.Action n)))).1 in
          let d := (Set_ d "priority" (VInt (Precise.Priority n))).1 in
          Ret ([], d)
      end
  end.

Definition resourceWafPreciseProtectionRuleV1Create
    (d : ResourceData) (meta : Config) : M (Diagnostics * ResourceData) :=
  match WafV1Client meta (GetRegion meta d) with
  | Some err =>
      Ret (fmterr.Errorf "error creating OpenTelekomcomCloud WAF Client: %s" [err], d)
  | None =>
      priority <- asInt (Get d "priority") ;;
      name <- asString (Get d "name") ;;
      time <- asBool (Get d "time") ;;
      conditions <- getConditions d ;;
      action <- getPreciseAction d ;;
      let createOpts := CreateOpts.mk name time 0 0 conditions action (Some priority) in
      withStart <-
        (if (GetOk d "start").2 then
           s <- asString (Get d "start") ;;
           match strconv.ParseInt s with
           | (_, Some err) => Ret (inl (fmterr.Errorf "error converting start: %s" [err]))
           | (start, None) => Ret (inr (CreateOpts.setStart createOpts start))
           end
         else Ret (inr createOpts)) ;;
      match withStart with
      | inl diags => Ret (diags, d)
      | inr createOpts =>
          withEnd <-
            (if (GetOk d "cache_control").2 then
               s <- asString (Get d "end") ;;
               match strconv.ParseInt s with
               | (_, Some err) => Ret (inl (fmterr.Errorf "error converting end: %s" [err]))
               | (end_, None) => Ret (inr (CreateOpts.setEnd createOpts end_))
               end
             else Ret (inr createOpts)) ;;
          match withEnd with
          | inl diags => Ret (diags, d)
          | inr createOpts =>
              policy_id <- asString (Get d "policy_id") ;;
              r <- sdk (preciseprotection_rules.Create policy_id createOpts) ;;
              let '(rule, err) := r in
              match err with
              | Some err =>
                  Ret (fmterr.Errorf
                         "error creating OpenTelekomcomCloud WAF Precise Protection Rule: %s"
                         [err], d)
              | None =>
                  rule <- deref rule ;;
                  let d := SetId d (Precise.Id rule) in
                  resourceWafPreciseProtectionRuleV1Read d meta
              end
          end
      end
  end.

Definition resourceWafPreciseProtectionRuleV1Delete
    (d : ResourceData) (meta : Config) : M (Diagnostics * ResourceData) :=
  match WafV1Client meta (GetRegion meta d) with
  | Some err =>
      Ret (fmterr.Errorf "error creating OpenTelekomCloud WAF client: %s" [err], d)
  | None =>
      policy_id <- asString (Get d "policy_id") ;;
      err <- sdk (preciseprotection_rules.Delete policy_id (Id d)) ;;
      match err with
      | Some err =>
          Ret (fmterr.Errorf
                 "error deleting OpenTelekomCloud WAF Precise Protection Rule: %s"
                 [err], d)
      | None => Ret ([], SetId d "")
      end
  end.
End waf.

(** ** Neutron routers *)

(** The SDK package [networking/v2/extensions/layer3/routers], as the handlers
    use it. *)
Module routers.
Module GatewayInfo.
Record t : Type := mk {
  NetworkID : string;
  EnableSNAT : option bool;
}.
End GatewayInfo.

Module Router.
Record t : Type := mk {
  Status : string;
  GatewayInfo : GatewayInfo.t;
  AdminStateUp : bool;
  Distributed : bool;
  Name : string;
  ID : string;
  TenantID : string;
}.
End Router.

Module CreateOpts.
Record t : Type := mk {
  Name : string;
  AdminStateUp : option bool;
  Distributed : option bool;
  TenantID : string;
  GatewayInfo : option GatewayInfo.t;
}.
End CreateOpts.

Module UpdateOpts.
Record t : Type := mk {
  Name : string;
  AdminStateUp : option bool;
  GatewayInfo : option GatewayInfo.t;
}.
End UpdateOpts.

(** Modelled from the spec: the declaration of [RouterCreateOpts] (vpc
    package) is not among the sources.  As the handler builds it, it is a
    [routers.CreateOpts] plus [ValueSpecs]; it is what the handler passes to
    [routers.Create]. *)
Module RouterCreateOpts.
Record t : Type := mk {
  CreateOpts : CreateOpts.t;
  ValueSpecs : gmap string string;
}.
End RouterCreateOpts.

Inductive call : Type :=
| Create (opts : RouterCreateOpts.t)
| Get (id : string)
| Update (id : string) (opts : UpdateOpts.t)
| Delete (id : string).

(** What [Extract] and [ExtractErr] give for each call: the [*Router] decoded
    from the response, nil when there is none to decode, and the error. *)
Definition result (c : call) : Type :=
  match c with
  | Create _ => (option Router.t * error)%type
  | Get _ => (option Router.t * error)%type
  | Update _ _ => (option Router.t * error)%type
  | Delete _ => error
  end.

Definition isCreate (c : call) : bool :=
  match c with Create _ => true | _ => false end.
Definition isUpdate (c : call) : bool :=
  match c with Update _ _ => true | _ => false end.
End routers.

(** Modelled from the spec: [common.MapValueSpecs] is not among the sources.
    It is taken to translate the [value_specs] attribute of the configuration
    into the map of strings of the request, the way [resourceSFSMetadataV2]
    does for [metadata]. *)
Module common.
Import schema.
Definition MapValueSpecs {call} {result : call → Type} (d : ResourceData)
  : Prog result (gmap string string) :=
  raw <- asMap (Get d "value_specs") ;;
  kvs <- forRange (λ kv, val <- asString kv.2 ;; Ret (kv.1, val)) (map_to_list raw) ;;
  Ret (list_to_map kvs).
End common.

Module vpc.
Import schema cfg resource.
Module GatewayInfo := routers.GatewayInfo.
Module Router := routers.Router.
Module CreateOpts := routers.CreateOpts.
Module UpdateOpts := routers.UpdateOpts.
Module RouterCreateOpts := routers.RouterCreateOpts.

Abbreviation M := (Prog routers.result).

Definition Schema : gmap string ValueType :=
  list_to_map [
    ("region", TypeString);
    ("name", TypeString);
    ("admin_state_up", TypeBool);
    ("distributed", TypeBool);
    ("external_gateway", TypeString);
    ("enable_snat", TypeBool);
    ("tenant_id", TypeString);
    ("value_specs", TypeMap)
  ].

(** A [*bool] handed to [d.Set]: [Set] stores what the pointer points to, and
    for a nil pointer it writes the attribute as removed, which [d.Get] reads
    as the zero value of a bool and [d.GetOk] reports as not set. *)
Definition boolPtrValue (p : option bool) : Value :=
  match p with Some b => VBool b | None => VBool false end.

Definition waitForRouterActive (routerId : string)
  : StateRefreshFunc routers.result Router.t :=
  x <- sdk (routers.Get routerId) ;;
  let '(r, err) := x in
  match err with
  | Some err =>
      r' <- deref r ;;
      Ret (Nil, Router.Status r', Some err)
  | None =>
      r' <- deref r ;;
      Ret (Ptr r, Router.Status r', None)
  end.

Definition waitForRouterDelete (routerId : string)
  : StateRefreshFunc routers.result Router.t :=
  x <- sdk (routers.Get routerId) ;;
  let '(r, err) := x in
  match err with
  | Some err =>
      if isErrDefault404 err then Ret (Ptr r, "DELETED", None)
      else Ret (Ptr r, "ACTIVE", Some err)
  | None =>
      err <- sdk (routers.Delete routerId) ;;
      match err with
      | Some err =>
          if isErrDefault404 err then Ret (Ptr r, "DELETED", None)
          else Ret (Ptr r, "ACTIVE", Some err)
      | None => Ret (Ptr r, "ACTIVE", None)
      end
  end.

Definition resourceNetworkingRouterV2Read
    (d : ResourceData) (meta : Config) : M (Diagnostics * ResourceData) :=
  match NetworkingV2Client meta (GetRegion meta d) with
  | Some err =>
      Ret (fmterr.Errorf "error creating OpenTelekomCloud networking client: %s" [err], d)
  | None =>
      x <- sdk (routers.Get (Id d)) ;;
      let '(n, err) := x in
      match err with
      | Some err =>
          if isErrDefault404 err then Ret ([], SetId d "")
          else Ret (fmterr.Errorf
                      "error retrieving OpenTelekomCloud Neutron Router: %s" [err], d)
      | None =>
          n <- deref n ;;
          let d := (Set_ d "name" (VString (Router.Name n))).1 in
          let d := (Set_ d "admin_state_up" (VBool (Router.AdminStateUp n))).1 in
          let d := (Set_ d "distributed" (VBool (Router.Distributed n))).1 in
          let d := (Set_ d "tenant_id" (VString (Router.TenantID n))).1 in
          let d := (Set_ d "external_gateway"
                      (VString (GatewayInfo.NetworkID (Router.GatewayInfo n)))).1 in
          let d := (Set_ d "enable_snat"
                      (boolPtrValue (GatewayInfo.EnableSNAT (Router.GatewayInfo n)))).1 in
          let d := (Set_ d "region" (VString (GetRegion meta d))).1 in
          Ret ([], d)
      end
  end.

(** The [StateChangeConf] of Create. *)
Definition createStateConf (d : ResourceData) (id : string)
  : StateChangeConf routers.result Router.t :=
  {| Pending := ["BUILD"; "PENDING_CREATE"; "PENDING_UPDATE"];
     Target := ["ACTIVE"];
     Refresh := waitForRouterActive id;
     Timeout := schema.Timeout d TimeoutCreate;
     Delay := 5;
     MinTimeout := 3 |}.

Definition resourceNetworkingRouterV2Create
    (d : ResourceData) (meta : Config) : M (Diagnostics * ResourceData) :=
  match NetworkingV2Client meta (GetRegion meta d) with
  | Some err =>
      Ret (fmterr.Errorf "error creating OpenTelekomCloud networking client: %s" [err], d)
  | None =>
      name <- asString (Get d "name") ;;
      tenant_id <- asString (Get d "tenant_id") ;;
      valueSpecs <- common.MapValueSpecs d ;;
      let opts := CreateOpts.mk name None None tenant_id None in
      opts <-
        (let '(asuRaw, ok) := GetOk d "admin_state_up" in
         if ok then
           asu <- asBool asuRaw ;;
           Ret (CreateOpts.mk (CreateOpts.Name opts) (Some asu) (CreateOpts.Distributed opts)
                  (CreateOpts.TenantID opts) (CreateOpts.GatewayInfo opts))
         else Ret opts) ;;
      opts <-
        (let '(dRaw, ok) := GetOk d "distributed" in
         if ok then
           dist <- asBool dRaw ;;
           Ret (CreateOpts.mk (CreateOpts.Name opts) (CreateOpts.AdminStateUp opts) (Some dist)
                  (CreateOpts.TenantID opts) (CreateOpts.GatewayInfo opts))
         else Ret opts) ;;
      externalGateway <- asString (Get d "external_gateway") ;;
      let opts :=
        if bool_decide (externalGateway ≠ "") then
          CreateOpts.mk (CreateOpts.Name opts) (CreateOpts.AdminStateUp opts)
            (CreateOpts.Distributed opts) (CreateOpts.TenantID opts)
            (Some (GatewayInfo.mk externalGateway None))
        else opts in
      withSnat <-
        (let '(esRaw, ok) := GetOk d "enable_snat" in
         if ok then
           if bool_decide (externalGateway = "") then
             Ret (inl (fmterr.Errorf
                         "setting enable_snat requires external_gateway to be set" []))
           else
             es <- asBool esRaw ;;
             gw <- deref (CreateOpts.GatewayInfo opts) ;;
             Ret (inr (CreateOpts.mk (CreateOpts.Name opts) (CreateOpts.AdminStateUp opts)
                         (CreateOpts.Distributed opts) (CreateOpts.TenantID opts)
                         (Some (GatewayInfo.mk (GatewayInfo.NetworkID gw) (Some es)))))
         else Ret (inr opts)) ;;
      match withSnat with
      | inl diags => Ret (diags, d)
      | inr opts =>
          let createOpts := RouterCreateOpts.mk opts valueSpecs in
          x <- sdk (routers.Create createOpts) ;;
          let '(n, err) := x in
          match err with
          | Some err =>
              Ret (fmterr.Errorf "error creating OpenTelekomCloud Neutron router: %s" [err], d)
          | None =>
              n <- deref n ;;
              let stateConf := createStateConf d (Router.ID n) in
              (* _, err = stateConf.WaitForStateContext(ctx): the error is
                 assigned and not looked at again *)
              _ <- WaitForState stateConf ;;
              let d := SetId d (Router.ID n) in
              resourceNetworkingRouterV2Read d meta
          end
      end
  end.

(** Update; the per-router mutex [osMutexKV] it holds is outside this
    sequential model. *)
Definition resourceNetworkingRouterV2Update
    (d : ResourceData) (meta : Config) : M (Diagnostics * ResourceData) :=
  match NetworkingV2Client meta (GetRegion meta d) with
  | Some err =>
      Ret (fmterr.Errorf "error creating OpenTelekomCloud networking client: %s" [err], d)
  | None =>
      let updateOpts := UpdateOpts.mk "" None None in
      updateOpts <-
        (if HasChange d "name" then
           name <- asString (Get d "name") ;;
           Ret (UpdateOpts.mk name (UpdateOpts.AdminStateUp updateOpts)
                  (UpdateOpts.GatewayInfo updateOpts))
         else Ret updateOpts) ;;
      updateOpts <-
        (if HasChange d "admin_state_up" then
           asu <- asBool (Get d "admin_state_up") ;;
           Ret (UpdateOpts.mk (UpdateOpts.Name updateOpts) (Some asu)
                  (UpdateOpts.GatewayInfo updateOpts))
         else Ret updateOpts) ;;
      let updateGatewaySettings := false in
      let externalGateway := "" in
      let gatewayInfo := GatewayInfo.mk "" None in
      v <- asString (Get d "external_gateway") ;;
      let externalGateway := if bool_decide (v ≠ "") then v else externalGateway in
      let gatewayInfo :=
        if bool_decide (externalGateway ≠ "")
        then GatewayInfo.mk externalGateway (GatewayInfo.EnableSNAT gatewayInfo)
        else gatewayInfo in
      let updateGatewaySettings :=
        if HasChange d "external_gateway" then true else updateGatewaySettings in
      withSnat <-
        (if HasChange d "enable_snat" then
           if bool_decide (externalGateway = "") then
             Ret (inl (fmterr.Errorf
                         "setting enable_snat requires external_gateway to be set" []))
           else
             enableSNAT <- asBool (Get d "enable_snat") ;;
             Ret (inr (true,
                       GatewayInfo.mk (GatewayInfo.NetworkID gatewayInfo) (Some enableSNAT)))
         else Ret (inr (updateGatewaySettings, gatewayInfo))) ;;
      match withSnat with
      | inl diags => Ret (diags, d)
      | inr (updateGatewaySettings, gatewayInfo) =>
          let updateOpts :=
            if updateGatewaySettings : bool
            then UpdateOpts.mk (UpdateOpts.Name updateOpts)
                   (UpdateOpts.AdminStateUp updateOpts) (Some gatewayInfo)
            else updateOpts in
          x <- sdk (routers.Update (Id d) updateOpts) ;;
          let '(_, err) := x in
          match err with
          | Some err =>
              Ret (fmterr.Errorf "error updating OpenTelekomCloud Neutron Router: %s" [err], d)
          | None => resourceNetworkingRouterV2Read d meta
          end
      end
  end.

(** The [StateChangeConf] of Delete. *)
Definition deleteStateConf (d : ResourceData)
  : StateChangeConf routers.result Router.t :=
  {| Pending := ["ACTIVE"];
     Target := ["DELETED"];
     Refresh := waitForRouterDelete (Id d);
     Timeout := schema.Timeout d TimeoutDelete;
     Delay := 5;
     MinTimeout := 3 |}.

Definition resourceNetworkingRouterV2Delete
    (d : ResourceData) (meta : Config) : M (Diagnostics * ResourceData) :=
  match NetworkingV2Client meta (GetRegion meta d) with
  | Some err =>
      Ret (fmterr.Errorf "error creating OpenTelekomCloud networking client: %s" [err], d)
  | None =>
      x <- WaitForState (deleteStateConf d) ;;
      let '(_, err) := x in
      match err with
      | Some err =>
          Ret (fmterr.Errorf "error deleting OpenTelekomCloud Neutron Router: %s" [err], d)
      | None => Ret ([], SetId d "")
      end
  end.
End vpc.

(** ** SFS file shares *)

(** The SDK package [openstack/sfs/v2/shares], as Create, Read and Delete use
    it. *)
Module shares.
Module Share.
Record t : Type := mk {
  ID : string;
  Name : string;
  ShareProto : string;
  Status : string;
  Size : Z;
  Description : string;
  ShareType : string;
  VolumeType : string;
  IsPublic : bool;
  AvailabilityZone : string;
  ExportLocation : string;
  Host : string;
  Metadata : gmap string string;
}.
End Share.

Module CreateOpts.
Record t : Type := mk {
  ShareProto : string;
  Size : Z;
  Name : string;
  Description : string;
  IsPublic : bool;
  Metadata : gmap string string;
  AvailabilityZone : string;
}.
End CreateOpts.

Module GrantAccessOpts.
Record t : Type := mk {
  AccessLevel : string;
  AccessType : string;
  AccessTo : string;
}.
End GrantAccessOpts.

Module AccessRight.
Record t : Type := mk {
  ID : string;
  State : string;
  AccessTo : string;
  AccessType : string;
  AccessLevel : string;
}.
End AccessRight.

Inductive call : Type :=
| Create (opts : CreateOpts.t)
| Get (id : string)
| GrantAccess (id : string) (opts : GrantAccessOpts.t)
| ListAccessRights (id : string)
| Delete (id : string).

(** What [Extract], [ExtractAccess], [ExtractAccessRights] and [ExtractErr]
    give for each call. *)
Definition result (c : call) : Type :=
  match c with
  | Create _ => (option Share.t * error)%type
  | Get _ => (option Share.t * error)%type
  | GrantAccess _ _ => (option AccessRight.t * error)%type
  | ListAccessRights _ => (list AccessRight.t * error)%type
  | Delete _ => error
  end.

Definition isGrantAccess (c : call) : bool :=
  match c with GrantAccess _ _ => true | _ => false end.
End shares.

Module sfs.
Import schema cfg resource.
Module Share := shares.Share.
Module CreateOpts := shares.CreateOpts.
Module GrantAccessOpts := shares.GrantAccessOpts.
Module AccessRight := shares.AccessRight.

Abbreviation M := (Prog shares.result).

Definition Schema : gmap string ValueType :=
  list_to_map [
    ("region", TypeString);
    ("share_proto", TypeString);
    ("size", TypeInt);
    ("name", TypeString);
    ("status", TypeString);
    ("description", TypeString);
    ("is_public", TypeBool);
    ("metadata", TypeMap);
    ("availability_zone", TypeString);
    ("access_level", TypeString);
    ("access_type", TypeString);
    ("access_to", TypeString);
    ("share_access_id", TypeString);
    ("access_rule_status", TypeString);
    ("host", TypeString);
    ("export_location", TypeString);
    ("volume_type", TypeString);
    ("share_type", TypeString)
  ].

Definition resourceSFSMetadataV2 (d : ResourceData) : M (gmap string string) :=
  raw <- asMap (Get d "metadata") ;;
  kvs <- forRange (λ kv, val <- asString kv.2 ;; Ret (kv.1, val)) (map_to_list raw) ;;
  Ret (list_to_map kvs).

Definition waitForSFSFileStatus (shareID : string)
  : StateRefreshFunc shares.result Share.t :=
  x <- sdk (shares.Get shareID) ;;
  let '(share, err) := x in
  match err with
  | Some err =>
      if isErrDefault404 err then Ret (Ptr share, "deleted", None)
      else Ret (Nil, "", Some err)
  | None =>
      share' <- deref share ;;
      Ret (Ptr share, Share.Status share', None)
  end.

(** The keys Read keeps: the two tests of the loop below, negated. *)
Definition keepMetadata (key : string) : bool :=
  negb (strings.HasPrefix key "#sfs")
  && negb (strings.Contains key "enterprise_project_id"
           || strings.Contains key "share_used").

(** One iteration of the loop that drops the system metadata. *)
Definition metadataStep (key val : string) (metadata : gmap string string)
  : gmap string string :=
  if strings.HasPrefix key "#sfs" then metadata
  else if strings.Contains key "enterprise_project_id"
          || strings.Contains key "share_used" then metadata
  else <[key := val]> metadata.

Definition userMetadata (m : gmap string string) : gmap string string :=
  map_fold metadataStep ∅ m.

Definition resourceSFSFileSystemV2Read
    (d : ResourceData) (meta : Config) : M (error * ResourceData) :=
  match SfsV2Client meta (GetRegion meta d) with
  | Some err =>
      Ret (fmt.Errorf "error creating OpenTelekomCloud File Share: %s" [err], d)
  | None =>
      x <- sdk (shares.Get (Id d)) ;;
      let '(share, err) := x in
      match err with
      | Some err =>
          if isErrDefault404 err then Ret (None, SetId d "")
          else Ret (fmt.Errorf "error retrieving OpenTelekomCloud Shares: %s" [err], d)
      | None =>
          share <- deref share ;;
          let '(d, errs1) := SetAll d [
            ("name", VString (Share.Name share));
            ("share_proto", VString (Share.ShareProto share));
            ("status", VString (Share.Status share));
            ("size", VInt (Share.Size share));
            ("description", VString (Share.Description share));
            ("share_type", VString (Share.ShareType share));
            ("volume_type", VString (Share.VolumeType share));
            ("is_public", VBool (Share.IsPublic share));
            ("availability_zone", VString (Share.AvailabilityZone share))] in
          let '(d, errs2) := SetAll d [("region", VString (GetRegion meta d))] in
          let '(d, errs3) := SetAll d [
            ("export_location", VString (Share.ExportLocation share));
            ("host", VString (Share.Host share))] in
          let mErr := multierror.Append [] (errs1 ++ errs2 ++ errs3) in
          let metadata := userMetadata (Share.Metadata share) in
          let '(d, err) := Set_ d "metadata" (VMap (VString <$> metadata)) in
          match err with
          | Some err => Ret (Some err, d)
          | None =>
              y <- sdk (shares.ListAccessRights (Id d)) ;;
              let '(rules, err) := y in
              match err with
              | Some err =>
                  if isErrDefault404 err then Ret (None, SetId d "")
                  else Ret (fmt.Errorf "error retrieving OpenTelekomCloud Shares: %s" [err], d)
              | None =>
                  match rules with
                  | [] => Ret (None, d)
                  | rule :: _ =>
                      let '(d, errs4) := SetAll d [
                        ("share_access_id", VString (AccessRight.ID rule));
                        ("access_rule_status", VString (AccessRight.State rule));
                        ("access_to", VString (AccessRight.AccessTo rule));
                        ("access_type", VString (AccessRight.AccessType rule));
                        ("access_level", VString (AccessRight.AccessLevel rule))] in
                      let mErr := multierror.Append mErr errs4 in
                      Ret (multierror.ErrorOrNil mErr, d)
                  end
              end
          end
      end
  end.

(** The [StateChangeConf] of Create. *)
Definition createStateConf (d : ResourceData) (id : string)
  : StateChangeConf shares.result Share.t :=
  {| Pending := ["creating"];
     Target := ["available"];
     Refresh := waitForSFSFileStatus id;
     Timeout := schema.Timeout d TimeoutCreate;
     Delay := 5;
     MinTimeout := 3 |}.

Definition resourceSFSFileSystemV2Create
    (d : ResourceData) (meta : Config) : M (error * ResourceData) :=
  match SfsV2Client meta (GetRegion meta d) with
  | Some err =>
      Ret (fmt.Errorf "error creating OpenTelekomCloud File Share Client: %s" [err], d)
  | None =>
      share_proto <- asString (Get d "share_proto") ;;
      size <- asInt (Get d "size") ;;
      name <- asString (Get d "name") ;;
      description <- asString (Get d "description") ;;
      is_public <- asBool (Get d "is_public") ;;
      metadata <- resourceSFSMetadataV2 d ;;
      availability_zone <- asString (Get d "availability_zone") ;;
      let createOpts :=
        CreateOpts.mk share_proto size name description is_public metadata
          availability_zone in
      x <- sdk (shares.Create createOpts) ;;
      let '(share, err) := x in
      match err with
      | Some err =>
          Ret (fmt.Errorf "error creating OpenTelekomCloud File Share: %s" [err], d)
      | None =>
          share <- deref share ;;
          let stateConf := createStateConf d (Share.ID share) in
          w <- WaitForState stateConf ;;
          let '(_, err) := w in
          match err with
          | Some err =>
              Ret (fmt.Errorf "error applying access rules to share file: %s" [err], d)
          | None =>
              access_level <- asString (Get d "access_level") ;;
              access_type <- asString (Get d "access_type") ;;
              access_to <- asString (Get d "access_to") ;;
              let grantAccessOpts :=
                GrantAccessOpts.mk access_level access_type access_to in
              g <- sdk (shares.GrantAccess (Share.ID share) grantAccessOpts) ;;
              let '(_, err) := g in
              match err with
              | Some err =>
                  Ret (fmt.Errorf "error applying access rules to share file: %s" [err], d)
              | None =>
                  let d := SetId d (Share.ID share) in
                  resourceSFSFileSystemV2Read d meta
              end
          end
      end
  end.

(** The [StateChangeConf] of Delete. *)
Definition deleteStateConf (d : ResourceData)
  : StateChangeConf shares.result Share.t :=
  {| Pending := ["available"; "deleting"];
     Target := ["deleted"];
     Refresh := waitForSFSFileStatus (Id d);
     Timeout := schema.Timeout d TimeoutDelete;
     Delay := 5;
     MinTimeout := 3 |}.

Definition resourceSFSFileSystemV2Delete
    (d : ResourceData) (meta : Config) : M (error * ResourceData) :=
  match SfsV2Client meta (GetRegion meta d) with
  | Some err =>
      Ret (fmt.Errorf "error creating OpenTelekomCloud Shared File: %s" [err], d)
  | None =>
      err <- sdk (shares.Delete (Id d)) ;;
      match err with
      | Some err =>
          Ret (fmt.Errorf "error deleting OpenTelekomCloud Shared File: %s" [err], d)
      | None =>
          x <- WaitForState (deleteStateConf d) ;;
          let '(_, err) := x in
          match err with
          | Some err =>
              Ret (fmt.Errorf "error deleting OpenTelekomCloud Share File: %s" [err], d)
          | None => Ret (None, SetId d "")
          end
      end
  end.
End sfs.

(** * Scenarios

    Concrete resources and clouds on which the properties below are
    exercised. *)

Module scenario.
Import schema cfg.

(** A provider configuration whose clients can all be built. *)
Definition meta : Config :=
  {| GetRegion := λ _, "eu-de";
     NetworkingV2Client := λ _, None;
     SfsV2Client := λ _, None;
     WafV1Client := λ _, None |}.

(** A new resource: no ID, no prior state, nothing written yet. *)
Definition planned (s : gmap string ValueType) (plan : list (string * Value))
  : ResourceData :=
  {| rd_schema := s; rd_id := ""; rd_state := ∅; rd_plan := list_to_map plan;
     rd_set := ∅; rd_timeout := λ _, 3%nat |}.

(** A resource that is in the state under [id]. *)
Definition existing (s : gmap string ValueType) (id : string)
    (state plan : list (string * Value)) : ResourceData :=
  {| rd_schema := s; rd_id := id; rd_state := list_to_map state;
     rd_plan := list_to_map plan; rd_set := ∅; rd_timeout := λ _, 3%nat |}.
End scenario.

Module waf_scenario.
Import schema cfg scenario.
Module Condition := preciseprotection_rules.Condition.
Module Action := preciseprotection_rules.Action.
Module CreateOpts := preciseprotection_rules.CreateOpts.
Module Precise := preciseprotection_rules.Precise.

Definition blocks : list waf.ConditionBlock :=
  [ waf.Block "url" "" 1 ["/admin"; "/login"];
    waf.Block "header" "x-token" 3 [] ].

(** A rule with both [start] and [end] configured. *)
Definition rule : ResourceData :=
  planned waf.Schema [
    ("policy_id", VString "p1");
    ("name", VString "rule");
    ("time", VBool true);
    ("start", VString "1700000000");
    ("end", VString "1800000000");
    ("conditions", VList (waf.blockValue <$> blocks));
    ("action_category", VString "block");
    ("priority", VInt 7)
  ].

(** The same rule with an [end] that is not a number. *)
Definition ruleBadEnd : ResourceData :=
  planned waf.Schema [
    ("policy_id", VString "p1");
    ("name", VString "rule");
    ("time", VBool true);
    ("start", VString "1700000000");
    ("end", VString "tomorrow");
    ("conditions", VList (waf.blockValue <$> blocks));
    ("action_category", VString "block");
    ("priority", VInt 7)
  ].

(** What the service holds: the rules it was asked to create, newest
    first. *)
Definition World : Type := list CreateOpts.t.

Definition stored (opts : CreateOpts.t) : Precise.t :=
  Precise.mk "r1" "p1" (CreateOpts.Name opts) (CreateOpts.Time opts)
    (CreateOpts.Start opts) (CreateOpts.End_ opts) (CreateOpts.Conditions opts)
    (CreateOpts.Action opts) (default 0 (CreateOpts.Priority opts)).

(** A service that stores what it is sent and serves the newest rule. *)
Definition cloud : Cloud preciseprotection_rules.result World :=
  λ c w,
    match c with
    | preciseprotection_rules.Create _ opts => ((Some (stored opts), None), opts :: w)
    | preciseprotection_rules.Get _ _ =>
        match w with
        | opts :: _ => ((Some (stored opts), None), w)
        | [] => ((None, Some (ErrDefault404 "not found")), w)
        end
    | preciseprotection_rules.Delete _ _ => (None, [])
    end.

(** A service that fails every call with a 500. *)
Definition brokenCloud : Cloud preciseprotection_rules.result World :=
  λ c w,
    match c with
    | preciseprotection_rules.Create _ _ => ((None, Some (ErrSdk "500")), w)
    | preciseprotection_rules.Get _ _ => ((None, Some (ErrSdk "500")), w)
    | preciseprotection_rules.Delete _ _ => (Some (ErrSdk "500"), w)
    end.

(** What Create sends for [rule], as the code has it. *)
Definition sentOpts : CreateOpts.t :=
  CreateOpts.mk "rule" true 1700000000 0 (waf.toCondition <$> blocks)
    (Action.mk "block") (Some 7).

(** The rule once it is in the state. *)
Definition inState : ResourceData :=
  existing waf.Schema "r1" [("policy_id", VString "p1")] [("policy_id", VString "p1")].
End waf_scenario.


Module vpc_scenario.
Import schema cfg scenario.
Module GatewayInfo := routers.GatewayInfo.
Module Router := routers.Router.

(** What the next Get finds. *)
Inductive answer : Type :=
| Found (status : string)
| Gone
| Broken.

(** The answers the coming Gets will see, in order; once they are used up
    the router is ACTIVE. *)
Definition World : Type := list answer.

Definition router (status : string) : Router.t :=
  Router.mk status (GatewayInfo.mk "" None) true false "router" "r1" "".

Definition cloud : Cloud routers.result World :=
  λ c w,
    match c with
    | routers.Create _ => ((Some (router "BUILD"), None), w)
    | routers.Get _ =>
        match w with
        | Found s :: w' => ((Some (router s), None), w')
        | Gone :: w' => ((None, Some (ErrDefault404 "router not found")), w')
        | Broken :: w' => ((None, Some (ErrSdk "500 internal server error")), w')
        | [] => ((Some (router "ACTIVE"), None), [])
        end
    | routers.Update _ _ => ((Some (router "ACTIVE"), None), w)
    | routers.Delete _ => (None, w)
    end.

(** A router that is only given a name. *)
Definition named : ResourceData :=
  planned vpc.Schema [("name", VString "router")].

(** A router with [enable_snat = false] and no external gateway. *)
Definition snatOff : ResourceData :=
  planned vpc.Schema [("name", VString "router"); ("enable_snat", VBool false)].

(** A router with [enable_snat = true] and no external gateway. *)
Definition snatOn : ResourceData :=
  planned vpc.Schema [("name", VString "router"); ("enable_snat", VBool true)].

(** A router in the state with a gateway and [enable_snat = true], whose
    configuration drops the gateway and keeps [enable_snat]. *)
Definition gatewayDropped : ResourceData :=
  existing vpc.Schema "r1"
    [("name", VString "router"); ("external_gateway", VString "net-1");
     ("enable_snat", VBool true)]
    [("name", VString "router"); ("enable_snat", VBool true)].

(** The same router with [enable_snat] being switched off. *)
Definition snatChanged : ResourceData :=
  existing vpc.Schema "r1"
    [("name", VString "router"); ("enable_snat", VBool true)]
    [("name", VString "router"); ("enable_snat", VBool false)].

(** A router that is in the state. *)
Definition inState : ResourceData :=
  existing vpc.Schema "r1" [("name", VString "router")] [("name", VString "router")].
End vpc_scenario.

Module sfs_scenario.
Import schema cfg scenario.
Module Share := shares.Share.
Module AccessRight := shares.AccessRight.

(** What the next Get finds. *)
Inductive answer : Type :=
| Found (status : string)
| Gone
| Broken.

(** The answers the coming Gets will see, in order (once they are used up
    the share is available), and whether granting access is refused. *)
Record World : Type := {
  gets : list answer;
  grantRefused : bool;
}.

Definition metadata : gmap string string :=
  list_to_map [
    ("#sfs_quota_type", "normal");
    ("enterprise_project_id", "0");
    ("share_used", "1024");
    ("owner", "storage-team")
  ].

Definition share (status : string) : Share.t :=
  Share.mk "s1" "share" "NFS" status 10 "" "default" "default" false "eu-de-01"
    "sfs.example:/share-s1" "host" metadata.

Definition right : AccessRight.t :=
  AccessRight.mk "a1" "active" "vpc-1" "cert" "rw".

Definition cloud : Cloud shares.result World :=
  λ c w,
    match c with
    | shares.Create _ => ((Some (share "creating"), None), w)
    | shares.Get _ =>
        match gets w with
        | Found s :: rest =>
            ((Some (share s), None), {| gets := rest; grantRefused := grantRefused w |})
        | Gone :: rest =>
            ((None, Some (ErrDefault404 "share not found")),
             {| gets := rest; grantRefused := grantRefused w |})
        | Broken :: rest =>
            ((None, Some (ErrSdk "500 internal server error")),
             {| gets := rest; grantRefused := grantRefused w |})
        | [] => ((Some (share "available"), None), w)
        end
    | shares.GrantAccess _ _ =>
        if grantRefused w then ((None, Some (ErrSdk "403 forbidden")), w)
        else ((Some right, None), w)
    | shares.ListAccessRights _ => (([right], None), w)
    | shares.Delete _ => (None, w)
    end.

Definition planValues : list (string * Value) :=
  [ ("name", VString "share");
    ("size", VInt 10);
    ("share_proto", VString "NFS");
    ("access_level", VString "rw");
    ("access_type", VString "cert");
    ("access_to", VString "vpc-1") ].

(** A share about to be created. *)
Definition new : ResourceData := planned sfs.Schema planValues.

(** A share in the state. *)
Definition inState : ResourceData := existing sfs.Schema "s1" planValues planValues.

Definition quiet (l : list answer) : World := {| gets := l; grantRefused := false |}.
Definition refusing (l : list answer) : World := {| gets := l; grantRefused := true |}.
End sfs_scenario.

(** * Vocabulary of the properties *)

Module verdict.
Import schema resource.

(** A wait ended without error. *)
Definition waitSucceeded {T W C : Type}
    (x : Outcome (iface T * error) * W * list C) : Prop :=
  ∃ res, x.1.1 = Returned (res, None).

(** A handler returned, and the resource it leaves behind has no ID. *)
Definition idCleared {A W C : Type}
    (x : Outcome (A * ResourceData) * W * list C) : Prop :=
  ∃ a d', x.1.1 = Returned (a, d') ∧ Id d' = "".

(** A string starts with, or contains, another. *)
Definition startsWith (s pre : string) : Prop := ∃ rest, s = pre +:+ rest.
Definition containsStr (s substr : string) : Prop :=
  ∃ before after, s = before +:+ substr +:+ after.
End verdict.

(** * Update of a file share *)

(** The calls of the package [shares] that only Update issues, added to the
    calls of Create, Read and Delete. *)
Module shares_update.
Module UpdateOpts.
Record t : Type := mk {
  DisplayName : string;
  DisplayDescription : string;
}.
End UpdateOpts.

Module DeleteAccessOpts.
Record t : Type := mk { AccessID : string }.
End DeleteAccessOpts.

Module OSExtendOpts.
Record t : Type := mk { NewSize : Z }.
End OSExtendOpts.

Module ExpandOpts.
Record t : Type := mk { OSExtend : OSExtendOpts.t }.
End ExpandOpts.

Module OSShrinkOpts.
Record t : Type := mk { NewSize : Z }.
End OSShrinkOpts.

Module ShrinkOpts.
Record t : Type := mk { OSShrink : OSShrinkOpts.t }.
End ShrinkOpts.

Inductive call : Type :=
| Base (c : shares.call)
| Update (id : string) (opts : UpdateOpts.t)
| DeleteAccess (id : string) (opts : DeleteAccessOpts.t)
| Expand (id : string) (opts : ExpandOpts.t)
| Shrink (id : string) (opts : ShrinkOpts.t).

(** What [Extract], the [Err] field and [ExtractErr] give for each call. *)
Definition result (c : call) : Type :=
  match c with
  | Base c => shares.result c
  | Update _ _ => (option shares.Share.t * error)%type
  | DeleteAccess _ _ => error
  | Expand _ _ => error
  | Shrink _ _ => error
  end.

(** A program over the calls of Create, Read and Delete, run where the calls
    of Update are available too. *)
Fixpoint liftBase {A} (p : Prog shares.result A) : Prog result A :=
  match p with
  | Ret a => Ret a
  | Panic msg => Panic msg
  | Vis c k => Vis (Base c) (λ r, liftBase (k r))
  end.

(** The cloud of Update, seen through the calls of Create, Read and
    Delete. *)
Definition baseCloud {W} (h : Cloud result W) : Cloud shares.result W :=
  λ c w, h (Base c) w.
End shares_update.

Module sfs_update.
Import schema cfg.
Module UpdateOpts := shares_update.UpdateOpts.
Module DeleteAccessOpts := shares_update.DeleteAccessOpts.
Module ExpandOpts := shares_update.ExpandOpts.
Module OSExtendOpts := shares_update.OSExtendOpts.
Module ShrinkOpts := shares_update.ShrinkOpts.
Module OSShrinkOpts := shares_update.OSShrinkOpts.
Module GrantAccessOpts := shares.GrantAccessOpts.

Abbreviation M := (Prog shares_update.result).

(** The three blocks of Update; each gives the error Update returns from
    inside the block, or nil when the block runs through. *)
Definition resourceSFSFileSystemV2Update
    (d : ResourceData) (meta : Config) : M (error * ResourceData) :=
  match SfsV2Client meta (GetRegion meta d) with
  | Some err =>
      Ret (fmt.Errorf "error updating OpenTelekomCloud Share File: %s" [err], d)
  | None =>
      renamed <-
        (if HasChange d "description" || HasChange d "name" then
           name <- asString (Get d "name") ;;
           description <- asString (Get d "description") ;;
           let updateOpts := UpdateOpts.mk name description in
           x <- sdk (shares_update.Update (Id d) updateOpts) ;;
           let '(_, err) := x in
           match err with
           | Some err =>
               Ret (fmt.Errorf "error updating OpenTelekomCloud Share File: %s" [err])
           | None => Ret None
           end
         else Ret None) ;;
      match renamed with
      | Some err => Ret (Some err, d)
      | None =>
          regranted <-
            (if HasChange d "access_to" || HasChange d "access_level"
                || HasChange d "access_type" then
               share_access_id <- asString (Get d "share_access_id") ;;
               let deleteAccessOpts := DeleteAccessOpts.mk share_access_id in
               err <- sdk (shares_update.DeleteAccess (Id d) deleteAccessOpts) ;;
               match err with
               | Some err =>
                   Ret (fmt.Errorf "error changing access rules for share file: %s" [err])
               | None =>
                   access_level <- asString (Get d "access_level") ;;
                   access_type <- asString (Get d "access_type") ;;
                   access_to <- asString (Get d "access_to") ;;
                   let grantAccessOpts :=
                     GrantAccessOpts.mk access_level access_type access_to in
                   g <- sdk (shares_update.Base (shares.GrantAccess (Id d) grantAccessOpts)) ;;
                   let '(_, err) := g in
                   match err with
                   | Some err =>
                       Ret (fmt.Errorf "error changing access rules for share file: %s"
                              [err])
                   | None => Ret None
                   end
               end
             else Ret None) ;;
          match regranted with
          | Some err => Ret (Some err, d)
          | None =>
              resized <-
                (if HasChange d "size" then
                   let '(oldSizeRaw, newSizeRaw) := GetChange d "size" in
                   newSize <- asInt newSizeRaw ;;
                   oldSize <- asInt oldSizeRaw ;;
                   if oldSize <? newSize then
                     let expandOpts := ExpandOpts.mk (OSExtendOpts.mk newSize) in
                     err <- sdk (shares_update.Expand (Id d) expandOpts) ;;
                     match err with
                     | Some err =>
                         Ret (fmt.Errorf
                                "error expanding OpenTelekomCloud Share File size: %s" [err])
                     | None => Ret None
                     end
                   else
                     let shrinkOpts := ShrinkOpts.mk (OSShrinkOpts.mk newSize) in
                     err <- sdk (shares_update.Shrink (Id d) shrinkOpts) ;;
                     match err with
                     | Some err =>
                         Ret (fmt.Errorf
                                "error shrinking OpenTelekomCloud Share File size: %s" [err])
                     | None => Ret None
                     end
                 else Ret None) ;;
              match resized with
              | Some err => Ret (Some err, d)
              | None =>
                  shares_update.liftBase (sfs.resourceSFSFileSystemV2Read d meta)
              end
          end
      end
  end.
End sfs_update.

Module vpc_scenario_more.
Import schema cfg scenario vpc_scenario.

(** A router behind a gateway, with source NAT asked for and the admin state
    configured down. *)
Definition gatewayed : ResourceData :=
  planned vpc.Schema [
    ("name", VString "edge");
    ("admin_state_up", VBool false);
    ("external_gateway", VString "net-1");
    ("enable_snat", VBool true)
  ].

(** What Create sends for it. *)
Definition gatewayedOpts : routers.RouterCreateOpts.t :=
  routers.RouterCreateOpts.mk
    (routers.CreateOpts.mk "edge" None None ""
       (Some (routers.GatewayInfo.mk "net-1" (Some true))))
    ∅.

(** A router in the state whose name and admin state are being changed. *)
Definition renamed : ResourceData :=
  existing vpc.Schema "r1"
    [("name", VString "router"); ("admin_state_up", VBool true)]
    [("name", VString "edge"); ("admin_state_up", VBool false)].

(** A cloud that refuses every call with a 500. *)
Definition refusing : Cloud routers.result World :=
  λ c w,
    match c with
    | routers.Create _ => ((None, Some (ErrSdk "500")), w)
    | routers.Get _ => ((None, Some (ErrSdk "500")), w)
    | routers.Update _ _ => ((None, Some (ErrSdk "500")), w)
    | routers.Delete _ => (Some (ErrSdk "500"), w)
    end.
End vpc_scenario_more.

(** The string a value of a map of strings holds. *)
Definition stringOf (v : Value) : string :=
  match v with VString s => s | _ => "" end.

Module sfs_scenario_more.
Import schema cfg scenario sfs_scenario.

(** A share with metadata of its own. *)
Definition labelled : ResourceData :=
  planned sfs.Schema
    (("metadata", VMap (VString <$> {["owner" := "storage-team"]})) :: planValues).

(** A cloud that refuses every call with a 500. *)
Definition refusingAll : Cloud shares.result World :=
  λ c w,
    match c with
    | shares.Create _ => ((None, Some (ErrSdk "500")), w)
    | shares.Get _ => ((None, Some (ErrSdk "500")), w)
    | shares.GrantAccess _ _ => ((None, Some (ErrSdk "500")), w)
    | shares.ListAccessRights _ => (([], Some (ErrSdk "500")), w)
    | shares.Delete _ => (Some (ErrSdk "500"), w)
    end.

(** The cloud of [sfs_scenario] with the calls of Update: every one of them
    is accepted, unless the world is one that refuses grants, in which case
    revoking access is refused too. *)
Definition updateCloud : Cloud shares_update.result World :=
  λ c w,
    match c with
    | shares_update.Base c => cloud c w
    | shares_update.Update _ _ => ((Some (share "available"), None), w)
    | shares_update.DeleteAccess _ _ =>
        (if grantRefused w then Some (ErrSdk "403 forbidden") else None, w)
    | shares_update.Expand _ _ => (None, w)
    | shares_update.Shrink _ _ => (None, w)
    end.

Definition stateValues : list (string * Value) :=
  ("share_access_id", VString "a1") :: planValues.

(** A share in the state that is being grown from 10 to 20. *)
Definition grown : ResourceData :=
  existing sfs.Schema "s1" stateValues
    (("size", VInt 20) :: ("share_access_id", VString "a1") :: planValues).



(** A share in the state with nothing to change. *)
Definition settled : ResourceData :=
  existing sfs.Schema "s1" stateValues stateValues.
End sfs_scenario_more.

Module sfs_scenario_read.
Import schema cfg scenario sfs_scenario.

(** The cloud of [sfs_scenario], except that listing the access rights of a
    share gives [listed]. *)
Definition listing (listed : list AccessRight.t * error)
  : Cloud shares.result World :=
  λ c w,
    match c as c0 return shares.result c0 * World with
    | shares.ListAccessRights _ => (listed, w)
    | c0 => cloud c0 w
    end.

(** A share in the state whose access rule is known. *)
Definition ruled : ResourceData :=
  existing sfs.Schema "s1" sfs_scenario_more.stateValues sfs_scenario_more.stateValues.
End sfs_scenario_read.


Module sfs_scenario_update.
Import schema cfg scenario sfs_scenario.

End sfs_scenario_update.


(** * Properties *)

(** ** Running programs *)

Section RunFacts.
Context {call : Type} {result : call → Type} {W : Type}.
Implicit Types h : Cloud result W.

Lemma run_bind {A B} h (m : Prog result A) (f : A → Prog result B) w :
  run h (x <- m ;; f x) w =
    match run h m w with
    | (Returned a, w1, l1) =>
        let '(o, w2, l2) := run h (f a) w1 in (o, w2, (l1 ++ l2)%list)
    | (Panicked msg, w1, l1) => (Panicked msg, w1, l1)
    end.
Proof.
  revert w; induction m as [a|msg|c k IH]; intros w; cbn.
  - by destruct (run h (f a) w) as [[o w2] l2].
  - done.
  - destruct (h c w) as [r w1]. rewrite IH.
    destruct (run h (k r) w1) as [[[a|msg] w2] l1]; [|done].
    by destruct (run h (f a) w2) as [[o w3] l2].
Qed.

Lemma run_sdk h (c : call) w :
  run h (sdk c) w = (Returned (h c w).1, (h c w).2, [c]).
Proof. cbn. by destruct (h c w). Qed.

Lemma forRange_ret {A B} (f : A → Prog result B) (g : A → B) (l : list A) :
  (∀ x, x ∈ l → f x = Ret (g x)) → forRange f l = Ret (g <$> l).
Proof.
  induction l as [|x l IH]; intros Hf; [done|]. cbn.
  rewrite Hf by left. cbn. rewrite IH; [done|].
  intros y Hy. apply Hf. by right.
Qed.
End RunFacts.

Lemma forRange_fmap_ret {call} {result : call → Type} {A B C}
    (f : B → Prog result C) (e : A → B) (g : A → C) (l : list A) :
  (∀ x, f (e x) = Ret (g x)) → forRange f (e <$> l) = Ret (g <$> l).
Proof.
  intros Hf. induction l as [|x l IH]; [done|].
  cbn. rewrite Hf. cbn. fold (fmap e l). by rewrite IH.
Qed.

(** ** WAF precise protection rules *)

Section WafFacts.
Import schema cfg waf.

Lemma blockValue_fields (b : ConditionBlock) (m : gmap string Value) :
  blockValue b = VMap m →
  index m "category" = VString (category b)
  ∧ index m "index" = VString (index_ b)
  ∧ index m "logic" = VInt (logic b)
  ∧ index m "contents" = VList (VString <$> contents b).
Proof. intros [= <-]. by vm_compute. Qed.

Lemma getConditions_blocks (d : ResourceData) (bs : list ConditionBlock) :
  Get d "conditions" = VList (blockValue <$> bs) →
  getConditions d = Ret (toCondition <$> bs).
Proof.
  intros Hd. unfold getConditions. rewrite Hd. cbn [asList bind].
  apply forRange_fmap_ret. intros b.
  destruct (blockValue_fields b _ eq_refl) as (Hc & Hi & Hl & Hs).
  cbn [blockValue asMap bind]. rewrite Hs, Hc, Hi, Hl. cbn [asList bind].
  rewrite (forRange_fmap_ret asString VString id) by done.
  cbn. by rewrite list_fmap_id.
Qed.
End WafFacts.

(** ** Reading back what [d.Set] wrote *)

Section SchemaFacts.
Import schema.
Implicit Types d : ResourceData.

Lemma schema_Set d k v : rd_schema (Set_ d k v).1 = rd_schema d.
Proof. unfold Set_. by destruct (rd_schema d !! k). Qed.

Lemma schema_SetId d id : rd_schema (SetId d id) = rd_schema d.
Proof. done. Qed.

Lemma Id_Set d k v : Id (Set_ d k v).1 = Id d.
Proof. unfold Set_. by destruct (rd_schema d !! k). Qed.

Lemma Id_SetId d id : Id (SetId d id) = id.
Proof. done. Qed.

Lemma Get_SetId d id k : Get (SetId d id) k = Get d k.
Proof. done. Qed.

Lemma Set_known d k v :
  is_Some (rd_schema d !! k) → (Set_ d k v).2 = None.
Proof. intros [t Ht]. unfold Set_. by rewrite Ht. Qed.

Lemma Get_Set_eq d k v :
  is_Some (rd_schema d !! k) → Get (Set_ d k v).1 k = v.
Proof.
  intros [t Ht]. unfold Get, Set_, readLevel. rewrite Ht. cbn.
  rewrite Ht. by erewrite lookup_union_Some_l by apply lookup_insert_eq.
Qed.

Lemma Get_Set_ne d k k' v : k ≠ k' → Get (Set_ d k v).1 k' = Get d k'.
Proof.
  intros Hne. unfold Get, Set_, readLevel.
  destruct (rd_schema d !! k); [|done]. cbn.
  by rewrite !lookup_union, lookup_insert_ne.
Qed.

(** A key outside the schema is never reported as set. *)
Lemma GetOk_unknown d k : rd_schema d !! k = None → GetOk d k = (VNil, false).
Proof. intros Hk. unfold GetOk, readLevel. by rewrite Hk. Qed.
End SchemaFacts.

Lemma FormatInt_decimal (z : Z) :
  Z.of_int <$> NilZero.int_of_string (strconv.FormatInt z) = Some z.
Proof.
  unfold strconv.FormatInt. rewrite NilZero.isi.
  - cbn. by rewrite DecimalZ.of_to.
  - destruct z as [|p|p]; [done| |done].
    intros [= Hp]. by apply (DecimalPos.Unsigned.to_uint_nonnil p).
  - destruct z as [|p|p]; [done|done|].
    intros [= Hp]. by apply (DecimalPos.Unsigned.to_uint_nonnil p).
Qed.

Section WafHandlers.
Import schema cfg waf.
Context {W : Type}.
Implicit Types (h : Cloud preciseprotection_rules.result W) (d : ResourceData).

Local Ltac no_call := cbn; try by intros ?%elem_of_nil.

(** Read only ever issues Get. *)
Lemma waf_read_calls h w d meta c :
  c ∈ calls (run h (resourceWafPreciseProtectionRuleV1Read d meta) w) →
  ∃ pid id, c = preciseprotection_rules.Get pid id.
Proof.
  unfold resourceWafPreciseProtectionRuleV1Read.
  destruct (WafV1Client meta _); no_call.
  destruct (Get d "policy_id") as [|pid| | | |]; no_call.
  destruct (h _ w) as [[n [e|]] w1]; cbn.
  - destruct (isErrDefault404 e); cbn; intros ->%list_elem_of_singleton; eauto.
  - destruct n; cbn; intros ->%list_elem_of_singleton; eauto.
Qed.

(** [getConditions] issues no call: it returns or panics. *)
Lemma forRange_no_call {A B} (f : A → waf.M B) (l : list A) :
  (∀ x, (∃ b, f x = Ret b) ∨ (∃ msg, f x = Panic msg)) →
  (∃ bs, forRange f l = Ret bs) ∨ (∃ msg, forRange f l = Panic msg).
Proof.
  intros Hf. induction l as [|x l IH]; cbn; [by eauto|].
  destruct (Hf x) as [[b ->]|[msg ->]]; cbn; [|by eauto].
  destruct IH as [[bs ->]|[msg ->]]; cbn; eauto.
Qed.

Lemma getConditions_no_call d :
  (∃ conds, getConditions d = Ret conds) ∨ (∃ msg, getConditions d = Panic msg).
Proof.
  unfold getConditions.
  destruct (Get d "conditions") as [| | | |l|]; cbn; try by eauto.
  apply forRange_no_call. intros v.
  destruct v as [| | | | |m]; cbn; try by eauto.
  destruct (index m "contents") as [| | | |cs|]; cbn; try by eauto.
  destruct (forRange_no_call asString cs) as [[ss ->]|[msg ->]]; cbn; try by eauto.
  { intros c. destruct c; cbn; eauto. }
  destruct (index m "category"); cbn; try by eauto.
  destruct (index m "index"); cbn; try by eauto.
  destruct (index m "logic"); cbn; by eauto.
Qed.

(** What a create request sent by Create carries: the conditions
    [getConditions] built; the parsed [start] when [d.GetOk] reports [start]
    as set, zero otherwise; and for End the same, with the guard the code has,
    [d.GetOk("cache_control")]. *)
Lemma waf_create_sends h w d meta pid opts :
  preciseprotection_rules.Create pid opts
    ∈ calls (run h (resourceWafPreciseProtectionRuleV1Create d meta) w) →
  getConditions d = Ret (CreateOpts.Conditions opts)
  ∧ (if (GetOk d "start").2
     then ∃ s, Get d "start" = VString s
               ∧ strconv.ParseInt s = (CreateOpts.Start opts, None)
     else CreateOpts.Start opts = 0)
  ∧ (if (GetOk d "cache_control").2
     then ∃ s, Get d "end" = VString s
               ∧ strconv.ParseInt s = (CreateOpts.End_ opts, None)
     else CreateOpts.End_ opts = 0).
Proof.
  unfold resourceWafPreciseProtectionRuleV1Create.
  destruct (WafV1Client meta _); no_call.
  destruct (Get d "priority"); no_call.
  destruct (Get d "name"); no_call.
  destruct (Get d "time"); no_call.
  destruct (getConditions_no_call d) as [[conds ->]|[msg ->]]; no_call.
  unfold getPreciseAction.
  destruct (Get d "action_category"); no_call.
  set (o0 := CreateOpts.mk _ _ _ _ _ _ _).
  assert (∀ o : CreateOpts.t,
    preciseprotection_rules.Create pid opts
      ∈ calls (run h
          (policy_id <- asString (Get d "policy_id") ;;
           r <- sdk (preciseprotection_rules.Create policy_id o) ;;
           let '(rule, err) := r in
           match err with
           | Some err =>
               Ret (fmterr.Errorf
                      "error creating OpenTelekomcomCloud WAF Precise Protection Rule: %s"
                      [err], d)
           | None =>
               rule <- deref rule ;;
               let d := SetId d (Precise.Id rule) in
               resourceWafPreciseProtectionRuleV1Read d meta
           end) w) →
    opts = o) as Hsend.
  { intros o. destruct (Get d "policy_id"); no_call.
    destruct (h _ w) as [[rule [e|]] w1]; cbn.
    - by intros [= _ ->]%list_elem_of_singleton.
    - destruct rule as [rule|]; cbn.
      + destruct (run h _ w1) as [[out w2] log] eqn:Hrun. cbn.
        intros [[= _ ->]|Hin]%elem_of_cons; [done|].
        assert (Hin' : preciseprotection_rules.Create pid opts
                  ∈ calls (run h (resourceWafPreciseProtectionRuleV1Read
                                    (SetId d (Precise.Id rule)) meta) w1))
          by by rewrite Hrun.
        by destruct (waf_read_calls _ _ _ _ _ Hin') as (? & ? & ?).
      + by intros [= _ ->]%list_elem_of_singleton. }
  destruct (GetOk d "start") as [? []]; cbn.
  - destruct (Get d "start") as [|s1| | | |]; no_call.
    destruct (strconv.ParseInt s1) as [z1 [e|]] eqn:Hp1; no_call.
    destruct (GetOk d "cache_control") as [? []]; cbn.
    + destruct (Get d "end") as [|s2| | | |]; no_call.
      destruct (strconv.ParseInt s2) as [z2 [e|]] eqn:Hp2; no_call.
      intros ->%Hsend. cbn. split_and!; eauto.
    + intros ->%Hsend. cbn. split_and!; eauto.
  - destruct (GetOk d "cache_control") as [? []]; cbn.
    + destruct (Get d "end") as [|s2| | | |]; no_call.
      destruct (strconv.ParseInt s2) as [z2 [e|]] eqn:Hp2; no_call.
      intros ->%Hsend. cbn. split_and!; eauto.
    + by intros ->%Hsend.
Qed.

(** Whatever Create sends carries the conditions of the configured blocks. *)
Lemma waf_create_payload_conditions h w d meta bs pid opts :
  Get d "conditions" = VList (blockValue <$> bs) →
  preciseprotection_rules.Create pid opts
    ∈ calls (run h (resourceWafPreciseProtectionRuleV1Create d meta) w) →
  CreateOpts.Conditions opts = toCondition <$> bs.
Proof.
  intros Hd [Hconds _]%waf_create_sends.
  rewrite (getConditions_blocks d bs Hd) in Hconds. by simplify_eq.
Qed.

(** The start half of C2 holds: a create request carries the parsed
    [start]. *)
Lemma waf_create_sends_start h w d meta s z pid opts :
  (GetOk d "start").2 = true →
  Get d "start" = VString s →
  strconv.ParseInt s = (z, None) →
  preciseprotection_rules.Create pid opts
    ∈ calls (run h (resourceWafPreciseProtectionRuleV1Create d meta) w) →
  CreateOpts.Start opts = z.
Proof.
  intros Hok Hs Hp (_ & Hstart & _)%waf_create_sends.
  rewrite Hok in Hstart. destruct Hstart as (s' & Hs' & Hp').
  rewrite Hs in Hs'. injection Hs' as <-. rewrite Hp in Hp'. by injection Hp'.
Qed.

(** The end half does not: whatever [end] is configured to, a create request
    for a resource with the schema of this file carries End = 0. *)
Lemma waf_create_sends_no_end h w d meta pid opts :
  rd_schema d = waf.Schema →
  preciseprotection_rules.Create pid opts
    ∈ calls (run h (resourceWafPreciseProtectionRuleV1Create d meta) w) →
  CreateOpts.End_ opts = 0.
Proof.
  intros Hs (_ & _ & Hend)%waf_create_sends.
  by rewrite GetOk_unknown in Hend by (by rewrite Hs).
Qed.
End WafHandlers.

(** C4.  The conditions of the create request mirror the configured
    [conditions] blocks one to one: [getConditions] returns as many conditions
    as there are blocks, in the same order, the i-th with the category, index,
    logic and contents of the i-th block; and a create request that
    [resourceWafPreciseProtectionRuleV1Create] sends carries exactly these
    conditions. *)
Theorem waf_conditions_one_to_one
    {W : Type} (h : Cloud preciseprotection_rules.result W) (w : W)
    (d : schema.ResourceData) (meta : cfg.Config) (bs : list waf.ConditionBlock) :
  schema.Get d "conditions" = VList (waf.blockValue <$> bs) →
  ∃ conds : list waf.Condition.t,
    waf.getConditions d = Ret conds
    ∧ length conds = length bs
    ∧ (∀ (i : nat) (b : waf.ConditionBlock), bs !! i = Some b →
         ∃ c, conds !! i = Some c
           ∧ waf.Condition.Category c = waf.category b
           ∧ waf.Condition.Index c = waf.index_ b
           ∧ waf.Condition.Logic c = waf.logic b
           ∧ waf.Condition.Contents c = waf.contents b)
    ∧ (∀ pid opts,
         preciseprotection_rules.Create pid opts
           ∈ calls (run h (waf.resourceWafPreciseProtectionRuleV1Create d meta) w) →
         waf.CreateOpts.Conditions opts = conds).
Proof.
  intros Hd. exists (waf.toCondition <$> bs). split_and!.
  - by apply getConditions_blocks.
  - by rewrite length_fmap.
  - intros i b Hb. exists (waf.toCondition b).
    by rewrite list_lookup_fmap, Hb.
  - intros pid opts. by apply waf_create_payload_conditions.
Qed.

Lemma waf_conditions_one_to_one_witness :
  schema.Get waf_scenario.rule "conditions"
    = VList (waf.blockValue <$> waf_scenario.blocks)
  ∧ ∃ conds : list waf.Condition.t,
      waf.getConditions waf_scenario.rule = Ret conds
      ∧ length conds = 2%nat.
Proof.
  split; [by vm_compute|].
  destruct (waf_conditions_one_to_one waf_scenario.cloud [] waf_scenario.rule
              scenario.meta waf_scenario.blocks) as (conds & Hc & Hl & _).
  - by vm_compute.
  - exists conds. by split.
Defined.

(** C5.  When Get succeeds, Read of a WAF rule returns no error and leaves
    policy_id, name, time, start, end, conditions (one map per condition of
    the response, with its category, index, logic and contents),
    action_category and priority set from the response; start and end are the
    decimal renderings of the response's numbers. *)
Theorem waf_read_sets_state
    {W : Type} (h : Cloud preciseprotection_rules.result W) (w w' : W)
    (d : schema.ResourceData) (meta : cfg.Config) (pid : string)
    (n : waf.Precise.t) :
  schema.rd_schema d = waf.Schema →
  cfg.WafV1Client meta (cfg.GetRegion meta d) = None →
  schema.Get d "policy_id" = VString pid →
  h (preciseprotection_rules.Get pid (schema.Id d)) w = ((Some n, None), w') →
  ∃ d' : schema.ResourceData,
    run h (waf.resourceWafPreciseProtectionRuleV1Read d meta) w
      = (Returned ([], d'), w', [preciseprotection_rules.Get pid (schema.Id d)])
    ∧ schema.Id d' = waf.Precise.Id n
    ∧ schema.Get d' "policy_id" = VString (waf.Precise.PolicyID n)
    ∧ schema.Get d' "name" = VString (waf.Precise.Name n)
    ∧ schema.Get d' "time" = VBool (waf.Precise.Time n)
    ∧ schema.Get d' "start" = VString (strconv.FormatInt (waf.Precise.Start n))
    ∧ schema.Get d' "end" = VString (strconv.FormatInt (waf.Precise.End_ n))
    ∧ Z.of_int <$> NilZero.int_of_string (strconv.FormatInt (waf.Precise.Start n))
        = Some (waf.Precise.Start n)
    ∧ Z.of_int <$> NilZero.int_of_string (strconv.FormatInt (waf.Precise.End_ n))
        = Some (waf.Precise.End_ n)
    ∧ (∃ l : list Value,
         schema.Get d' "conditions" = VList l
         ∧ length l = length (waf.Precise.Conditions n)
         ∧ ∀ (i : nat) (c : waf.Condition.t), waf.Precise.Conditions n !! i = Some c →
             ∃ m : gmap string Value,
               l !! i = Some (VMap m)
               ∧ m !! "category" = Some (VString (waf.Condition.Category c))
               ∧ m !! "index" = Some (VString (waf.Condition.Index c))
               ∧ m !! "logic" = Some (VInt (waf.Condition.Logic c))
               ∧ m !! "contents" = Some (VList (VString <$> waf.Condition.Contents c)))
    ∧ schema.Get d' "action_category"
        = VString (waf.Action.Category (waf.Precise.Action n))
    ∧ schema.Get d' "priority" = VInt (waf.Precise.Priority n).
Proof.
  intros Hs Hclient Hpid Hget.
  unfold waf.resourceWafPreciseProtectionRuleV1Read.
  rewrite Hclient, Hpid. cbn. rewrite Hget. cbn.
  eexists. split; [reflexivity|].
  assert (Hknown : ∀ d0 k, schema.rd_schema d0 = waf.Schema →
            is_Some (waf.Schema !! k) → is_Some (schema.rd_schema d0 !! k))
    by (by intros d0 k ->).
  assert (Hin : ∀ k, k ∈ ["policy_id"; "name"; "time"; "start"; "end"; "conditions";
                          "action_category"; "priority"] →
                 is_Some (waf.Schema !! k)).
  { intros k Hk. repeat (apply elem_of_cons in Hk as [->|Hk]; [vm_compute; by eauto|]).
    by apply elem_of_nil in Hk. }
  split_and!;
    try (rewrite ?Id_Set; done);
    try apply FormatInt_decimal;
    try (rewrite ?Get_Set_ne by done; apply Get_Set_eq, Hknown;
         [by rewrite ?schema_Set, ?schema_SetId | apply Hin; set_solver]).
  eexists. split; [|split].
  - rewrite ?Get_Set_ne by done. apply Get_Set_eq, Hknown;
      [by rewrite ?schema_Set, ?schema_SetId | apply Hin; set_solver].
  - by rewrite length_fmap.
  - intros i c Hc. eexists. rewrite list_lookup_fmap, Hc. cbn.
    split; [reflexivity|]. by vm_compute.
Qed.

Lemma waf_read_sets_state_witness :
  ∃ d' : schema.ResourceData,
    outcome (run waf_scenario.cloud
               (waf.resourceWafPreciseProtectionRuleV1Read waf_scenario.inState scenario.meta)
               [waf_scenario.sentOpts]) = Returned ([], d')
    ∧ schema.Get d' "start" = VString "1700000000"
    ∧ schema.Get d' "priority" = VInt 7.
Proof.
  destruct (waf_read_sets_state waf_scenario.cloud
              [waf_scenario.sentOpts] [waf_scenario.sentOpts]
              waf_scenario.inState scenario.meta "p1"
              (waf_scenario.stored waf_scenario.sentOpts))
    as (d' & Hrun & _ & _ & _ & _ & Hstart & _ & _ & _ & _ & _ & Hprio);
    [reflexivity | reflexivity | reflexivity | reflexivity |].
  exists d'. rewrite Hrun. by split_and!.
Defined.

(** C2 fails on the code.  For a rule that configures both [start] and [end],
    the create request carries the parsed [start] and leaves End at zero: the
    block that parses [end] is guarded by [d.GetOk("cache_control")], a key
    the schema does not have.  With an [end] that is not a number Create
    reports no conversion error either. *)
Theorem waf_create_end_never_sent :
  schema.GetOk waf_scenario.rule "end" = (VString "1800000000", true)
  ∧ strconv.ParseInt "1800000000" = (1800000000, None)
  ∧ calls (run waf_scenario.cloud
             (waf.resourceWafPreciseProtectionRuleV1Create waf_scenario.rule scenario.meta) [])
      = [preciseprotection_rules.Create "p1" waf_scenario.sentOpts;
         preciseprotection_rules.Get "p1" "r1"]
  ∧ waf.CreateOpts.Start waf_scenario.sentOpts = 1700000000
  ∧ waf.CreateOpts.End_ waf_scenario.sentOpts = 0
  ∧ schema.GetOk waf_scenario.ruleBadEnd "end" = (VString "tomorrow", true)
  ∧ strconv.ParseInt "tomorrow" = (0, Some (NumError "ParseInt" "tomorrow" ErrSyntax))
  ∧ ∃ d' : schema.ResourceData,
      outcome (run waf_scenario.cloud
                 (waf.resourceWafPreciseProtectionRuleV1Create waf_scenario.ruleBadEnd
                    scenario.meta) [])
        = Returned ([], d').
Proof. split_and!; try by vm_compute. eexists. by vm_compute. Qed.

(** ** Well-typed resources *)

Section Typed.
Import schema.
Context {call : Type} {result : call → Type}.
Implicit Types d : ResourceData.

Lemma readLevel_typed d k t :
  wellTyped d = true → rd_schema d !! k = Some t →
  hasType t (readLevel d (rd_set d ∪ rd_plan d) k).1 = true.
Proof.
  intros Hd%bool_decide_eq_true Hk. unfold readLevel. rewrite Hk.
  destruct ((rd_set d ∪ rd_plan d) !! k) as [v|] eqn:Hv; cbn.
  - specialize (Hd k v Hv). cbn in Hd. by rewrite Hk in Hd.
  - destruct t; cbn; [done..|]. apply bool_decide_eq_true, map_Forall_empty.
Qed.

Lemma Get_string d k :
  wellTyped d = true → rd_schema d !! k = Some TypeString → ∃ s, Get d k = VString s.
Proof.
  intros Hd Hk. pose proof (readLevel_typed d k _ Hd Hk) as Ht.
  unfold Get. destruct (readLevel _ _ _).1; try done. eauto.
Qed.

Lemma Get_bool d k :
  wellTyped d = true → rd_schema d !! k = Some TypeBool → ∃ b, Get d k = VBool b.
Proof.
  intros Hd Hk. pose proof (readLevel_typed d k _ Hd Hk) as Ht.
  unfold Get. destruct (readLevel _ _ _).1; try done. eauto.
Qed.

Lemma GetOk_bool d k :
  wellTyped d = true → rd_schema d !! k = Some TypeBool →
  ∃ b, (GetOk d k).1 = VBool b.
Proof.
  intros Hd Hk. pose proof (readLevel_typed d k _ Hd Hk) as Ht.
  unfold GetOk. destruct (readLevel _ _ _) as [v ok]. rewrite Hk. cbn in *.
  destruct v; try done. eauto.
Qed.

Lemma Get_stringMap d k :
  wellTyped d = true → rd_schema d !! k = Some TypeMap →
  ∃ m, Get d k = VMap m ∧ map_Forall (λ _ x, isString x = true) m.
Proof.
  intros Hd Hk. pose proof (readLevel_typed d k _ Hd Hk) as Ht.
  unfold Get. destruct (readLevel _ _ _).1 as [| | | | |m]; try done.
  exists m. split; [done|]. by apply bool_decide_eq_true in Ht.
Qed.

Lemma forRange_strings (l : list (string * Value)) :
  Forall (λ kv, isString kv.2 = true) l →
  ∃ kvs : list (string * string),
    forRange (result := result) (λ kv, val <- asString kv.2 ;; Ret (kv.1, val)) l = Ret kvs.
Proof.
  induction 1 as [|[k v] l Hv _ [kvs IH]]; [by exists []|].
  destruct v; try done. cbn. rewrite IH. cbn. eauto.
Qed.

Lemma MapValueSpecs_typed d :
  wellTyped d = true → rd_schema d !! "value_specs" = Some TypeMap →
  ∃ m, common.MapValueSpecs (result := result) d = Ret m.
Proof.
  intros Hd Hk. destruct (Get_stringMap d _ Hd Hk) as (raw & Hraw & Hall).
  unfold common.MapValueSpecs. rewrite Hraw. cbn.
  destruct (forRange_strings (map_to_list raw)) as [kvs Hkvs].
  - apply Forall_forall. intros [k v] Hkv%elem_of_map_to_list. by apply (Hall k v).
  - rewrite Hkvs. cbn. eauto.
Qed.
End Typed.

(** ** Neutron routers *)

(** C1 fails on the code.  Create does wait for the router before it sets the
    ID, but the error of the wait is assigned and never looked at: with a
    router that comes up in status ERROR the wait fails with an unexpected
    state, and with one that stays in BUILD it times out, and both times
    Create goes on to set the ID and returns what Read returns, here no
    error. *)
Theorem router_create_ignores_wait_error :
  (∃ res,
     outcome (run vpc_scenario.cloud
                (resource.WaitForState (vpc.createStateConf vpc_scenario.named "r1"))
                [vpc_scenario.Found "ERROR"; vpc_scenario.Found "ERROR"])
       = Returned (res, Some (UnexpectedStateError "ERROR")))
  ∧ (∃ d',
       outcome (run vpc_scenario.cloud
                  (vpc.resourceNetworkingRouterV2Create vpc_scenario.named scenario.meta)
                  [vpc_scenario.Found "ERROR"; vpc_scenario.Found "ERROR"])
         = Returned ([], d')
       ∧ schema.Id d' = "r1")
  ∧ (∃ res,
       outcome (run vpc_scenario.cloud
                  (resource.WaitForState (vpc.createStateConf vpc_scenario.named "r1"))
                  (replicate 4 (vpc_scenario.Found "BUILD")))
         = Returned (res, Some (TimeoutError "BUILD")))
  ∧ (∃ d',
       outcome (run vpc_scenario.cloud
                  (vpc.resourceNetworkingRouterV2Create vpc_scenario.named scenario.meta)
                  (replicate 4 (vpc_scenario.Found "BUILD")))
         = Returned ([], d')
       ∧ schema.Id d' = "r1").
Proof. split_and!; eexists; by vm_compute. Qed.

(** C6 fails on the code.  When Get fails it hands back no router, and the
    refresh function of the Create wait reads [r.Status] from it on the error
    path: the call panics instead of returning a triple, and so does a Create
    whose wait meets a failing Get. *)
Theorem router_active_refresh_panics_on_get_error :
  vpc_scenario.cloud (routers.Get "r1") [vpc_scenario.Broken]
    = ((None, Some (ErrSdk "500 internal server error")), [])
  ∧ outcome (run vpc_scenario.cloud (vpc.waitForRouterActive "r1") [vpc_scenario.Broken])
      = Panicked "invalid memory address or nil pointer dereference"
  ∧ outcome (run vpc_scenario.cloud
               (vpc.resourceNetworkingRouterV2Create vpc_scenario.named scenario.meta)
               [vpc_scenario.Broken])
      = Panicked "invalid memory address or nil pointer dereference".
Proof. split_and!; by vm_compute. Qed.

(** Whenever Get returns an error and no router, the refresh function
    panics. *)
Lemma waitForRouterActive_nil_panics
    {W : Type} (h : Cloud routers.result W) (w w' : W) (id : string) (e : Err) :
  h (routers.Get id) w = ((None, Some e), w') →
  ∃ msg, run h (vpc.waitForRouterActive id) w = (Panicked msg, w', [routers.Get id]).
Proof. intros Hget. unfold vpc.waitForRouterActive. cbn. rewrite Hget. cbn. eauto. Qed.

(** On any cloud, once the router is created, what Create returns does not
    depend on the error of its wait: whatever the wait returns, Create sets
    the ID and goes on with Read. *)
Lemma router_create_after_wait
    {W : Type} (h : Cloud routers.result W) (w w1 : W)
    (d : schema.ResourceData) (meta : cfg.Config) (n : vpc.Router.t) :
  schema.rd_schema d = vpc.Schema →
  schema.wellTyped d = true →
  cfg.NetworkingV2Client meta (cfg.GetRegion meta d) = None →
  (schema.GetOk d "enable_snat").2 = false →
  (∀ opts, h (routers.Create opts) w = ((Some n, None), w1)) →
  ∃ opts,
    run h (vpc.resourceNetworkingRouterV2Create d meta) w =
      match run h (resource.WaitForState (vpc.createStateConf d (vpc.Router.ID n))) w1 with
      | (Returned _, w2, l2) =>
          let '(o, w3, l3) :=
            run h (vpc.resourceNetworkingRouterV2Read
                     (schema.SetId d (vpc.Router.ID n)) meta) w2 in
          (o, w3, routers.Create opts :: (l2 ++ l3)%list)
      | (Panicked msg, w2, l2) => (Panicked msg, w2, routers.Create opts :: l2)
      end.
Proof.
  intros Hs Hd Hclient Hsnat Hcreate.
  assert (Hty : ∀ k t, vpc.Schema !! k = Some t → schema.rd_schema d !! k = Some t)
    by (by rewrite Hs).
  destruct (Get_string d "name" Hd) as [name Hname]; [by apply Hty|].
  destruct (Get_string d "tenant_id" Hd) as [tenant Htenant]; [by apply Hty|].
  destruct (Get_string d "external_gateway" Hd) as [gw Hgw]; [by apply Hty|].
  destruct (GetOk_bool d "admin_state_up" Hd) as [asu Hasu]; [by apply Hty|].
  destruct (GetOk_bool d "distributed" Hd) as [dist Hdist]; [by apply Hty|].
  destruct (MapValueSpecs_typed (result := routers.result) d Hd) as [specs Hspecs];
    [by apply Hty|].
  unfold vpc.resourceNetworkingRouterV2Create.
  rewrite Hclient, Hname, Htenant. cbn [asString bind]. rewrite Hspecs. cbn [bind].
  destruct (schema.GetOk d "admin_state_up") as [v1 ok1]; cbn in Hasu; subst v1.
  destruct (schema.GetOk d "distributed") as [v2 ok2]; cbn in Hdist; subst v2.
  destruct (schema.GetOk d "enable_snat") as [v3 ok3]; cbn in Hsnat; subst ok3.
  rewrite Hgw.
  destruct ok1, ok2; cbn [asBool asString bind sdk run]; rewrite Hcreate;
    cbn [bind deref]; rewrite run_bind; eexists;
    (destruct (run h (resource.WaitForState _) w1) as [[[res|msg] w2] l2];
     [by destruct (run h _ w2) as [[o w3] l3] | done]).
Qed.

(** C8 as stated fails on the code: a configuration that sets
    [enable_snat = false] without a gateway is created without complaint
    ([d.GetOk] does not report a false as set), and an update that drops the
    gateway of a router and leaves [enable_snat = true] as it is goes through
    ([enable_snat] has not changed). *)
Lemma router_snat_unguarded :
  schema.rd_plan vpc_scenario.snatOff !! "enable_snat" = Some (VBool false)
  ∧ schema.Get vpc_scenario.snatOff "external_gateway" = VString ""
  ∧ (∃ opts d',
       run vpc_scenario.cloud
         (vpc.resourceNetworkingRouterV2Create vpc_scenario.snatOff scenario.meta) []
       = (Returned ([], d'), [],
          [routers.Create opts; routers.Get "r1"; routers.Get "r1"]))
  ∧ schema.rd_plan vpc_scenario.gatewayDropped !! "enable_snat" = Some (VBool true)
  ∧ schema.Get vpc_scenario.gatewayDropped "external_gateway" = VString ""
  ∧ (∃ opts d',
       run vpc_scenario.cloud
         (vpc.resourceNetworkingRouterV2Update vpc_scenario.gatewayDropped scenario.meta)
         []
       = (Returned ([], d'), [], [routers.Update "r1" opts; routers.Get "r1"])).
Proof. split_and!; try by vm_compute. all: do 2 eexists; by vm_compute. Qed.

(** C8, amended.  With the networking client at hand and [external_gateway]
    empty, a Create for which [d.GetOk] reports [enable_snat] as set, and an
    Update for which [enable_snat] has changed, return the error "setting
    enable_snat requires external_gateway to be set" without having issued a
    single SDK call: the cloud is as it was. *)
Theorem router_snat_requires_gateway
    {W : Type} (h : Cloud routers.result W) (w : W)
    (d : schema.ResourceData) (meta : cfg.Config) :
  schema.rd_schema d = vpc.Schema →
  schema.wellTyped d = true →
  cfg.NetworkingV2Client meta (cfg.GetRegion meta d) = None →
  schema.Get d "external_gateway" = VString "" →
  ((schema.GetOk d "enable_snat").2 = true →
     run h (vpc.resourceNetworkingRouterV2Create d meta) w
       = (Returned (fmterr.Errorf
                      "setting enable_snat requires external_gateway to be set" [], d),
          w, []))
  ∧ (schema.HasChange d "enable_snat" = true →
       run h (vpc.resourceNetworkingRouterV2Update d meta) w
         = (Returned (fmterr.Errorf
                        "setting enable_snat requires external_gateway to be set" [], d),
            w, [])).
Proof.
  intros Hs Hd Hclient Hgw.
  assert (Hty : ∀ k t, vpc.Schema !! k = Some t → schema.rd_schema d !! k = Some t)
    by (by rewrite Hs).
  destruct (Get_string d "name" Hd) as [name Hname]; [by apply Hty|].
  destruct (Get_string d "tenant_id" Hd) as [tenant Htenant]; [by apply Hty|].
  destruct (Get_bool d "admin_state_up" Hd) as [asu Hasu]; [by apply Hty|].
  destruct (GetOk_bool d "admin_state_up" Hd) as [asu' Hasu']; [by apply Hty|].
  destruct (GetOk_bool d "distributed" Hd) as [dist Hdist]; [by apply Hty|].
  destruct (MapValueSpecs_typed (result := routers.result) d Hd) as [specs Hspecs];
    [by apply Hty|].
  split.
  - intros Hsnat. unfold vpc.resourceNetworkingRouterV2Create.
    rewrite Hclient, Hname, Htenant. cbn. rewrite Hspecs. cbn.
    destruct (schema.GetOk d "admin_state_up") as [v1 [|]]; cbn in Hasu'; subst v1;
      destruct (schema.GetOk d "distributed") as [v2 [|]]; cbn in Hdist; subst v2;
      cbn; rewrite Hgw; cbn;
      destruct (schema.GetOk d "enable_snat") as [v3 ok]; cbn in Hsnat; subst ok;
      reflexivity.
  - intros Hsnat. unfold vpc.resourceNetworkingRouterV2Update.
    rewrite Hclient, Hname, Hasu, Hgw, Hsnat.
    by destruct (schema.HasChange d "name"), (schema.HasChange d "admin_state_up").
Qed.

Lemma router_snat_requires_gateway_witness :
  run vpc_scenario.cloud
    (vpc.resourceNetworkingRouterV2Create vpc_scenario.snatOn scenario.meta) []
    = (Returned (fmterr.Errorf
                   "setting enable_snat requires external_gateway to be set" [],
                 vpc_scenario.snatOn), [], [])
  ∧ run vpc_scenario.cloud
      (vpc.resourceNetworkingRouterV2Update vpc_scenario.snatChanged scenario.meta) []
      = (Returned (fmterr.Errorf
                     "setting enable_snat requires external_gateway to be set" [],
                   vpc_scenario.snatChanged), [], []).
Proof.
  assert (Hs1 : schema.rd_schema vpc_scenario.snatOn = vpc.Schema) by reflexivity.
  assert (Hs2 : schema.rd_schema vpc_scenario.snatChanged = vpc.Schema) by reflexivity.
  assert (Ht1 : schema.wellTyped vpc_scenario.snatOn = true) by (vm_compute; reflexivity).
  assert (Ht2 : schema.wellTyped vpc_scenario.snatChanged = true)
    by (vm_compute; reflexivity).
  assert (Hg1 : schema.Get vpc_scenario.snatOn "external_gateway" = VString "")
    by (vm_compute; reflexivity).
  assert (Hg2 : schema.Get vpc_scenario.snatChanged "external_gateway" = VString "")
    by (vm_compute; reflexivity).
  assert (Hok : (schema.GetOk vpc_scenario.snatOn "enable_snat").2 = true)
    by (vm_compute; reflexivity).
  assert (Hch : schema.HasChange vpc_scenario.snatChanged "enable_snat" = true)
    by (vm_compute; reflexivity).
  split.
  - exact (proj1 (router_snat_requires_gateway vpc_scenario.cloud []
                    vpc_scenario.snatOn scenario.meta Hs1 Ht1 eq_refl Hg1) Hok).
  - exact (proj2 (router_snat_requires_gateway vpc_scenario.cloud []
                    vpc_scenario.snatChanged scenario.meta Hs2 Ht2 eq_refl Hg2) Hch).
Defined.

(** ** Waiting *)

Section WaitFacts.
Import resource.
Context {call : Type} {result : call → Type} {T W : Type}.
Implicit Types (h : Cloud result W) (conf : StateChangeConf result T).

(** A first refresh that reports a target state ends the wait at once. *)
Lemma wait_target_first_round h conf w w' l p s :
  (0 < Timeout conf)%nat →
  run h (Refresh conf) w = (Returned (Ptr p, s, None), w', l) →
  s ∈ Target conf →
  run h (WaitForState conf) w = (Returned (Ptr p, None), w', l).
Proof.
  intros Hfuel Hr Hs. unfold WaitForState.
  destruct (Timeout conf) as [|n]; [lia|]. cbn [waitLoop].
  rewrite run_bind, Hr. cbn. unfold stateIn. rewrite bool_decide_eq_true_2 by done.
  cbn. by rewrite app_nil_r.
Qed.

(** A wait that is given no round times out. *)
Lemma wait_no_round h conf w :
  Timeout conf = 0%nat →
  run h (WaitForState conf) w = (Returned (Nil, Some (TimeoutError "")), w, []).
Proof. intros Hfuel. unfold WaitForState. by rewrite Hfuel. Qed.

(** A wait for a target state succeeds only through a refresh that reports
    one of the target states, without error; the wait ends where that refresh
    ends. *)
Lemma waitLoop_succeeded h conf :
  Target conf ≠ [] →
  ∀ rounds tick last w res w' l,
    run h (waitLoop conf rounds tick last) w = (Returned (res, None), w', l) →
    ∃ w0 l0 s,
      run h (Refresh conf) w0 = (Returned (res, s, None), w', l0)
      ∧ s ∈ Target conf.
Proof.
  intros Htarget. induction rounds as [|n IH]; intros tick last w res w' l; [done|].
  cbn [waitLoop]. rewrite run_bind.
  destruct (run h (Refresh conf) w) as [[[[[res1 s] err]|msg] w1] l1] eqn:Hr; [|done].
  cbv beta iota zeta. destruct err as [e|]; [cbn; by intros [=]|].
  destruct res1 as [|p].
  - rewrite bool_decide_eq_false_2 by done.
    destruct (NotFoundChecks <? S tick)%nat; [cbn; by intros [=]|].
    destruct (run h (waitLoop _ _ _ _) w1) as [[o w2] l2] eqn:Hrest.
    intros [= -> -> _]. by eapply IH.
  - destruct (stateIn s (Target conf)) eqn:Hs.
    { cbn. intros [= <- <- _]. exists w, l1, s. split; [done|].
      by apply bool_decide_eq_true in Hs. }
    destruct (stateIn s (Pending conf)).
    { destruct (run h (waitLoop _ _ _ _) w1) as [[o w2] l2] eqn:Hrest.
      intros [= -> -> _]. by eapply IH. }
    destruct (negb _); [cbn; by intros [=]|].
    destruct (run h (waitLoop _ _ _ _) w1) as [[o w2] l2] eqn:Hrest.
    intros [= -> -> _]. by eapply IH.
Qed.

(** A wait whose refreshes keep reporting a pending state runs out of
    rounds and ends with a timeout. *)
Lemma waitLoop_pending_times_out h conf :
  (∀ w, ∃ p s w' l,
     run h (Refresh conf) w = (Returned (Ptr p, s, None), w', l)
     ∧ stateIn s (Target conf) = false
     ∧ stateIn s (Pending conf) = true) →
  ∀ rounds tick last w, ∃ s w' l,
    run h (waitLoop conf rounds tick last) w
      = (Returned (Nil, Some (TimeoutError s)), w', l).
Proof.
  intros Hpending. induction rounds as [|n IH]; intros tick last w.
  { cbn. eauto. }
  cbn [waitLoop]. rewrite run_bind.
  destruct (Hpending w) as (p & s & w1 & l1 & -> & Ht & Hp).
  cbv beta iota zeta. rewrite Ht, Hp.
  destruct (IH O s w1) as (s' & w2 & l2 & ->). eauto.
Qed.
End WaitFacts.

Section RouterWaits.
Import schema cfg resource verdict.
Context {W : Type}.
Implicit Types (h : Cloud routers.result W) (d : ResourceData).

Lemma router_delete_run h w d meta :
  NetworkingV2Client meta (GetRegion meta d) = None →
  run h (vpc.resourceNetworkingRouterV2Delete d meta) w =
    match run h (WaitForState (vpc.deleteStateConf d)) w with
    | (Returned (_, Some e), w', l) =>
        (Returned (fmterr.Errorf "error deleting OpenTelekomCloud Neutron Router: %s" [e],
                   d), w', l)
    | (Returned (_, None), w', l) => (Returned ([], SetId d ""), w', l)
    | (Panicked msg, w', l) => (Panicked msg, w', l)
    end.
Proof.
  intros Hclient. unfold vpc.resourceNetworkingRouterV2Delete.
  rewrite Hclient, run_bind.
  destruct (run h _ w) as [[[[res [e|]]|msg] w'] l]; cbn; by rewrite ?app_nil_r.
Qed.

Lemma router_delete_refresh_get_404 h w w' id r e :
  h (routers.Get id) w = ((r, Some e), w') → isErrDefault404 e = true →
  run h (vpc.waitForRouterDelete id) w
    = (Returned (Ptr r, "DELETED", None), w', [routers.Get id]).
Proof. intros Hget He. unfold vpc.waitForRouterDelete. cbn. by rewrite Hget, He. Qed.

Lemma router_delete_refresh_delete_404 h w w1 w2 id r e :
  h (routers.Get id) w = ((r, None), w1) →
  h (routers.Delete id) w1 = (Some e, w2) → isErrDefault404 e = true →
  run h (vpc.waitForRouterDelete id) w
    = (Returned (Ptr r, "DELETED", None), w2, [routers.Get id; routers.Delete id]).
Proof.
  intros Hget Hdel He. unfold vpc.waitForRouterDelete. cbn.
  rewrite Hget. cbn. by rewrite Hdel, He.
Qed.

(** The wait of Delete succeeds only on a 404, from Get or from Delete. *)
Lemma router_delete_wait_succeeded h w d res w' l :
  run h (WaitForState (vpc.deleteStateConf d)) w = (Returned (res, None), w', l) →
  ∃ w0,
    (∃ r e, h (routers.Get (Id d)) w0 = ((r, Some e), w') ∧ isErrDefault404 e = true)
    ∨ (∃ r w1 e,
         h (routers.Get (Id d)) w0 = ((r, None), w1)
         ∧ h (routers.Delete (Id d)) w1 = (Some e, w')
         ∧ isErrDefault404 e = true).
Proof.
  intros (w0 & l0 & s & Hr & Hs)%waitLoop_succeeded; [|done].
  exists w0. revert Hr. cbn.
  destruct (h (routers.Get (Id d)) w0) as [[r [e|]] w1] eqn:Hget; cbn.
  - destruct (isErrDefault404 e) eqn:He; cbn; [|by intros [=]].
    intros [= _ _ <-]. left. eauto.
  - destruct (h (routers.Delete (Id d)) w1) as [[e|] w2] eqn:Hdel; cbn.
    + destruct (isErrDefault404 e) eqn:He; cbn; [|by intros [=]].
      intros [= _ _ <-]. right. eauto 10.
    + intros [= _ <- _]. by apply list_elem_of_singleton in Hs.
Qed.

(** The wait of Create succeeds only on a Get that finds the router
    ACTIVE. *)
Lemma router_create_wait_succeeded h w d id res w' l :
  run h (WaitForState (vpc.createStateConf d id)) w = (Returned (res, None), w', l) →
  ∃ w0 r, h (routers.Get id) w0 = ((Some r, None), w') ∧ vpc.Router.Status r = "ACTIVE".
Proof.
  intros (w0 & l0 & s & Hr & Hs)%waitLoop_succeeded; [|done].
  exists w0. revert Hr. cbn.
  destruct (h (routers.Get id) w0) as [[[r|] [e|]] w1] eqn:Hget; cbn; try by intros [=].
  intros [= _ <- <-]. exists r. split; [done|]. by apply list_elem_of_singleton in Hs.
Qed.
End RouterWaits.

Section ShareWaits.
Import schema cfg resource verdict.
Context {W : Type}.
Implicit Types (h : Cloud shares.result W) (d : ResourceData).

Lemma share_delete_run h w w1 d meta :
  SfsV2Client meta (GetRegion meta d) = None →
  h (shares.Delete (Id d)) w = (None, w1) →
  run h (sfs.resourceSFSFileSystemV2Delete d meta) w =
    match run h (WaitForState (sfs.deleteStateConf d)) w1 with
    | (Returned (_, Some e), w', l) =>
        (Returned (fmt.Errorf "error deleting OpenTelekomCloud Share File: %s" [e], d),
         w', shares.Delete (Id d) :: l)
    | (Returned (_, None), w', l) =>
        (Returned (None, SetId d ""), w', shares.Delete (Id d) :: l)
    | (Panicked msg, w', l) => (Panicked msg, w', shares.Delete (Id d) :: l)
    end.
Proof.
  intros Hclient Hdel. unfold sfs.resourceSFSFileSystemV2Delete.
  rewrite Hclient. cbn [bind sdk run]. rewrite Hdel. cbn [bind].
  rewrite run_bind.
  destruct (run h _ w1) as [[[[res [e|]]|msg] w'] l]; cbn; by rewrite ?app_nil_r.
Qed.

Lemma share_delete_refused h w w1 d meta e :
  SfsV2Client meta (GetRegion meta d) = None →
  h (shares.Delete (Id d)) w = (Some e, w1) →
  run h (sfs.resourceSFSFileSystemV2Delete d meta) w
    = (Returned (fmt.Errorf "error deleting OpenTelekomCloud Shared File: %s" [e], d),
       w1, [shares.Delete (Id d)]).
Proof.
  intros Hclient Hdel. unfold sfs.resourceSFSFileSystemV2Delete.
  rewrite Hclient. cbn. by rewrite Hdel.
Qed.

Lemma share_refresh_get_404 h w w' id share e :
  h (shares.Get id) w = ((share, Some e), w') → isErrDefault404 e = true →
  run h (sfs.waitForSFSFileStatus id) w
    = (Returned (Ptr share, "deleted", None), w', [shares.Get id]).
Proof. intros Hget He. unfold sfs.waitForSFSFileStatus. cbn. by rewrite Hget, He. Qed.

(** The wait of Delete succeeds only on a Get answered with 404, or on one
    that finds the share in status deleted. *)
Lemma share_delete_wait_succeeded h w d res w' l :
  run h (WaitForState (sfs.deleteStateConf d)) w = (Returned (res, None), w', l) →
  ∃ w0,
    (∃ share e, h (shares.Get (Id d)) w0 = ((share, Some e), w')
                ∧ isErrDefault404 e = true)
    ∨ (∃ share, h (shares.Get (Id d)) w0 = ((Some share, None), w')
                ∧ sfs.Share.Status share = "deleted").
Proof.
  intros (w0 & l0 & s & Hr & Hs)%waitLoop_succeeded; [|done].
  exists w0. revert Hr. cbn.
  destruct (h (shares.Get (Id d)) w0) as [[share [e|]] w1] eqn:Hget; cbn.
  - destruct (isErrDefault404 e) eqn:He; cbn; [|by intros [=]].
    intros [= _ _ <-]. left. eauto.
  - destruct share as [share|]; cbn; [|by intros [=]].
    intros [= _ <- <-]. right. exists share. split; [done|].
    by apply list_elem_of_singleton in Hs.
Qed.

(** The wait of Create succeeds only on a Get that finds the share
    available. *)
Lemma share_create_wait_succeeded h w d id res w' l :
  run h (WaitForState (sfs.createStateConf d id)) w = (Returned (res, None), w', l) →
  ∃ w0 share,
    h (shares.Get id) w0 = ((Some share, None), w')
    ∧ sfs.Share.Status share = "available".
Proof.
  intros (w0 & l0 & s & Hr & Hs)%waitLoop_succeeded; [|done].
  exists w0. revert Hr. cbn.
  destruct (h (shares.Get id) w0) as [[share [e|]] w1] eqn:Hget; cbn.
  - destruct (isErrDefault404 e) eqn:He; cbn; [|by intros [=]].
    intros [= _ <- _]. by apply list_elem_of_singleton in Hs.
  - destruct share as [share|]; cbn; [|by intros [=]].
    intros [= _ <- <-]. exists share. split; [done|].
    by apply list_elem_of_singleton in Hs.
Qed.
End ShareWaits.

(** C7.  Delete of a router and Delete of a file share clear the ID exactly
    when the wait of their delete loop is reached and succeeds; when that wait
    ends with an error (a timeout is one) Delete returns an error built from
    it and leaves the resource, ID included, as it was.  The router's wait
    succeeds only through a Get or a Delete answered with 404, the share's
    only through a Get that is answered with 404 or finds the status deleted:
    in both refresh functions a Get answered with 404 counts as deleted, in
    the router's a Delete answered with 404 too, so that a 404 in the first
    round of a wait that is given one ends in a cleared ID. *)
Theorem delete_clears_id_iff_wait_succeeds
    {Wr Ws : Type} (hr : Cloud routers.result Wr) (hs : Cloud shares.result Ws)
    (wr : Wr) (ws : Ws) (dr ds : schema.ResourceData) (meta : cfg.Config) :
  schema.Id dr ≠ "" →
  schema.Id ds ≠ "" →
  let clientR := cfg.NetworkingV2Client meta (cfg.GetRegion meta dr) in
  let clientS := cfg.SfsV2Client meta (cfg.GetRegion meta ds) in
  let accepted := hs (shares.Delete (schema.Id ds)) ws in
  let waitR := run hr (resource.WaitForState (vpc.deleteStateConf dr)) wr in
  let deleteR := run hr (vpc.resourceNetworkingRouterV2Delete dr meta) wr in
  let waitS := run hs (resource.WaitForState (sfs.deleteStateConf ds)) accepted.2 in
  let deleteS := run hs (sfs.resourceSFSFileSystemV2Delete ds meta) ws in
  (verdict.idCleared deleteR ↔ clientR = None ∧ verdict.waitSucceeded waitR)
  ∧ (clientR = None → ∀ res e, outcome waitR = Returned (res, Some e) →
       outcome deleteR
         = Returned (fmterr.Errorf "error deleting OpenTelekomCloud Neutron Router: %s" [e],
                     dr))
  ∧ (verdict.idCleared deleteS ↔
       clientS = None ∧ accepted.1 = None ∧ verdict.waitSucceeded waitS)
  ∧ (clientS = None → accepted.1 = None →
       ∀ res e, outcome waitS = Returned (res, Some e) →
       outcome deleteS
         = Returned (fmt.Errorf "error deleting OpenTelekomCloud Share File: %s" [e], ds))
  ∧ (verdict.waitSucceeded waitR →
       ∃ w0,
         (∃ r e, hr (routers.Get (schema.Id dr)) w0 = ((r, Some e), world waitR)
                 ∧ isErrDefault404 e = true)
         ∨ (∃ r w1 e,
              hr (routers.Get (schema.Id dr)) w0 = ((r, None), w1)
              ∧ hr (routers.Delete (schema.Id dr)) w1 = (Some e, world waitR)
              ∧ isErrDefault404 e = true))
  ∧ (verdict.waitSucceeded waitS →
       ∃ w0,
         (∃ share e, hs (shares.Get (schema.Id ds)) w0 = ((share, Some e), world waitS)
                     ∧ isErrDefault404 e = true)
         ∨ (∃ share, hs (shares.Get (schema.Id ds)) w0 = ((Some share, None), world waitS)
                     ∧ sfs.Share.Status share = "deleted"))
  ∧ (∀ w w' r e,
       hr (routers.Get (schema.Id dr)) w = ((r, Some e), w') →
       isErrDefault404 e = true →
       outcome (run hr (vpc.waitForRouterDelete (schema.Id dr)) w)
         = Returned (resource.Ptr r, "DELETED", None))
  ∧ (∀ w w1 w2 r e,
       hr (routers.Get (schema.Id dr)) w = ((r, None), w1) →
       hr (routers.Delete (schema.Id dr)) w1 = (Some e, w2) →
       isErrDefault404 e = true →
       outcome (run hr (vpc.waitForRouterDelete (schema.Id dr)) w)
         = Returned (resource.Ptr r, "DELETED", None))
  ∧ (∀ w w' share e,
       hs (shares.Get (schema.Id ds)) w = ((share, Some e), w') →
       isErrDefault404 e = true →
       outcome (run hs (sfs.waitForSFSFileStatus (schema.Id ds)) w)
         = Returned (resource.Ptr share, "deleted", None))
  ∧ (∀ w' r e,
       clientR = None →
       (0 < schema.Timeout dr schema.TimeoutDelete)%nat →
       hr (routers.Get (schema.Id dr)) wr = ((r, Some e), w') →
       isErrDefault404 e = true →
       outcome deleteR = Returned ([], schema.SetId dr ""))
  ∧ (∀ w' share e,
       clientS = None → accepted.1 = None →
       (0 < schema.Timeout ds schema.TimeoutDelete)%nat →
       hs (shares.Get (schema.Id ds)) accepted.2 = ((share, Some e), w') →
       isErrDefault404 e = true →
       outcome deleteS = Returned (None, schema.SetId ds "")).
Proof.
  intros Hidr Hids clientR clientS accepted waitR deleteR waitS deleteS.
  pose proof (router_delete_run hr wr dr meta) as HR.
  pose proof (share_delete_run hs ws accepted.2 ds meta) as HS'.
  assert (Hacc : accepted.1 = None →
            hs (shares.Delete (schema.Id ds)) ws = (None, accepted.2)).
  { subst accepted. destruct (hs _ ws) as [a ws1]. cbn. by intros ->. }
  assert (HS := λ Hc Ha, HS' Hc (Hacc Ha)). clear HS'.
  fold clientR deleteR waitR in HR. fold clientS deleteS waitS in HS.
  unfold verdict.idCleared, verdict.waitSucceeded, outcome.
  split_and!.
  - destruct clientR as [err|] eqn:Hc.
    + subst deleteR. unfold vpc.resourceNetworkingRouterV2Delete.
      fold clientR. rewrite Hc. cbn. split.
      * intros (a & d' & [= _ <-] & Hid). done.
      * intros [[=] _].
    + rewrite (HR eq_refl).
      destruct waitR as [[[[res [e|]]|msg] w'] l]; cbn; split.
      * intros (a & d' & [= _ <-] & Hid). done.
      * intros [_ (res' & [=])].
      * eauto.
      * intros _. by exists [], (schema.SetId dr "").
      * intros (a & d' & [=] & _).
      * intros [_ (res' & [=])].
  - intros Hc res e Hw. rewrite (HR Hc).
    destruct waitR as [[[[res' [e'|]]|msg] w'] l]; cbn in *; by simplify_eq.
  - destruct clientS as [err|] eqn:Hc.
    { subst deleteS. unfold sfs.resourceSFSFileSystemV2Delete.
      fold clientS. rewrite Hc. cbn. split.
      - intros (a & d' & [= _ <-] & Hid). done.
      - intros [[=] _]. }
    destruct accepted.1 as [err|] eqn:Ha.
    { subst deleteS. unfold sfs.resourceSFSFileSystemV2Delete.
      fold clientS. rewrite Hc. cbn [bind sdk run]. fold accepted.
      destruct accepted as [a ws1]. cbn in Ha. subst a. cbn. split.
      - intros (a & d' & [= _ <-] & Hid). done.
      - intros (_ & [=] & _). }
    rewrite (HS eq_refl eq_refl).
    destruct waitS as [[[[res [e|]]|msg] w'] l]; cbn; split.
    + intros (a & d' & [= _ <-] & Hid). done.
    + intros (_ & _ & res' & [=]).
    + eauto.
    + intros _. by exists None, (schema.SetId ds "").
    + intros (a & d' & [=] & _).
    + intros (_ & _ & res' & [=]).
  - intros Hc Ha res e Hw. rewrite (HS Hc Ha).
    destruct waitS as [[[[res' [e'|]]|msg] w'] l]; cbn in *; by simplify_eq.
  - intros [res Hres]. destruct waitR as [[o w'] l] eqn:Hw. cbn in Hres. subst o.
    exact (router_delete_wait_succeeded hr wr dr res w' l Hw).
  - intros [res Hres]. destruct waitS as [[o w'] l] eqn:Hw. cbn in Hres. subst o.
    exact (share_delete_wait_succeeded hs _ ds res w' l Hw).
  - intros w w' r e Hget He. by rewrite (router_delete_refresh_get_404 hr w w' _ r e).
  - intros w w1 w2 r e Hget Hd He.
    by rewrite (router_delete_refresh_delete_404 hr w w1 w2 _ r e).
  - intros w w' share e Hget He. by rewrite (share_refresh_get_404 hs w w' _ share e).
  - intros w' r e Hc Hfuel Hget He. rewrite (HR Hc). unfold waitR.
    erewrite wait_target_first_round;
      [done|done|exact (router_delete_refresh_get_404 hr wr w' _ r e Hget He)|set_solver].
  - intros w' share e Hc Ha Hfuel Hget He. rewrite (HS Hc Ha). unfold waitS.
    erewrite wait_target_first_round;
      [done|done|exact (share_refresh_get_404 hs _ w' _ share e Hget He)|set_solver].
Qed.

Lemma delete_clears_id_iff_wait_succeeds_witness :
  verdict.idCleared
    (run vpc_scenario.cloud
       (vpc.resourceNetworkingRouterV2Delete vpc_scenario.inState scenario.meta)
       [vpc_scenario.Found "ACTIVE"; vpc_scenario.Gone])
  ∧ verdict.idCleared
      (run sfs_scenario.cloud
         (sfs.resourceSFSFileSystemV2Delete sfs_scenario.inState scenario.meta)
         (sfs_scenario.quiet [sfs_scenario.Found "deleting"; sfs_scenario.Gone])).
Proof.
  assert (Hidr : schema.Id vpc_scenario.inState ≠ "") by (vm_compute; discriminate).
  assert (Hids : schema.Id sfs_scenario.inState ≠ "") by (vm_compute; discriminate).
  destruct (delete_clears_id_iff_wait_succeeds vpc_scenario.cloud sfs_scenario.cloud
              [vpc_scenario.Found "ACTIVE"; vpc_scenario.Gone]
              (sfs_scenario.quiet [sfs_scenario.Found "deleting"; sfs_scenario.Gone])
              vpc_scenario.inState sfs_scenario.inState scenario.meta
              Hidr Hids) as (Hr & _ & Hs & _).
  split; [apply Hr | apply Hs]; split_and!; try reflexivity;
    eexists; vm_compute; reflexivity.
Defined.

(** ** SFS file shares *)

Section ShareTyped.
Import schema.
Implicit Types d : ResourceData.

Lemma Get_int d k :
  wellTyped d = true → rd_schema d !! k = Some TypeInt → ∃ z, Get d k = VInt z.
Proof.
  intros Hd Hk. pose proof (readLevel_typed d k _ Hd Hk) as Ht.
  unfold Get. destruct (readLevel _ _ _).1; try done. eauto.
Qed.

Lemma resourceSFSMetadataV2_typed d :
  wellTyped d = true → rd_schema d !! "metadata" = Some TypeMap →
  ∃ m, sfs.resourceSFSMetadataV2 d = Ret m.
Proof.
  intros Hd Hk. destruct (Get_stringMap d _ Hd Hk) as (raw & Hraw & Hall).
  unfold sfs.resourceSFSMetadataV2. rewrite Hraw. cbn.
  destruct (forRange_strings (result := shares.result) (map_to_list raw)) as [kvs Hkvs].
  - apply Forall_forall. intros [k v] Hkv%elem_of_map_to_list. by apply (Hall k v).
  - rewrite Hkvs. cbn. eauto.
Qed.
End ShareTyped.

Section WaitCalls.
Import resource.
Context {call : Type} {result : call → Type} {T W : Type}.
Implicit Types (h : Cloud result W) (conf : StateChangeConf result T).

Lemma calls_seq {A} (P : call → Prop) h (p : Prog result A) w (l1 : list call) c :
  (∀ c, c ∈ l1 → P c) →
  (∀ c, c ∈ calls (run h p w) → P c) →
  c ∈ calls (let '(o, w2, l2) := run h p w in (o, w2, (l1 ++ l2)%list)) → P c.
Proof.
  intros H1 H2. destruct (run h p w) as [[o w2] l2]. cbn in *.
  intros [?|?]%elem_of_app; eauto.
Qed.

(** A wait issues no call its refresh function does not issue. *)
Lemma waitLoop_calls (P : call → Prop) h conf :
  (∀ w c, c ∈ calls (run h (Refresh conf) w) → P c) →
  ∀ rounds tick last w c,
    c ∈ calls (run h (waitLoop conf rounds tick last) w) → P c.
Proof.
  intros Hrefresh. induction rounds as [|n IH]; intros tick last w c.
  { cbn. by intros ?%elem_of_nil. }
  cbn [waitLoop]. rewrite run_bind.
  pose proof (Hrefresh w) as Hr.
  destruct (run h (Refresh conf) w) as [[[[[res s] err]|msg] w1] l1]; cbn in Hr;
    cbv beta iota zeta; [|by apply Hr].
  apply calls_seq; [done|]. clear c. intros c.
  destruct err as [e|]; [cbn; by intros ?%elem_of_nil|].
  destruct res as [|p].
  - case_bool_decide; [cbn; by intros ?%elem_of_nil|].
    destruct (NotFoundChecks <? S tick)%nat; [cbn; by intros ?%elem_of_nil|]. apply IH.
  - destruct (stateIn s (Target conf)); [cbn; by intros ?%elem_of_nil|].
    destruct (stateIn s (Pending conf)); [apply IH|].
    destruct (negb _); [cbn; by intros ?%elem_of_nil|]. apply IH.
Qed.
End WaitCalls.

Section ShareCreate.
Import schema cfg resource verdict.
Context {W : Type}.
Implicit Types (h : Cloud shares.result W) (d : ResourceData).

Lemma share_wait_calls h w d id c :
  c ∈ calls (run h (WaitForState (sfs.createStateConf d id)) w) → c = shares.Get id.
Proof.
  unfold WaitForState. revert c. apply (waitLoop_calls (λ c, c = shares.Get id)).
  clear w. intros w c. cbn.
  destruct (h (shares.Get id) w) as [[share [e|]] w1]; cbn.
  - destruct (isErrDefault404 e); cbn; by intros ->%list_elem_of_singleton.
  - destruct share; cbn; by intros ->%list_elem_of_singleton.
Qed.

(** Create, once the share is created, in terms of its wait and of the
    answer to its grant. *)
Lemma share_create_run h w w1 d meta opts share :
  rd_schema d = sfs.Schema →
  wellTyped d = true →
  SfsV2Client meta (GetRegion meta d) = None →
  Get d "share_proto" = VString (sfs.CreateOpts.ShareProto opts) →
  Get d "size" = VInt (sfs.CreateOpts.Size opts) →
  Get d "name" = VString (sfs.CreateOpts.Name opts) →
  Get d "description" = VString (sfs.CreateOpts.Description opts) →
  Get d "is_public" = VBool (sfs.CreateOpts.IsPublic opts) →
  sfs.resourceSFSMetadataV2 d = Ret (sfs.CreateOpts.Metadata opts) →
  Get d "availability_zone" = VString (sfs.CreateOpts.AvailabilityZone opts) →
  h (shares.Create opts) w = ((Some share, None), w1) →
  ∃ level type to,
    Get d "access_level" = VString level
    ∧ Get d "access_type" = VString type
    ∧ Get d "access_to" = VString to
    ∧ run h (sfs.resourceSFSFileSystemV2Create d meta) w =
        let id := sfs.Share.ID share in
        let grant := shares.GrantAccess id (sfs.GrantAccessOpts.mk level type to) in
        match run h (WaitForState (sfs.createStateConf d id)) w1 with
        | (Returned (_, Some e), w2, l2) =>
            (Returned (fmt.Errorf "error applying access rules to share file: %s" [e], d),
             w2, shares.Create opts :: l2)
        | (Returned (_, None), w2, l2) =>
            match h grant w2 with
            | ((_, Some e), w3) =>
                (Returned
                   (fmt.Errorf "error applying access rules to share file: %s" [e], d),
                 w3, shares.Create opts :: (l2 ++ [grant])%list)
            | ((_, None), w3) =>
                let '(o, w4, l4) :=
                  run h (sfs.resourceSFSFileSystemV2Read (SetId d id) meta) w3 in
                (o, w4, shares.Create opts :: (l2 ++ grant :: l4)%list)
            end
        | (Panicked msg, w2, l2) => (Panicked msg, w2, shares.Create opts :: l2)
        end.
Proof.
  intros Hs Hd Hclient Hproto Hsize Hname Hdescr Hpub Hmd Haz Hcreate.
  assert (Hty : ∀ k t, sfs.Schema !! k = Some t → rd_schema d !! k = Some t)
    by (by rewrite Hs).
  destruct (Get_string d "access_level" Hd) as [level Hlevel]; [by apply Hty|].
  destruct (Get_string d "access_type" Hd) as [type Htype]; [by apply Hty|].
  destruct (Get_string d "access_to" Hd) as [to Hto]; [by apply Hty|].
  exists level, type, to.
  split_and!; [done..|].
  unfold sfs.resourceSFSFileSystemV2Create.
  rewrite Hclient, Hproto, Hsize, Hname, Hdescr, Hpub. cbn [asString asInt asBool bind].
  rewrite Hmd, Haz. cbn [asString bind sdk run].
  destruct opts as [proto size name descr pub md az].
  cbn [sfs.CreateOpts.ShareProto sfs.CreateOpts.Size sfs.CreateOpts.Name
       sfs.CreateOpts.Description sfs.CreateOpts.IsPublic sfs.CreateOpts.Metadata
       sfs.CreateOpts.AvailabilityZone].
  rewrite Hcreate.
  cbn [bind deref]. rewrite run_bind. cbv zeta.
  destruct (run h (WaitForState _) w1) as [[[[res [e|]]|msg] w2] l2]; cbn [run].
  - by rewrite app_nil_r.
  - rewrite Hlevel, Htype, Hto. cbn [asString bind run].
    destruct (h _ w2) as [[g [e|]] w3]; cbn [run bind]; [done|].
    by destruct (run h _ w3) as [[o w4] l4].
  - done.
Qed.
End ShareCreate.

(** C3.  Create of a file share, once the create request it builds from the
    configuration is answered with the share, first
    waits for it (the wait issues nothing but Gets of the new share, and
    succeeds only through one that finds it available), then
    grants the access rule built from access_level, access_type and
    access_to, and only then sets the ID and reads the share back.  If the
    wait ends with an error, no grant is issued and Create returns an error
    with the resource as it was; if the grant is refused, Create returns an
    error with the resource as it was.  So a Create that returns with another
    ID than it started with has seen both succeed. *)
Theorem share_create_waits_grants_then_sets_id
    {W : Type} (h : Cloud shares.result W) (w w1 : W)
    (d : schema.ResourceData) (meta : cfg.Config)
    (opts : sfs.CreateOpts.t) (share : sfs.Share.t) :
  schema.rd_schema d = sfs.Schema →
  schema.wellTyped d = true →
  cfg.SfsV2Client meta (cfg.GetRegion meta d) = None →
  schema.Get d "share_proto" = VString (sfs.CreateOpts.ShareProto opts) →
  schema.Get d "size" = VInt (sfs.CreateOpts.Size opts) →
  schema.Get d "name" = VString (sfs.CreateOpts.Name opts) →
  schema.Get d "description" = VString (sfs.CreateOpts.Description opts) →
  schema.Get d "is_public" = VBool (sfs.CreateOpts.IsPublic opts) →
  sfs.resourceSFSMetadataV2 d = Ret (sfs.CreateOpts.Metadata opts) →
  schema.Get d "availability_zone"
    = VString (sfs.CreateOpts.AvailabilityZone opts) →
  h (shares.Create opts) w = ((Some share, None), w1) →
  ∃ level type to,
    schema.Get d "access_level" = VString level
    ∧ schema.Get d "access_type" = VString type
    ∧ schema.Get d "access_to" = VString to
    ∧ let id := sfs.Share.ID share in
      let grant := shares.GrantAccess id (sfs.GrantAccessOpts.mk level type to) in
      let wait := run h (resource.WaitForState (sfs.createStateConf d id)) w1 in
      let create := run h (sfs.resourceSFSFileSystemV2Create d meta) w in
      (∀ c, c ∈ calls wait → c = shares.Get id)
      ∧ (verdict.waitSucceeded wait →
           ∃ w0 found,
             h (shares.Get id) w0 = ((Some found, None), world wait)
             ∧ sfs.Share.Status found = "available")
      ∧ (∀ res e, outcome wait = Returned (res, Some e) →
           create
             = (Returned
                  (fmt.Errorf "error applying access rules to share file: %s" [e], d),
                world wait, shares.Create opts :: calls wait))
      ∧ (∀ g e w3, verdict.waitSucceeded wait →
           h grant (world wait) = ((g, Some e), w3) →
           create
             = (Returned
                  (fmt.Errorf "error applying access rules to share file: %s" [e], d),
                w3, shares.Create opts :: (calls wait ++ [grant])%list))
      ∧ (∀ g w3, verdict.waitSucceeded wait →
           h grant (world wait) = ((g, None), w3) →
           let read :=
             run h (sfs.resourceSFSFileSystemV2Read (schema.SetId d id) meta) w3 in
           create
             = (outcome read, world read,
                shares.Create opts :: (calls wait ++ grant :: calls read)%list))
      ∧ (∀ err d', outcome create = Returned (err, d') →
           schema.Id d' ≠ schema.Id d →
           verdict.waitSucceeded wait
           ∧ ∃ g w3, h grant (world wait) = ((g, None), w3)).
Proof.
  intros Hs Hd Hclient Hproto Hsize Hname Hdescr Hpub Hmd Haz Hcreate.
  destruct (share_create_run h w w1 d meta opts share Hs Hd Hclient
              Hproto Hsize Hname Hdescr Hpub Hmd Haz Hcreate)
    as (level & type & to & Hlevel & Htype & Hto & Hrun).
  exists level, type, to. split_and!; [done..|].
  cbv zeta in Hrun |- *. rewrite Hrun.
  unfold verdict.waitSucceeded, outcome, world, calls.
  split_and!.
  - intros c. apply share_wait_calls.
  - intros [res Hres].
    destruct (run h (resource.WaitForState _) w1) as [[o w2] l2] eqn:Hw.
    cbn in Hres. subst o.
    exact (share_create_wait_succeeded h w1 d _ res w2 l2 Hw).
  - intros res e Hw.
    destruct (run h (resource.WaitForState _) w1) as [[[[res' [e'|]]|msg] w2] l2];
      cbn in *; by simplify_eq.
  - intros g e w3 [res Hw] Hg.
    destruct (run h (resource.WaitForState _) w1) as [[[[res' [e'|]]|msg] w2] l2];
      cbn in *; simplify_eq. by rewrite Hg.
  - intros g w3 [res Hw] Hg.
    destruct (run h (resource.WaitForState _) w1) as [[[[res' [e'|]]|msg] w2] l2];
      cbn in *; simplify_eq. rewrite Hg.
    by destruct (run h _ w3) as [[o w4] l4].
  - intros err d' Hout Hid.
    destruct (run h (resource.WaitForState _) w1) as [[[[res' [e'|]]|msg] w2] l2];
      cbn in *; simplify_eq.
    destruct (h _ w2) as [[g [e|]] w3]; cbn in *; simplify_eq.
    split; eauto.
Qed.

Lemma share_create_waits_grants_then_sets_id_witness :
  ∃ level type to,
    run sfs_scenario.cloud
      (sfs.resourceSFSFileSystemV2Create sfs_scenario.new scenario.meta)
      (sfs_scenario.refusing [sfs_scenario.Found "creating"])
    = (Returned
         (fmt.Errorf "error applying access rules to share file: %s"
            [ErrSdk "403 forbidden"], sfs_scenario.new),
       sfs_scenario.refusing [],
       [shares.Create (sfs.CreateOpts.mk "NFS" 10 "share" "" false ∅ "");
        shares.Get "s1"; shares.Get "s1";
        shares.GrantAccess "s1" (sfs.GrantAccessOpts.mk level type to)]).
Proof.
  set (opts := sfs.CreateOpts.mk "NFS" 10 "share" "" false ∅ "").
  assert (Ht : schema.wellTyped sfs_scenario.new = true) by (vm_compute; reflexivity).
  assert (H1 : schema.Get sfs_scenario.new "share_proto" = VString "NFS")
    by (vm_compute; reflexivity).
  assert (H2 : schema.Get sfs_scenario.new "size" = VInt 10)
    by (vm_compute; reflexivity).
  assert (H3 : schema.Get sfs_scenario.new "name" = VString "share")
    by (vm_compute; reflexivity).
  assert (H4 : schema.Get sfs_scenario.new "description" = VString "")
    by (vm_compute; reflexivity).
  assert (H5 : schema.Get sfs_scenario.new "is_public" = VBool false)
    by (vm_compute; reflexivity).
  assert (H6 : sfs.resourceSFSMetadataV2 sfs_scenario.new = Ret ∅)
    by (vm_compute; reflexivity).
  assert (H7 : schema.Get sfs_scenario.new "availability_zone" = VString "")
    by (vm_compute; reflexivity).
  assert (H8 : sfs_scenario.cloud (shares.Create opts)
                 (sfs_scenario.refusing [sfs_scenario.Found "creating"])
               = ((Some (sfs_scenario.share "creating"), None),
                  sfs_scenario.refusing [sfs_scenario.Found "creating"]))
    by reflexivity.
  destruct (share_create_waits_grants_then_sets_id sfs_scenario.cloud
              (sfs_scenario.refusing [sfs_scenario.Found "creating"])
              (sfs_scenario.refusing [sfs_scenario.Found "creating"])
              sfs_scenario.new scenario.meta opts (sfs_scenario.share "creating")
              eq_refl Ht eq_refl H1 H2 H3 H4 H5 H6 H7 H8)
    as (level & type & to & _ & _ & _ & _ & _ & _ & Hgrant & _).
  exists level, type, to.
  apply (Hgrant None (ErrSdk "403 forbidden") (sfs_scenario.refusing [])).
  - eexists. vm_compute. reflexivity.
  - vm_compute. reflexivity.
Defined.

(** ** Strings *)

Section StringFacts.
Import verdict.

Lemma HasPrefix_spec (s pre : string) :
  strings.HasPrefix s pre = true ↔ startsWith s pre.
Proof.
  unfold startsWith. revert s.
  induction pre as [|a pre IH]; intros s; cbn.
  - destruct s; (split; [intros _; by eexists | done]).
  - destruct s as [|b s]; cbn.
    + split; [done | by intros [rest [=]]].
    + rewrite andb_true_iff, bool_decide_eq_true, IH.
      split.
      * intros [-> [rest ->]]. by exists rest.
      * intros [rest [= -> ->]]. eauto.
Qed.

Lemma Contains_spec (s substr : string) :
  strings.Contains s substr = true ↔ containsStr s substr.
Proof.
  unfold containsStr. induction s as [|a s IH]; cbn [strings.Contains].
  - rewrite orb_false_r, HasPrefix_spec. split.
    + intros [rest Hrest]. by exists "", rest.
    + intros ([|b before] & after & Hs); [by exists after|done].
  - rewrite orb_true_iff, IH, HasPrefix_spec. split.
    + intros [[rest Hrest]|(before & after & Hs)].
      * by exists "", rest.
      * exists (String a before), after. cbn. by rewrite Hs.
    + intros ([|b before] & after & Hs).
      * left. by exists after.
      * right. exists before, after. by inversion Hs.
Qed.
End StringFacts.

Section SetAllFacts.
Import schema.
Implicit Types d : ResourceData.

Lemma SetAll_cons d k v rest :
  (SetAll d ((k, v) :: rest)).1 = (SetAll (Set_ d k v).1 rest).1.
Proof.
  cbn. destruct (Set_ d k v) as [d1 e]. cbn. by destruct (SetAll d1 rest).
Qed.

Lemma schema_SetAll d kvs : rd_schema (SetAll d kvs).1 = rd_schema d.
Proof.
  revert d. induction kvs as [|[k v] rest IH]; intros d; [done|].
  by rewrite SetAll_cons, IH, schema_Set.
Qed.

Lemma Id_SetAll d kvs : Id (SetAll d kvs).1 = Id d.
Proof.
  revert d. induction kvs as [|[k v] rest IH]; intros d; [done|].
  by rewrite SetAll_cons, IH, Id_Set.
Qed.

Lemma Get_SetAll_ne d kvs k : k ∉ kvs.*1 → Get (SetAll d kvs).1 k = Get d k.
Proof.
  revert d. induction kvs as [|[k' v] rest IH]; intros d Hk; [done|].
  cbn in Hk. apply not_elem_of_cons in Hk as [Hne Hk].
  by rewrite SetAll_cons, IH, Get_Set_ne.
Qed.
End SetAllFacts.

Section ShareRead.
Import schema cfg verdict.
Context {W : Type}.
Implicit Types (h : Cloud shares.result W) (d : ResourceData).

(** The loop over the response's metadata keeps the keys that pass both
    tests, with their values. *)
Lemma userMetadata_lookup (m : gmap string string) (key : string) :
  sfs.userMetadata m !! key = if sfs.keepMetadata key then m !! key else None.
Proof.
  unfold sfs.userMetadata. revert key.
  apply (map_fold_weak_ind (λ (r m : gmap string string),
    ∀ key, r !! key = if sfs.keepMetadata key then m !! key else None)).
  { intros key. rewrite !lookup_empty. by destruct (sfs.keepMetadata key). }
  clear m. intros k v m r Hk IH key.
  unfold sfs.metadataStep, sfs.keepMetadata in *.
  destruct (decide (k = key)) as [->|Hne].
  - specialize (IH key). rewrite Hk in IH.
    destruct (strings.HasPrefix key "#sfs"); cbn in *; [done|].
    destruct (strings.Contains key "enterprise_project_id"
              || strings.Contains key "share_used"); cbn in *; [done|].
    by rewrite !lookup_insert_eq.
  - rewrite (lookup_insert_ne m) by done.
    destruct (strings.HasPrefix k "#sfs"); [by apply IH|].
    destruct (strings.Contains k "enterprise_project_id"
              || strings.Contains k "share_used"); [by apply IH|].
    rewrite lookup_insert_ne by done. apply IH.
Qed.

Lemma keepMetadata_spec (key : string) :
  sfs.keepMetadata key = true ↔
    ¬ startsWith key "#sfs"
    ∧ ¬ containsStr key "enterprise_project_id"
    ∧ ¬ containsStr key "share_used".
Proof.
  unfold sfs.keepMetadata.
  rewrite andb_true_iff, !negb_true_iff, orb_false_iff.
  rewrite <- !not_true_iff_false, HasPrefix_spec, !Contains_spec. tauto.
Qed.

(** Read, once Get has found the share, returns with the filtered metadata
    written. *)
Lemma share_read_metadata h w w1 d meta share :
  rd_schema d = sfs.Schema →
  SfsV2Client meta (GetRegion meta d) = None →
  h (shares.Get (Id d)) w = ((Some share, None), w1) →
  ∃ err d',
    outcome (run h (sfs.resourceSFSFileSystemV2Read d meta) w) = Returned (err, d')
    ∧ Get d' "metadata"
        = VMap (VString <$> sfs.userMetadata (sfs.Share.Metadata share)).
Proof.
  intros Hs Hclient Hget. unfold sfs.resourceSFSFileSystemV2Read.
  rewrite Hclient. cbn [bind sdk run]. rewrite Hget. cbn [bind deref].
  destruct (SetAll d _) as [d1 errs1] eqn:E1.
  destruct (SetAll d1 _) as [d2 errs2] eqn:E2.
  destruct (SetAll d2 _) as [d3 errs3] eqn:E3.
  apply (f_equal fst) in E1, E2, E3. cbn [fst] in E1, E2, E3.
  assert (Hs3 : rd_schema d3 = sfs.Schema).
  { by rewrite <- E3, schema_SetAll, <- E2, schema_SetAll, <- E1, schema_SetAll. }
  set (mdv := VMap _).
  assert (Hmd : is_Some (rd_schema d3 !! "metadata")) by (rewrite Hs3; vm_compute; eauto).
  pose proof (Set_known d3 "metadata" mdv Hmd) as Hnone.
  pose proof (Get_Set_eq d3 "metadata" mdv Hmd) as Hval.
  pose proof (schema_Set d3 "metadata" mdv) as Hs4.
  destruct (Set_ d3 "metadata" mdv) as [d4 err4]. cbn in Hnone, Hval, Hs4. subst err4.
  cbn [bind sdk run].
  destruct (h _ w1) as [[rules [e|]] w2]; cbn [run bind].
  - destruct (isErrDefault404 e); cbn; eauto.
  - destruct rules as [|rule rules]; cbn [run]; [by eauto|].
    destruct (SetAll d4 _) as [d5 errs4] eqn:E5.
    apply (f_equal fst) in E5. cbn [fst] in E5.
    cbn. do 2 eexists. split; [done|].
    rewrite <- E5, Get_SetAll_ne; [done|].
    apply (bool_decide_unpack _). by vm_compute.
Qed.
End ShareRead.

(** C10.  When Get has found the share, Read of a file share returns with a
    metadata map written to the state that holds exactly the entries of the
    response's metadata whose key does not start with "#sfs" and contains
    neither "enterprise_project_id" nor "share_used", each with the value of
    the response. *)
Theorem share_read_keeps_user_metadata
    {W : Type} (h : Cloud shares.result W) (w w1 : W)
    (d : schema.ResourceData) (meta : cfg.Config) (share : sfs.Share.t) :
  schema.rd_schema d = sfs.Schema →
  cfg.SfsV2Client meta (cfg.GetRegion meta d) = None →
  h (shares.Get (schema.Id d)) w = ((Some share, None), w1) →
  ∃ (err : error) (d' : schema.ResourceData) (written : gmap string string),
    outcome (run h (sfs.resourceSFSFileSystemV2Read d meta) w) = Returned (err, d')
    ∧ schema.Get d' "metadata" = VMap (VString <$> written)
    ∧ ∀ key val,
        written !! key = Some val ↔
          sfs.Share.Metadata share !! key = Some val
          ∧ ¬ verdict.startsWith key "#sfs"
          ∧ ¬ verdict.containsStr key "enterprise_project_id"
          ∧ ¬ verdict.containsStr key "share_used".
Proof.
  intros Hs Hclient Hget.
  destruct (share_read_metadata h w w1 d meta share Hs Hclient Hget)
    as (err & d' & Hrun & Hmd).
  exists err, d', (sfs.userMetadata (sfs.Share.Metadata share)).
  split_and!; [done..|].
  intros key val. rewrite userMetadata_lookup, <- keepMetadata_spec.
  destruct (sfs.keepMetadata key).
  - split; [by intros ? | by intros [? _]].
  - split; [done | by intros [_ [=]]].
Qed.

Lemma share_read_keeps_user_metadata_witness :
  ∃ (err : error) (d' : schema.ResourceData) (written : gmap string string),
    outcome (run sfs_scenario.cloud
               (sfs.resourceSFSFileSystemV2Read sfs_scenario.inState scenario.meta)
               (sfs_scenario.quiet []))
      = Returned (err, d')
    ∧ schema.Get d' "metadata" = VMap (VString <$> written)
    ∧ written !! "owner" = Some "storage-team"
    ∧ written !! "share_used" = None.
Proof.
  destruct (share_read_keeps_user_metadata sfs_scenario.cloud
              (sfs_scenario.quiet []) (sfs_scenario.quiet [])
              sfs_scenario.inState scenario.meta (sfs_scenario.share "available")
              eq_refl eq_refl eq_refl)
    as (err & d' & written & Hrun & Hmd & Hkeys).
  exists err, d', written. split_and!; [done..| |].
  - apply Hkeys. split; [by vm_compute|].
    rewrite <- keepMetadata_spec. by vm_compute.
  - destruct (written !! "share_used") as [val|] eqn:Hval; [|done].
    apply Hkeys in Hval as (_ & _ & _ & Hno). destruct Hno. by exists "", "".
Defined.

(** ** Read and a missing resource *)

Section ReadGetError.
Import schema cfg.



End ReadGetError.



(** * Further properties of the handlers *)

(** ** Routers: Read, Create, Update, Delete *)

Section RouterMore.
Import schema cfg resource.
Context {W : Type}.
Implicit Types (h : Cloud routers.result W) (d : ResourceData).

Local Ltac no_call := cbn; try by intros ?%elem_of_nil.

(** Read only ever issues the Get of the resource's ID. *)
Lemma router_read_calls h w d meta c :
  c ∈ calls (run h (vpc.resourceNetworkingRouterV2Read d meta) w) →
  c = routers.Get (Id d).
Proof.
  unfold vpc.resourceNetworkingRouterV2Read.
  destruct (NetworkingV2Client meta _); no_call.
  destruct (h _ w) as [[n [e|]] w1]; cbn.
  - destruct (isErrDefault404 e); cbn; by intros ->%list_elem_of_singleton.
  - destruct n; cbn; by intros ->%list_elem_of_singleton.
Qed.

(** The wait of Create only ever issues Gets of the new router. *)
Lemma router_create_wait_calls h w d id c :
  c ∈ calls (run h (WaitForState (vpc.createStateConf d id)) w) → c = routers.Get id.
Proof.
  unfold WaitForState. revert c. apply (waitLoop_calls (λ c, c = routers.Get id)).
  clear w. intros w c. cbn.
  destruct (h (routers.Get id) w) as [[[r|] [e|]] w1]; cbn;
    by intros ->%list_elem_of_singleton.
Qed.

(** The wait of Delete only ever issues Get and Delete of the router. *)
Lemma router_delete_wait_calls h w d c :
  c ∈ calls (run h (WaitForState (vpc.deleteStateConf d)) w) →
  c = routers.Get (Id d) ∨ c = routers.Delete (Id d).
Proof.
  unfold WaitForState. revert c.
  apply (waitLoop_calls (λ c, c = routers.Get (Id d) ∨ c = routers.Delete (Id d))).
  clear w. intros w c. cbn.
  destruct (h (routers.Get (Id d)) w) as [[r [e|]] w1]; cbn.
  - destruct (isErrDefault404 e); cbn; intros ->%list_elem_of_singleton; by left.
  - destruct (h (routers.Delete (Id d)) w1) as [[e|] w2]; cbn;
      [destruct (isErrDefault404 e); cbn|];
      (intros [->|Hc]%elem_of_cons; [|apply list_elem_of_singleton in Hc as ->]; eauto).
Qed.

(** A boolean attribute that [d.GetOk] reports as set is true. *)
Lemma GetOk_bool_set d k :
  wellTyped d = true → rd_schema d !! k = Some TypeBool →
  (GetOk d k).2 = true → (GetOk d k).1 = VBool true.
Proof.
  intros Hd Hk. pose proof (readLevel_typed d k _ Hd Hk) as Ht.
  unfold GetOk. destruct (readLevel _ _ _) as [v ok]. rewrite Hk. cbn in *.
  destruct v as [| |[|]| | |]; try done.
  rewrite andb_true_iff, bool_decide_eq_true. by intros [_ ?].
Qed.
End RouterMore.

(** X1.  When Get finds the router, Read returns no error, keeps the ID and
    leaves name, admin_state_up, distributed, tenant_id, external_gateway and
    enable_snat set from the response (external_gateway is the network of the
    gateway info; enable_snat is what its pointer points to, and false when
    the pointer is nil), and region set to the region of the
    configuration. *)
Theorem router_read_sets_state
    {W : Type} (h : Cloud routers.result W) (w w' : W)
    (d : schema.ResourceData) (meta : cfg.Config) (n : vpc.Router.t) :
  schema.rd_schema d = vpc.Schema →
  cfg.NetworkingV2Client meta (cfg.GetRegion meta d) = None →
  h (routers.Get (schema.Id d)) w = ((Some n, None), w') →
  ∃ d' d0 : schema.ResourceData,
    run h (vpc.resourceNetworkingRouterV2Read d meta) w
      = (Returned ([], d'), w', [routers.Get (schema.Id d)])
    ∧ schema.Id d' = schema.Id d
    ∧ schema.Get d' "name" = VString (vpc.Router.Name n)
    ∧ schema.Get d' "admin_state_up" = VBool (vpc.Router.AdminStateUp n)
    ∧ schema.Get d' "distributed" = VBool (vpc.Router.Distributed n)
    ∧ schema.Get d' "tenant_id" = VString (vpc.Router.TenantID n)
    ∧ schema.Get d' "external_gateway"
        = VString (vpc.GatewayInfo.NetworkID (vpc.Router.GatewayInfo n))
    ∧ schema.Get d' "enable_snat"
        = VBool (default false
                   (vpc.GatewayInfo.EnableSNAT (vpc.Router.GatewayInfo n)))
    ∧ schema.Get d' "region" = VString (cfg.GetRegion meta d0)
    ∧ schema.Get d0 "region" = schema.Get d "region"
    ∧ schema.Id d0 = schema.Id d.
Proof.
  intros Hs Hclient Hget.
  unfold vpc.resourceNetworkingRouterV2Read.
  rewrite Hclient. cbn. rewrite Hget. cbn.
  match goal with |- context [cfg.GetRegion meta ?x] => eexists; exists x end.
  split; [reflexivity|].
  assert (Hknown : ∀ d0 k, schema.rd_schema d0 = vpc.Schema →
            is_Some (vpc.Schema !! k) → is_Some (schema.rd_schema d0 !! k))
    by (by intros d0 k ->).
  assert (Hin : ∀ k, k ∈ ["name"; "admin_state_up"; "distributed"; "tenant_id";
                          "external_gateway"; "enable_snat"; "region"] →
                 is_Some (vpc.Schema !! k)).
  { intros k Hk. repeat (apply elem_of_cons in Hk as [->|Hk]; [vm_compute; by eauto|]).
    by apply elem_of_nil in Hk. }
  split_and!;
    try (rewrite ?Id_Set; done);
    try (rewrite ?Get_Set_ne by done; apply Get_Set_eq, Hknown;
         [by rewrite ?schema_Set | apply Hin; set_solver]).
  - rewrite ?Get_Set_ne by done.
    etrans; [apply Get_Set_eq, Hknown;
               [by rewrite ?schema_Set | apply Hin; set_solver]|].
    by destruct (vpc.GatewayInfo.EnableSNAT _).
  - by rewrite !Get_Set_ne by done.
Qed.

Lemma router_read_sets_state_witness :
  ∃ d' : schema.ResourceData,
    outcome (run vpc_scenario.cloud
               (vpc.resourceNetworkingRouterV2Read vpc_scenario.inState scenario.meta)
               [vpc_scenario.Found "ACTIVE"])
      = Returned ([], d')
    ∧ schema.Get d' "name" = VString "router"
    ∧ schema.Get d' "enable_snat" = VBool false.
Proof.
  destruct (router_read_sets_state vpc_scenario.cloud [vpc_scenario.Found "ACTIVE"] []
              vpc_scenario.inState scenario.meta (vpc_scenario.router "ACTIVE")
              eq_refl eq_refl eq_refl)
    as (d' & d0 & Hrun & _ & Hname & _ & _ & _ & _ & Hsnat & _).
  exists d'. rewrite Hrun. by split_and!.
Defined.

Section RouterCreateRequest.
Import schema cfg resource.
Context {W : Type}.
Implicit Types (h : Cloud routers.result W) (d : ResourceData).

(** After the create request, Create issues nothing but Gets. *)
Lemma router_create_tail h w d meta o opts :
  routers.Create opts
    ∈ calls (run h
        (x <- sdk (routers.Create o) ;;
         let '(n, err) := x in
         match err with
         | Some err =>
             Ret (fmterr.Errorf "error creating OpenTelekomCloud Neutron router: %s" [err], d)
         | None =>
             n <- deref n ;;
             let stateConf := vpc.createStateConf d (vpc.Router.ID n) in
             _ <- WaitForState stateConf ;;
             let d := SetId d (vpc.Router.ID n) in
             vpc.resourceNetworkingRouterV2Read d meta
         end) w) →
  opts = o.
Proof.
  cbn [bind sdk run]. destruct (h _ w) as [[n [e|]] w1]; cbn [bind run].
  { cbn. by intros [= ->]%list_elem_of_singleton. }
  destruct n as [n|]; cbn [deref bind run].
  2: { cbn. by intros [= ->]%list_elem_of_singleton. }
  rewrite run_bind.
  destruct (run h (WaitForState _) w1) as [[[res|msg] w2] l2] eqn:Hwait.
  - destruct (run h (vpc.resourceNetworkingRouterV2Read _ _) w2) as [[o3 w3] l3] eqn:Hread.
    cbn. intros [[= ->]|Hin]%elem_of_cons; [done|].
    apply elem_of_app in Hin as [Hin|Hin]; rewrite ?app_nil_r in Hin.
    + assert (Hc : routers.Create opts
                ∈ calls (run h (WaitForState (vpc.createStateConf d (vpc.Router.ID n))) w1))
        by by rewrite Hwait.
      by apply router_create_wait_calls in Hc.
    + assert (Hc : routers.Create opts
                ∈ calls (run h (vpc.resourceNetworkingRouterV2Read
                                  (SetId d (vpc.Router.ID n)) meta) w2))
        by by rewrite Hread.
      by apply router_read_calls in Hc.
  - cbn. intros [[= ->]|Hin]%elem_of_cons; [done|].
    assert (Hc : routers.Create opts
              ∈ calls (run h (WaitForState (vpc.createStateConf d (vpc.Router.ID n))) w1))
      by by rewrite Hwait.
    by apply router_create_wait_calls in Hc.
Qed.
End RouterCreateRequest.

(** X2.  A create request that Create sends for a well-typed router carries
    the configured name and tenant and the value specs.  Its optional booleans
    come from [d.GetOk], so each of AdminStateUp, Distributed and EnableSNAT
    is either absent or true: a configured false is never sent.  The gateway
    info is present exactly when external_gateway is not empty, and then names
    that network. *)
Theorem router_create_request
    {W : Type} (h : Cloud routers.result W) (w : W)
    (d : schema.ResourceData) (meta : cfg.Config) (opts : vpc.RouterCreateOpts.t) :
  schema.rd_schema d = vpc.Schema →
  schema.wellTyped d = true →
  routers.Create opts ∈ calls (run h (vpc.resourceNetworkingRouterV2Create d meta) w) →
  let co := vpc.RouterCreateOpts.CreateOpts opts in
  schema.Get d "name" = VString (vpc.CreateOpts.Name co)
  ∧ schema.Get d "tenant_id" = VString (vpc.CreateOpts.TenantID co)
  ∧ common.MapValueSpecs (result := routers.result) d
      = Ret (vpc.RouterCreateOpts.ValueSpecs opts)
  ∧ vpc.CreateOpts.AdminStateUp co
      = (if (schema.GetOk d "admin_state_up").2 then Some true else None)
  ∧ vpc.CreateOpts.Distributed co
      = (if (schema.GetOk d "distributed").2 then Some true else None)
  ∧ ∃ gw, schema.Get d "external_gateway" = VString gw
      ∧ vpc.CreateOpts.GatewayInfo co
          = if bool_decide (gw = "") then None
            else Some (vpc.GatewayInfo.mk gw
                         (if (schema.GetOk d "enable_snat").2 then Some true else None)).
Proof.
  intros Hs Hd.
  assert (Hty : ∀ k t, vpc.Schema !! k = Some t → schema.rd_schema d !! k = Some t)
    by (by rewrite Hs).
  destruct (Get_string d "name" Hd) as [name Hname]; [by apply Hty|].
  destruct (Get_string d "tenant_id" Hd) as [tenant Htenant]; [by apply Hty|].
  destruct (Get_string d "external_gateway" Hd) as [gw Hgw]; [by apply Hty|].
  destruct (MapValueSpecs_typed (result := routers.result) d Hd) as [specs Hspecs];
    [by apply Hty|].
  pose proof (GetOk_bool_set d "admin_state_up" Hd ltac:(by apply Hty)) as Hasu.
  pose proof (GetOk_bool_set d "distributed" Hd ltac:(by apply Hty)) as Hdist.
  pose proof (GetOk_bool_set d "enable_snat" Hd ltac:(by apply Hty)) as Hsnat.
  unfold vpc.resourceNetworkingRouterV2Create.
  destruct (cfg.NetworkingV2Client meta _); [cbn; by intros ?%elem_of_nil|].
  rewrite Hname, Htenant, Hspecs, Hgw. cbn [asString bind].
  destruct (schema.GetOk d "admin_state_up") as [v1 ok1]; cbn in Hasu.
  destruct (schema.GetOk d "distributed") as [v2 ok2]; cbn in Hdist.
  destruct (schema.GetOk d "enable_snat") as [v3 ok3]; cbn in Hsnat.
  destruct ok1; [specialize (Hasu eq_refl); subst v1|clear Hasu];
    (destruct ok2; [specialize (Hdist eq_refl); subst v2|clear Hdist]);
    (destruct ok3; [specialize (Hsnat eq_refl); subst v3|clear Hsnat]);
    cbn [asBool bind snd];
    (destruct (decide (gw = "")) as [->|Hne];
       [rewrite ?(bool_decide_eq_false_2 ("" ≠ "")) by (by intros ?);
        rewrite ?(bool_decide_eq_true_2 ("" = "")) by done
       |rewrite ?(bool_decide_eq_true_2 (gw ≠ "")) by done;
        rewrite ?(bool_decide_eq_false_2 (gw = "")) by done];
       cbn [deref bind vpc.CreateOpts.GatewayInfo];
       try (cbn; by intros ?%elem_of_nil);
       intros ->%router_create_tail; cbn;
       rewrite ?bool_decide_eq_false_2 by done;
       rewrite ?bool_decide_eq_true_2 by done;
       split_and!; try done;
       eexists; (split; [done|]);
       rewrite ?(bool_decide_eq_true_2 ("" = "")) by done;
       by rewrite ?(bool_decide_eq_false_2 (gw = "")) by done).
Qed.

Lemma router_create_request_witness :
  schema.rd_plan vpc_scenario_more.gatewayed !! "admin_state_up" = Some (VBool false)
  ∧ vpc.CreateOpts.AdminStateUp
      (vpc.RouterCreateOpts.CreateOpts vpc_scenario_more.gatewayedOpts)
      = (if (schema.GetOk vpc_scenario_more.gatewayed "admin_state_up").2
         then Some true else None)
  ∧ schema.Get vpc_scenario_more.gatewayed "name"
      = VString (vpc.CreateOpts.Name
                   (vpc.RouterCreateOpts.CreateOpts vpc_scenario_more.gatewayedOpts)).
Proof.
  assert (Ht : schema.wellTyped vpc_scenario_more.gatewayed = true)
    by (vm_compute; reflexivity).
  assert (Hcalls :
    calls (run vpc_scenario.cloud
             (vpc.resourceNetworkingRouterV2Create vpc_scenario_more.gatewayed
                scenario.meta) [])
    = [routers.Create vpc_scenario_more.gatewayedOpts; routers.Get "r1"; routers.Get "r1"])
    by (vm_compute; reflexivity).
  assert (Hin :
    routers.Create vpc_scenario_more.gatewayedOpts
      ∈ calls (run vpc_scenario.cloud
                 (vpc.resourceNetworkingRouterV2Create vpc_scenario_more.gatewayed
                    scenario.meta) []))
    by (rewrite Hcalls; left).
  destruct (router_create_request vpc_scenario.cloud [] vpc_scenario_more.gatewayed
              scenario.meta vpc_scenario_more.gatewayedOpts eq_refl Ht Hin)
    as (Hname & _ & _ & Hasu & _).
  split_and!; [vm_compute; reflexivity | exact Hasu | exact Hname].
Defined.

Section RouterUpdateRequest.
Import schema cfg resource.
Context {W : Type}.
Implicit Types (h : Cloud routers.result W) (d : ResourceData).

(** After the update request, Update issues nothing but a Get. *)
Lemma router_update_tail h w d meta o id opts :
  routers.Update id opts
    ∈ calls (run h
        (x <- sdk (routers.Update (Id d) o) ;;
         let '(_, err) := x in
         match err with
         | Some err =>
             Ret (fmterr.Errorf "error updating OpenTelekomCloud Neutron Router: %s" [err], d)
         | None => vpc.resourceNetworkingRouterV2Read d meta
         end) w) →
  id = Id d ∧ opts = o.
Proof.
  cbn [bind sdk run]. destruct (h _ w) as [[n [e|]] w1]; cbn [bind run].
  { cbn. by intros [= -> ->]%list_elem_of_singleton. }
  destruct (run h (vpc.resourceNetworkingRouterV2Read _ _) w1) as [[o3 w3] l3] eqn:Hread.
  cbn. intros [[= -> ->]|Hin]%elem_of_cons; [done|].
  assert (Hc : routers.Update id opts
            ∈ calls (run h (vpc.resourceNetworkingRouterV2Read d meta) w1))
    by by rewrite Hread.
  by apply router_read_calls in Hc.
Qed.
End RouterUpdateRequest.

(** X3.  The update request that Update sends for a well-typed router is for
    the router's own ID and carries only what changed: the name when it
    changed (the empty string otherwise), the admin state when it changed, and
    a gateway info exactly when external_gateway or enable_snat changed; the
    gateway info names the configured network and carries enable_snat only
    when enable_snat changed. *)
Theorem router_update_request
    {W : Type} (h : Cloud routers.result W) (w : W)
    (d : schema.ResourceData) (meta : cfg.Config)
    (id : string) (opts : vpc.UpdateOpts.t) :
  schema.rd_schema d = vpc.Schema →
  schema.wellTyped d = true →
  routers.Update id opts ∈ calls (run h (vpc.resourceNetworkingRouterV2Update d meta) w) →
  ∃ name asu gw snat,
    schema.Get d "name" = VString name
    ∧ schema.Get d "admin_state_up" = VBool asu
    ∧ schema.Get d "external_gateway" = VString gw
    ∧ schema.Get d "enable_snat" = VBool snat
    ∧ id = schema.Id d
    ∧ vpc.UpdateOpts.Name opts = (if schema.HasChange d "name" then name else "")
    ∧ vpc.UpdateOpts.AdminStateUp opts
        = (if schema.HasChange d "admin_state_up" then Some asu else None)
    ∧ vpc.UpdateOpts.GatewayInfo opts
        = (if schema.HasChange d "external_gateway" || schema.HasChange d "enable_snat"
           then Some (vpc.GatewayInfo.mk gw
                        (if schema.HasChange d "enable_snat" then Some snat else None))
           else None)
    ∧ (schema.HasChange d "enable_snat" = true → gw ≠ "").
Proof.
  intros Hs Hd.
  assert (Hty : ∀ k t, vpc.Schema !! k = Some t → schema.rd_schema d !! k = Some t)
    by (by rewrite Hs).
  destruct (Get_string d "name" Hd) as [name Hname]; [by apply Hty|].
  destruct (Get_bool d "admin_state_up" Hd) as [asu Hasu]; [by apply Hty|].
  destruct (Get_string d "external_gateway" Hd) as [gw Hgw]; [by apply Hty|].
  destruct (Get_bool d "enable_snat" Hd) as [snat Hsnat]; [by apply Hty|].
  intros Hin. exists name, asu, gw, snat. revert Hin.
  unfold vpc.resourceNetworkingRouterV2Update.
  destruct (cfg.NetworkingV2Client meta _); [cbn; by intros ?%elem_of_nil|].
  rewrite Hname, Hasu, Hgw, Hsnat.
  destruct (schema.HasChange d "name"), (schema.HasChange d "admin_state_up"),
    (schema.HasChange d "external_gateway"), (schema.HasChange d "enable_snat");
    cbn [asString asBool bind orb];
    (destruct (decide (gw = "")) as [->|Hne];
       [rewrite ?(bool_decide_eq_false_2 ("" ≠ "")) by (by intros ?);
        rewrite ?(bool_decide_eq_true_2 ("" = "")) by done
       |rewrite ?(bool_decide_eq_true_2 (gw ≠ "")) by done;
        rewrite ?(bool_decide_eq_false_2 (gw = "")) by done];
       cbn [bind];
       try (cbn; by intros ?%elem_of_nil);
       intros [-> ->]%router_update_tail; by split_and!).
Qed.

Lemma router_update_request_witness :
  ∃ name asu gw snat,
    schema.Get vpc_scenario_more.renamed "name" = VString name
    ∧ schema.Get vpc_scenario_more.renamed "admin_state_up" = VBool asu
    ∧ schema.Get vpc_scenario_more.renamed "external_gateway" = VString gw
    ∧ schema.Get vpc_scenario_more.renamed "enable_snat" = VBool snat
    ∧ vpc.UpdateOpts.Name (vpc.UpdateOpts.mk "edge" (Some false) None)
        = (if schema.HasChange vpc_scenario_more.renamed "name" then name else "").
Proof.
  assert (Ht : schema.wellTyped vpc_scenario_more.renamed = true)
    by (vm_compute; reflexivity).
  assert (Hcalls :
    calls (run vpc_scenario.cloud
             (vpc.resourceNetworkingRouterV2Update vpc_scenario_more.renamed
                scenario.meta) [])
    = [routers.Update "r1" (vpc.UpdateOpts.mk "edge" (Some false) None);
       routers.Get "r1"])
    by (vm_compute; reflexivity).
  assert (Hin :
    routers.Update "r1" (vpc.UpdateOpts.mk "edge" (Some false) None)
      ∈ calls (run vpc_scenario.cloud
                 (vpc.resourceNetworkingRouterV2Update vpc_scenario_more.renamed
                    scenario.meta) []))
    by (rewrite Hcalls; left).
  destruct (router_update_request vpc_scenario.cloud [] vpc_scenario_more.renamed
              scenario.meta "r1" (vpc.UpdateOpts.mk "edge" (Some false) None)
              eq_refl Ht Hin)
    as (name & asu & gw & snat & H1 & H2 & H3 & H4 & _ & H5 & _).
  exists name, asu, gw, snat. by split_and!.
Defined.

(** X4.  Whatever the cloud answers, Delete of a router issues nothing but
    Get and Delete of the router's own ID. *)
Theorem router_delete_only_touches_its_router
    {W : Type} (h : Cloud routers.result W) (w : W)
    (d : schema.ResourceData) (meta : cfg.Config) (c : routers.call) :
  c ∈ calls (run h (vpc.resourceNetworkingRouterV2Delete d meta) w) →
  c = routers.Get (schema.Id d) ∨ c = routers.Delete (schema.Id d).
Proof.
  unfold vpc.resourceNetworkingRouterV2Delete.
  destruct (cfg.NetworkingV2Client meta _); [cbn; by intros ?%elem_of_nil|].
  rewrite run_bind.
  destruct (run h (resource.WaitForState _) w) as [[[[res [e|]]|msg] w'] l] eqn:Hwait;
    cbn; rewrite ?app_nil_r; intros Hc;
    apply (router_delete_wait_calls h w d c); by rewrite Hwait.
Qed.

Lemma router_delete_only_touches_its_router_witness :
  routers.Delete "r1" = routers.Get "r1" ∨ routers.Delete "r1" = routers.Delete "r1".
Proof.
  apply (router_delete_only_touches_its_router vpc_scenario.cloud
           [vpc_scenario.Found "ACTIVE"; vpc_scenario.Gone] vpc_scenario.inState
           scenario.meta (routers.Delete "r1")).
  vm_compute. right. left.
Defined.

Section RouterNeverGone.
Import schema cfg resource.
Context {W : Type}.
Implicit Types (h : Cloud routers.result W) (d : ResourceData).

(** While the router stays, every round of the wait of Delete asks for it
    and requests its deletion, and the wait ends in a timeout. *)
Lemma router_delete_wait_never_gone h d (I : W → Prop) :
  (∀ w, I w → ∃ r w1 w2,
     h (routers.Get (Id d)) w = ((r, None), w1)
     ∧ h (routers.Delete (Id d)) w1 = (None, w2)
     ∧ I w2) →
  ∀ rounds tick last w, I w →
    ∃ w',
      run h (waitLoop (vpc.deleteStateConf d) rounds tick last) w
        = (Returned (Nil, Some (TimeoutError
                                   (match rounds with O => last | S _ => "ACTIVE" end))),
           w',
           concat (replicate rounds [routers.Get (Id d); routers.Delete (Id d)])).
Proof.
  intros Hlive. induction rounds as [|n IH]; intros tick last w Hw; [cbn; by eauto|].
  destruct (Hlive w Hw) as (r & w1 & w2 & Hget & Hdel & Hw2).
  cbn [waitLoop]. rewrite run_bind.
  assert (Hr : run h (Refresh (vpc.deleteStateConf d)) w
             = (Returned (Ptr r, "ACTIVE", None), w2,
                [routers.Get (Id d); routers.Delete (Id d)])).
  { cbn. rewrite Hget. cbn. by rewrite Hdel. }
  rewrite Hr. cbv beta iota zeta.
  change (stateIn "ACTIVE" (Target (vpc.deleteStateConf d))) with false.
  change (stateIn "ACTIVE" (Pending (vpc.deleteStateConf d))) with true.
  cbv iota.
  destruct (IH O "ACTIVE" w2 Hw2) as [w' ->]. exists w'.
  by destruct n.
Qed.
End RouterNeverGone.

(** X5.  As long as the router stays (every Get finds it and every Delete is
    accepted without making it go away), Delete requests the deletion anew in
    every round of its wait, as many times as the timeout allows rounds, and
    then returns the timeout as an error, with the ID still set. *)
Theorem router_delete_times_out_while_router_stays
    {W : Type} (h : Cloud routers.result W) (I : W → Prop) (w : W)
    (d : schema.ResourceData) (meta : cfg.Config) :
  cfg.NetworkingV2Client meta (cfg.GetRegion meta d) = None →
  I w →
  (∀ w, I w → ∃ r w1 w2,
     h (routers.Get (schema.Id d)) w = ((r, None), w1)
     ∧ h (routers.Delete (schema.Id d)) w1 = (None, w2)
     ∧ I w2) →
  ∃ w' last,
    run h (vpc.resourceNetworkingRouterV2Delete d meta) w
      = (Returned
           (fmterr.Errorf "error deleting OpenTelekomCloud Neutron Router: %s"
              [TimeoutError last], d),
         w',
         concat (replicate (schema.Timeout d schema.TimeoutDelete)
                   [routers.Get (schema.Id d); routers.Delete (schema.Id d)])).
Proof.
  intros Hclient Hw Hlive.
  destruct (router_delete_wait_never_gone h d I Hlive
              (schema.Timeout d schema.TimeoutDelete) O "" w Hw) as [w' Hwait].
  exists w'. eexists.
  rewrite (router_delete_run h w d meta Hclient).
  unfold resource.WaitForState. cbn [resource.Timeout vpc.deleteStateConf].
  by rewrite Hwait.
Qed.

Lemma router_delete_times_out_while_router_stays_witness :
  ∃ w' last,
    run vpc_scenario.cloud
      (vpc.resourceNetworkingRouterV2Delete vpc_scenario.inState scenario.meta) []
    = (Returned
         (fmterr.Errorf "error deleting OpenTelekomCloud Neutron Router: %s"
            [TimeoutError last], vpc_scenario.inState),
       w',
       [routers.Get "r1"; routers.Delete "r1"; routers.Get "r1"; routers.Delete "r1";
        routers.Get "r1"; routers.Delete "r1"]).
Proof.
  apply (router_delete_times_out_while_router_stays vpc_scenario.cloud (λ w, w = [])
           [] vpc_scenario.inState scenario.meta); [reflexivity | reflexivity |].
  intros w ->. by exists (Some (vpc_scenario.router "ACTIVE")), [], [].
Defined.

(** ** File shares: metadata, Create, Read, Delete *)

Section ShareMore.
Import schema cfg resource.
Context {W : Type}.
Implicit Types (h : Cloud shares.result W) (d : ResourceData).

Local Ltac no_call := cbn; try by intros ?%elem_of_nil.

(** The loop that copies a map of strings returns the strings, entry by
    entry. *)
Lemma forRange_strings_decode {call} {result : call → Type}
    (l : list (string * Value)) :
  Forall (λ kv, isString kv.2 = true) l →
  forRange (result := result) (λ kv, val <- asString kv.2 ;; Ret (kv.1, val)) l
    = Ret (prod_map id stringOf <$> l).
Proof.
  induction 1 as [|[k v] l Hv _ IH]; [done|].
  destruct v; try done. cbn. by rewrite IH.
Qed.

(** [resourceSFSMetadataV2] returns the configured metadata, string by
    string. *)
Lemma resourceSFSMetadataV2_decode d (raw : gmap string Value) :
  Get d "metadata" = VMap raw →
  map_Forall (λ _ v, isString v = true) raw →
  sfs.resourceSFSMetadataV2 d = Ret (stringOf <$> raw).
Proof.
  intros Hraw Hall. unfold sfs.resourceSFSMetadataV2. rewrite Hraw. cbn [asMap bind].
  rewrite forRange_strings_decode.
  - cbn. by rewrite list_to_map_fmap, list_to_map_to_list.
  - apply Forall_forall. intros [k v] Hkv%elem_of_map_to_list. by apply (Hall k v).
Qed.

Lemma stringOf_VString (m : gmap string string) : stringOf <$> (VString <$> m) = m.
Proof.
  rewrite <- map_fmap_compose. apply map_eq. intros k.
  rewrite lookup_fmap. by destruct (m !! k).
Qed.

Lemma isString_VString (m : gmap string string) :
  map_Forall (λ _ v, isString v = true) (VString <$> m).
Proof. intros k v. rewrite lookup_fmap. by destruct (m !! k); intros [= <-]. Qed.

(** Read only ever issues Get and ListAccessRights of the resource's ID. *)
Lemma share_read_calls h w d meta c :
  c ∈ calls (run h (sfs.resourceSFSFileSystemV2Read d meta) w) →
  c = shares.Get (Id d) ∨ c = shares.ListAccessRights (Id d).
Proof.
  unfold sfs.resourceSFSFileSystemV2Read.
  destruct (SfsV2Client meta _); [cbn; by intros ?%elem_of_nil|].
  cbn [bind sdk run]. destruct (h _ w) as [[share [e|]] w1]; cbn [bind run].
  { destruct (isErrDefault404 e); cbn; intros ->%list_elem_of_singleton; by left. }
  destruct share as [share|]; cbn [deref bind run];
    [|cbn; intros ->%list_elem_of_singleton; by left].
  destruct (SetAll d _) as [d1 errs1] eqn:E1.
  destruct (SetAll d1 _) as [d2 errs2] eqn:E2.
  destruct (SetAll d2 _) as [d3 errs3] eqn:E3.
  apply (f_equal fst) in E1, E2, E3. cbn [fst] in E1, E2, E3.
  assert (Hid : Id d3 = Id d).
  { by rewrite <- E3, Id_SetAll, <- E2, Id_SetAll, <- E1, Id_SetAll. }
  set (mdv := VMap _).
  pose proof (Id_Set d3 "metadata" mdv) as Hid4.
  destruct (Set_ d3 "metadata" mdv) as [d4 [err4|]]; cbn in Hid4.
  { cbn. intros ->%list_elem_of_singleton. by left. }
  cbn [bind sdk run]. rewrite Hid4, Hid.
  assert (Hboth : ∀ c : shares.call,
            c ∈ [shares.Get (Id d); shares.ListAccessRights (Id d)] →
            c = shares.Get (Id d) ∨ c = shares.ListAccessRights (Id d)).
  { intros c' [->|Hc']%elem_of_cons; [by left|].
    apply list_elem_of_singleton in Hc' as ->. by right. }
  destruct (h _ w1) as [[rules [e|]] w2]; cbn [run bind].
  - destruct (isErrDefault404 e); cbn; apply Hboth.
  - destruct rules as [|rule rules]; cbn [run]; [cbn; apply Hboth|].
    destruct (SetAll d4 _) as [d5 errs4]. cbn. apply Hboth.
Qed.
End ShareMore.

(** X6.  For a well-typed resource whose schema has the metadata map,
    [resourceSFSMetadataV2] does not panic: it returns a map of strings with
    the keys of the configured metadata and, under each key, the string
    configured there. *)
Theorem share_metadata_decoded (d : schema.ResourceData) :
  schema.wellTyped d = true →
  schema.rd_schema d !! "metadata" = Some TypeMap →
  ∃ m : gmap string string,
    sfs.resourceSFSMetadataV2 d = Ret m
    ∧ schema.Get d "metadata" = VMap (VString <$> m).
Proof.
  intros Hd Hk. destruct (Get_stringMap d _ Hd Hk) as (raw & Hraw & Hall).
  exists (stringOf <$> raw). split; [by apply resourceSFSMetadataV2_decode|].
  rewrite Hraw. f_equal. rewrite <- map_fmap_compose. apply map_eq. intros k.
  rewrite lookup_fmap. destruct (raw !! k) as [v|] eqn:Hv; [|done].
  specialize (Hall k v Hv). by destruct v.
Qed.

Lemma share_metadata_decoded_witness :
  ∃ m : gmap string string,
    sfs.resourceSFSMetadataV2 sfs_scenario_more.labelled = Ret m
    ∧ schema.Get sfs_scenario_more.labelled "metadata" = VMap (VString <$> m).
Proof.
  assert (H1 : schema.wellTyped sfs_scenario_more.labelled = true)
    by (vm_compute; reflexivity).
  assert (H2 : schema.rd_schema sfs_scenario_more.labelled !! "metadata" = Some TypeMap)
    by (vm_compute; reflexivity).
  exact (share_metadata_decoded sfs_scenario_more.labelled H1 H2).
Defined.

(** X7.  What Read writes under metadata is read back by
    [resourceSFSMetadataV2] as the metadata of the response without the system
    entries: the state Read leaves can be fed to Create as it is. *)
Theorem share_metadata_read_back
    {W : Type} (h : Cloud shares.result W) (w w1 : W)
    (d : schema.ResourceData) (meta : cfg.Config) (share : sfs.Share.t) :
  schema.rd_schema d = sfs.Schema →
  cfg.SfsV2Client meta (cfg.GetRegion meta d) = None →
  h (shares.Get (schema.Id d)) w = ((Some share, None), w1) →
  ∃ (err : error) (d' : schema.ResourceData),
    outcome (run h (sfs.resourceSFSFileSystemV2Read d meta) w) = Returned (err, d')
    ∧ sfs.resourceSFSMetadataV2 d' = Ret (sfs.userMetadata (sfs.Share.Metadata share)).
Proof.
  intros Hs Hclient Hget.
  destruct (share_read_metadata h w w1 d meta share Hs Hclient Hget)
    as (err & d' & Hrun & Hmd).
  exists err, d'. split; [done|].
  rewrite (resourceSFSMetadataV2_decode d' _ Hmd).
  - by rewrite stringOf_VString.
  - apply isString_VString.
Qed.

Lemma share_metadata_read_back_witness :
  ∃ (err : error) (d' : schema.ResourceData),
    outcome (run sfs_scenario.cloud
               (sfs.resourceSFSFileSystemV2Read sfs_scenario.inState scenario.meta)
               (sfs_scenario.quiet []))
      = Returned (err, d')
    ∧ sfs.resourceSFSMetadataV2 d'
        = Ret (sfs.userMetadata (sfs.Share.Metadata (sfs_scenario.share "available"))).
Proof.
  exact (share_metadata_read_back sfs_scenario.cloud
           (sfs_scenario.quiet []) (sfs_scenario.quiet [])
           sfs_scenario.inState scenario.meta (sfs_scenario.share "available")
           eq_refl eq_refl eq_refl).
Defined.

Section CallsOfBind.
Context {call : Type} {result : call → Type} {W : Type}.
Implicit Types h : Cloud result W.

(** A call of a sequence is a call of its first part or of what follows. *)
Lemma calls_bind {A B} h (m : Prog result A) (f : A → Prog result B) w c :
  c ∈ calls (run h (x <- m ;; f x) w) →
  c ∈ calls (run h m w) ∨ ∃ a w1, c ∈ calls (run h (f a) w1).
Proof.
  rewrite run_bind.
  destruct (run h m w) as [[[a|msg] w1] l1]; [|by left].
  destruct (run h (f a) w1) as [[o w2] l2] eqn:Hf. cbn.
  intros [?|?]%elem_of_app; [by left|]. right. exists a, w1. by rewrite Hf.
Qed.

Lemma calls_sdk h (c0 : call) w c : c ∈ calls (run h (sdk c0) w) → c = c0.
Proof. rewrite run_sdk. cbn. by intros ->%list_elem_of_singleton. Qed.

Lemma calls_asString h v w c : c ∈ calls (run h (asString v) w) → False.
Proof. destruct v; cbn; by intros ?%elem_of_nil. Qed.

Lemma calls_asInt h v w c : c ∈ calls (run h (asInt v) w) → False.
Proof. destruct v; cbn; by intros ?%elem_of_nil. Qed.

Lemma calls_deref {T} h (p : option T) w c : c ∈ calls (run h (deref p) w) → False.
Proof. destruct p; cbn; by intros ?%elem_of_nil. Qed.
End CallsOfBind.

Section ShareCreateRequest.
Import schema cfg resource.
Context {W : Type}.
Implicit Types (h : Cloud shares.result W) (d : ResourceData).

(** After the create request, Create issues no second one. *)
Lemma share_create_tail h w d meta o opts :
  shares.Create opts
    ∈ calls (run h
        (x <- sdk (shares.Create o) ;;
         let '(share, err) := x in
         match err with
         | Some err =>
             Ret (fmt.Errorf "error creating OpenTelekomCloud File Share: %s" [err], d)
         | None =>
             share <- deref share ;;
             let stateConf := sfs.createStateConf d (sfs.Share.ID share) in
             w <- WaitForState stateConf ;;
             let '(_, err) := w in
             match err with
             | Some err =>
                 Ret (fmt.Errorf "error applying access rules to share file: %s" [err], d)
             | None =>
                 access_level <- asString (Get d "access_level") ;;
                 access_type <- asString (Get d "access_type") ;;
                 access_to <- asString (Get d "access_to") ;;
                 let grantAccessOpts :=
                   sfs.GrantAccessOpts.mk access_level access_type access_to in
                 g <- sdk (shares.GrantAccess (sfs.Share.ID share) grantAccessOpts) ;;
                 let '(_, err) := g in
                 match err with
                 | Some err =>
                     Ret (fmt.Errorf "error applying access rules to share file: %s" [err],
                          d)
                 | None =>
                     let d := SetId d (sfs.Share.ID share) in
                     sfs.resourceSFSFileSystemV2Read d meta
                 end
             end
         end) w) →
  opts = o.
Proof.
  intros [Hc|([share [e|]] & w1 & Hc)]%calls_bind.
  - apply calls_sdk in Hc. by injection Hc.
  - by apply elem_of_nil in Hc.
  - apply calls_bind in Hc as [Hc|(share' & w2 & Hc)]; [by apply calls_deref in Hc|].
    apply calls_bind in Hc as [Hc|([res [e|]] & w3 & Hc)];
      [by apply share_wait_calls in Hc | by apply elem_of_nil in Hc |].
    apply calls_bind in Hc as [Hc|(level & w4 & Hc)]; [by apply calls_asString in Hc|].
    apply calls_bind in Hc as [Hc|(type & w5 & Hc)]; [by apply calls_asString in Hc|].
    apply calls_bind in Hc as [Hc|(to & w6 & Hc)]; [by apply calls_asString in Hc|].
    apply calls_bind in Hc as [Hc|([g [e|]] & w7 & Hc)];
      [by apply calls_sdk in Hc | by apply elem_of_nil in Hc |].
    by apply share_read_calls in Hc as [Hc|Hc].
Qed.
End ShareCreateRequest.

(** X8.  The create request that Create sends for a well-typed share carries
    share_proto, size, name, description, is_public and availability_zone as
    configured, and the configured metadata as [resourceSFSMetadataV2] returns
    it; Create sends no other create request. *)
Theorem share_create_request
    {W : Type} (h : Cloud shares.result W) (w : W)
    (d : schema.ResourceData) (meta : cfg.Config) (opts : sfs.CreateOpts.t) :
  schema.rd_schema d = sfs.Schema →
  schema.wellTyped d = true →
  shares.Create opts ∈ calls (run h (sfs.resourceSFSFileSystemV2Create d meta) w) →
  schema.Get d "share_proto" = VString (sfs.CreateOpts.ShareProto opts)
  ∧ schema.Get d "size" = VInt (sfs.CreateOpts.Size opts)
  ∧ schema.Get d "name" = VString (sfs.CreateOpts.Name opts)
  ∧ schema.Get d "description" = VString (sfs.CreateOpts.Description opts)
  ∧ schema.Get d "is_public" = VBool (sfs.CreateOpts.IsPublic opts)
  ∧ schema.Get d "availability_zone" = VString (sfs.CreateOpts.AvailabilityZone opts)
  ∧ sfs.resourceSFSMetadataV2 d = Ret (sfs.CreateOpts.Metadata opts).
Proof.
  intros Hs Hd.
  assert (Hty : ∀ k t, sfs.Schema !! k = Some t → schema.rd_schema d !! k = Some t)
    by (by rewrite Hs).
  destruct (Get_string d "share_proto" Hd) as [proto Hproto]; [by apply Hty|].
  destruct (Get_int d "size" Hd) as [size Hsize]; [by apply Hty|].
  destruct (Get_string d "name" Hd) as [name Hname]; [by apply Hty|].
  destruct (Get_string d "description" Hd) as [descr Hdescr]; [by apply Hty|].
  destruct (Get_bool d "is_public" Hd) as [pub Hpub]; [by apply Hty|].
  destruct (resourceSFSMetadataV2_typed d Hd) as [md Hmd]; [by apply Hty|].
  destruct (Get_string d "availability_zone" Hd) as [az Haz]; [by apply Hty|].
  unfold sfs.resourceSFSFileSystemV2Create.
  destruct (cfg.SfsV2Client meta _); [cbn; by intros ?%elem_of_nil|].
  rewrite Hproto, Hsize, Hname, Hdescr, Hpub. cbn [asString asInt asBool bind].
  rewrite Hmd, Haz. cbn [asString bind].
  by intros ->%share_create_tail.
Qed.

Lemma share_create_request_witness :
  ∃ opts : sfs.CreateOpts.t,
    schema.Get sfs_scenario.new "size" = VInt (sfs.CreateOpts.Size opts)
    ∧ sfs.CreateOpts.Size opts = 10.
Proof.
  assert (Ht : schema.wellTyped sfs_scenario.new = true) by (vm_compute; reflexivity).
  set (opts := sfs.CreateOpts.mk "NFS" 10 "share" "" false ∅ "").
  assert (Hcalls :
    calls (run sfs_scenario_more.refusingAll
             (sfs.resourceSFSFileSystemV2Create sfs_scenario.new scenario.meta)
             (sfs_scenario.quiet []))
    = [shares.Create opts]) by (vm_compute; reflexivity).
  assert (Hin :
    shares.Create opts
      ∈ calls (run sfs_scenario_more.refusingAll
                 (sfs.resourceSFSFileSystemV2Create sfs_scenario.new scenario.meta)
                 (sfs_scenario.quiet [])))
    by (rewrite Hcalls; left).
  destruct (share_create_request sfs_scenario_more.refusingAll (sfs_scenario.quiet [])
              sfs_scenario.new scenario.meta opts eq_refl Ht Hin)
    as (_ & Hsize & _).
  exists opts. by split.
Defined.

Section SetAllMore.
Import schema.
Implicit Types d : ResourceData.

Lemma SetAll_snd_cons d k v rest :
  (SetAll d ((k, v) :: rest)).2 = (Set_ d k v).2 :: (SetAll (Set_ d k v).1 rest).2.
Proof.
  cbn. destruct (Set_ d k v) as [d1 e]. cbn. by destruct (SetAll d1 rest).
Qed.

(** Writes to attributes of the schema raise no error. *)
Lemma SetAll_errors d kvs :
  (∀ k, k ∈ kvs.*1 → is_Some (rd_schema d !! k)) →
  omap id (SetAll d kvs).2 = [].
Proof.
  revert d. induction kvs as [|[k v] rest IH]; intros d Hk; [done|].
  rewrite SetAll_snd_cons, Set_known by (apply Hk; left). cbn.
  apply IH. intros k' Hk'. rewrite schema_Set. apply Hk. by right.
Qed.

(** An attribute written once in a row of writes reads back as written. *)
Lemma Get_SetAll_eq d kvs k v :
  NoDup kvs.*1 → (k, v) ∈ kvs → is_Some (rd_schema d !! k) →
  Get (SetAll d kvs).1 k = v.
Proof.
  revert d. induction kvs as [|[k' v'] rest IH]; intros d Hnd Hin Hk.
  { by apply elem_of_nil in Hin. }
  cbn in Hnd. apply NoDup_cons in Hnd as [Hnotin Hnd].
  rewrite SetAll_cons. apply elem_of_cons in Hin as [[= -> ->]|Hin].
  - rewrite Get_SetAll_ne by done. by apply Get_Set_eq.
  - apply IH; [done..|]. by rewrite schema_Set.
Qed.
End SetAllMore.

Section ShareDeleteCalls.
Import schema cfg resource.
Context {W : Type}.
Implicit Types (h : Cloud shares.result W) (d : ResourceData).

(** The wait of Delete only ever issues Gets of the share. *)
Lemma share_delete_wait_calls h w d c :
  c ∈ calls (run h (WaitForState (sfs.deleteStateConf d)) w) → c = shares.Get (Id d).
Proof.
  unfold WaitForState. revert c. apply (waitLoop_calls (λ c, c = shares.Get (Id d))).
  clear w. intros w c. cbn.
  destruct (h (shares.Get (Id d)) w) as [[share [e|]] w1]; cbn.
  - destruct (isErrDefault404 e); cbn; by intros ->%list_elem_of_singleton.
  - destruct share; cbn; by intros ->%list_elem_of_singleton.
Qed.
End ShareDeleteCalls.

(** X9.  Delete of a file share requests the deletion once, as its first
    call, and after that only polls: every later call is a Get of the share.
    (Delete of a router requests the deletion in every round instead.) *)
Theorem share_delete_requests_once
    {W : Type} (h : Cloud shares.result W) (w : W)
    (d : schema.ResourceData) (meta : cfg.Config) :
  cfg.SfsV2Client meta (cfg.GetRegion meta d) = None →
  ∃ polls,
    calls (run h (sfs.resourceSFSFileSystemV2Delete d meta) w)
      = shares.Delete (schema.Id d) :: polls
    ∧ ∀ c, c ∈ polls → c = shares.Get (schema.Id d).
Proof.
  intros Hclient. unfold sfs.resourceSFSFileSystemV2Delete. rewrite Hclient.
  cbn [bind sdk run]. destruct (h _ w) as [[e|] w1]; cbn [bind run].
  { exists []. split; [done|]. by intros c ?%elem_of_nil. }
  rewrite run_bind.
  destruct (run h (resource.WaitForState _) w1) as [[[[res [e|]]|msg] w'] l] eqn:Hwait;
    cbn; rewrite ?app_nil_r; (exists l; split; [done|]);
    intros c Hc; apply (share_delete_wait_calls h w1 d c); by rewrite Hwait.
Qed.

Lemma share_delete_requests_once_witness :
  ∃ polls,
    calls (run sfs_scenario.cloud
             (sfs.resourceSFSFileSystemV2Delete sfs_scenario.inState scenario.meta)
             (sfs_scenario.quiet [sfs_scenario.Found "deleting"; sfs_scenario.Gone]))
      = shares.Delete "s1" :: polls
    ∧ ∀ c, c ∈ polls → c = shares.Get "s1".
Proof.
  exact (share_delete_requests_once sfs_scenario.cloud
           (sfs_scenario.quiet [sfs_scenario.Found "deleting"; sfs_scenario.Gone])
           sfs_scenario.inState scenario.meta eq_refl).
Defined.

(** ** Read of a file share, attribute by attribute *)

Ltac in_list :=
  solve [repeat first [apply list_elem_of_here | apply list_elem_of_further]].
Ltac not_in_list := apply (bool_decide_unpack _); by vm_compute.
Ltac in_schema Hs := rewrite Hs; vm_compute; by eauto.

Section ShareReadRun.
Import schema cfg.
Context {W : Type}.
Implicit Types (h : Cloud shares.result W) (d : ResourceData).

(** Read, once Get has found the share: the resource after the writes of the
    share's attributes and of the metadata, and what the answer of
    ListAccessRights makes of it. *)
Lemma share_read_run h w w1 d meta share :
  rd_schema d = sfs.Schema →
  SfsV2Client meta (GetRegion meta d) = None →
  h (shares.Get (Id d)) w = ((Some share, None), w1) →
  ∃ d1 d4,
    (Id d1 = Id d ∧ Get d1 "region" = Get d "region")
    ∧ (rd_schema d4 = sfs.Schema ∧ Id d4 = Id d)
    ∧ (Get d4 "name" = VString (sfs.Share.Name share)
       ∧ Get d4 "share_proto" = VString (sfs.Share.ShareProto share)
       ∧ Get d4 "status" = VString (sfs.Share.Status share)
       ∧ Get d4 "size" = VInt (sfs.Share.Size share)
       ∧ Get d4 "description" = VString (sfs.Share.Description share)
       ∧ Get d4 "share_type" = VString (sfs.Share.ShareType share)
       ∧ Get d4 "volume_type" = VString (sfs.Share.VolumeType share)
       ∧ Get d4 "is_public" = VBool (sfs.Share.IsPublic share)
       ∧ Get d4 "availability_zone" = VString (sfs.Share.AvailabilityZone share)
       ∧ Get d4 "region" = VString (GetRegion meta d1)
       ∧ Get d4 "export_location" = VString (sfs.Share.ExportLocation share)
       ∧ Get d4 "host" = VString (sfs.Share.Host share)
       ∧ Get d4 "metadata"
           = VMap (VString <$> sfs.userMetadata (sfs.Share.Metadata share)))
    ∧ (∀ k, k ∈ ["share_access_id"; "access_rule_status"; "access_to";
                 "access_type"; "access_level"] → Get d4 k = Get d k)
    ∧ run h (sfs.resourceSFSFileSystemV2Read d meta) w =
        let log := [shares.Get (Id d); shares.ListAccessRights (Id d)] in
        let '((rules, err), w2) := h (shares.ListAccessRights (Id d)) w1 in
        match err with
        | Some e =>
            if isErrDefault404 e then (Returned (None, SetId d4 ""), w2, log)
            else (Returned
                    (fmt.Errorf "error retrieving OpenTelekomCloud Shares: %s" [e], d4),
                  w2, log)
        | None =>
            match rules with
            | [] => (Returned (None, d4), w2, log)
            | rule :: _ =>
                (Returned (None,
                   (SetAll d4 [
                      ("share_access_id", VString (sfs.AccessRight.ID rule));
                      ("access_rule_status", VString (sfs.AccessRight.State rule));
                      ("access_to", VString (sfs.AccessRight.AccessTo rule));
                      ("access_type", VString (sfs.AccessRight.AccessType rule));
                      ("access_level", VString (sfs.AccessRight.AccessLevel rule))]).1),
                 w2, log)
            end
        end.
Proof.
  intros Hs Hclient Hget. unfold sfs.resourceSFSFileSystemV2Read.
  rewrite Hclient. cbn [bind sdk run]. rewrite Hget. cbn [bind deref].
  destruct (SetAll d _) as [d1 errs1] eqn:E1.
  destruct (SetAll d1 _) as [d2 errs2] eqn:E2.
  destruct (SetAll d2 _) as [d3 errs3] eqn:E3.
  pose proof (f_equal snd E1) as F1. pose proof (f_equal snd E2) as F2.
  pose proof (f_equal snd E3) as F3.
  apply (f_equal fst) in E1, E2, E3. cbn [fst snd] in *.
  assert (Hs1 : rd_schema d1 = sfs.Schema) by (by rewrite <- E1, schema_SetAll).
  assert (Hs2 : rd_schema d2 = sfs.Schema) by (by rewrite <- E2, schema_SetAll).
  assert (Hs3 : rd_schema d3 = sfs.Schema) by (by rewrite <- E3, schema_SetAll).
  assert (Hno : omap id (errs1 ++ errs2 ++ errs3)%list = []).
  { rewrite !omap_app, <- F1, <- F2, <- F3.
    rewrite !SetAll_errors; [done|..]; intros k Hk; cbn in Hk;
      repeat (apply elem_of_cons in Hk as [->|Hk];
                [first [in_schema Hs | in_schema Hs1 | in_schema Hs2]|]);
      by apply elem_of_nil in Hk. }
  set (mdv := VMap _).
  assert (Hmd : is_Some (rd_schema d3 !! "metadata")) by in_schema Hs3.
  pose proof (Set_known d3 "metadata" mdv Hmd) as Hnone.
  pose proof (Get_Set_eq d3 "metadata" mdv Hmd) as Hval.
  pose proof (schema_Set d3 "metadata" mdv) as Hs4.
  pose proof (Id_Set d3 "metadata" mdv) as Hid4.
  assert (Hother : ∀ k, k ≠ "metadata" →
            Get (Set_ d3 "metadata" mdv).1 k = Get d3 k)
    by (intros k Hk; by apply Get_Set_ne).
  destruct (Set_ d3 "metadata" mdv) as [d4 err4].
  cbn [fst snd] in Hnone, Hval, Hs4, Hid4, Hother. subst err4.
  assert (Hid1 : Id d1 = Id d) by (by rewrite <- E1, Id_SetAll).
  assert (Hid : Id d4 = Id d).
  { by rewrite Hid4, <- E3, Id_SetAll, <- E2, Id_SetAll. }
  exists d1, d4. split_and!; try done;
    try (rewrite Hother by done; rewrite <- E3;
         first
           [ apply Get_SetAll_eq; [not_in_list|in_list|in_schema Hs2]
           | rewrite Get_SetAll_ne by not_in_list; rewrite <- E2;
             first
               [ apply Get_SetAll_eq; [not_in_list|in_list|in_schema Hs1]
               | rewrite Get_SetAll_ne by not_in_list; rewrite <- E1;
                 apply Get_SetAll_eq; [not_in_list|in_list|in_schema Hs] ] ]).
  - rewrite <- E1. rewrite Get_SetAll_ne; [done|not_in_list].
  - by rewrite Hs4.
  - intros k Hk.
    assert (k ≠ "metadata" ∧ (k ∉ ["export_location"; "host"]) ∧ k ≠ "region"
            ∧ (k ∉ ["name"; "share_proto"; "status"; "size"; "description";
                    "share_type"; "volume_type"; "is_public"; "availability_zone"]))
      as (Hk1 & Hk2 & Hk3 & Hk4).
    { repeat (apply elem_of_cons in Hk as [->|Hk];
                [split_and!; first [done | not_in_list]|]).
      by apply elem_of_nil in Hk. }
    rewrite Hother by done. rewrite <- E3, Get_SetAll_ne by done.
    rewrite <- E2, Get_SetAll_ne by (cbn; by intros ->%list_elem_of_singleton).
    by rewrite <- E1, Get_SetAll_ne.
  - cbn [bind sdk run]. rewrite Hid.
    destruct (h _ w1) as [[rules [e|]] w2]; cbn [run bind].
    + by destruct (isErrDefault404 e).
    + destruct rules as [|rule rules]; cbn [run]; [done|].
      destruct (SetAll d4 _) as [d5 errs4] eqn:E5.
      pose proof (f_equal snd E5) as F5. cbn [fst snd] in F5.
      assert (Hno5 : omap id errs4 = []).
      { rewrite <- F5. apply SetAll_errors. intros k Hk. cbn in Hk.
        repeat (apply elem_of_cons in Hk as [->|Hk]; [rewrite Hs4; in_schema Hs3|]).
        by apply elem_of_nil in Hk. }
      cbn. unfold multierror.Append. by rewrite Hno, Hno5.
Qed.
End ShareReadRun.

(** X10.  When Get finds the share and ListAccessRights returns at least one
    rule, Read of a file share returns no error after exactly these two
    calls, keeps the ID, and leaves the twelve attributes of the share set
    from the response (region from the configuration) and the five access
    attributes set from the first rule; further rules are ignored. *)
Theorem share_read_sets_state
    {W : Type} (h : Cloud shares.result W) (w w1 w2 : W)
    (d : schema.ResourceData) (meta : cfg.Config) (share : sfs.Share.t)
    (rule : sfs.AccessRight.t) (rules : list sfs.AccessRight.t) :
  schema.rd_schema d = sfs.Schema →
  cfg.SfsV2Client meta (cfg.GetRegion meta d) = None →
  h (shares.Get (schema.Id d)) w = ((Some share, None), w1) →
  h (shares.ListAccessRights (schema.Id d)) w1 = ((rule :: rules, None), w2) →
  ∃ d' d0 : schema.ResourceData,
    run h (sfs.resourceSFSFileSystemV2Read d meta) w
      = (Returned (None, d'), w2,
         [shares.Get (schema.Id d); shares.ListAccessRights (schema.Id d)])
    ∧ schema.Id d' = schema.Id d
    ∧ (schema.Get d' "name" = VString (sfs.Share.Name share)
       ∧ schema.Get d' "share_proto" = VString (sfs.Share.ShareProto share)
       ∧ schema.Get d' "status" = VString (sfs.Share.Status share)
       ∧ schema.Get d' "size" = VInt (sfs.Share.Size share)
       ∧ schema.Get d' "description" = VString (sfs.Share.Description share)
       ∧ schema.Get d' "share_type" = VString (sfs.Share.ShareType share)
       ∧ schema.Get d' "volume_type" = VString (sfs.Share.VolumeType share)
       ∧ schema.Get d' "is_public" = VBool (sfs.Share.IsPublic share)
       ∧ schema.Get d' "availability_zone"
           = VString (sfs.Share.AvailabilityZone share)
       ∧ schema.Get d' "export_location" = VString (sfs.Share.ExportLocation share)
       ∧ schema.Get d' "host" = VString (sfs.Share.Host share))
    ∧ (schema.Get d' "region" = VString (cfg.GetRegion meta d0)
       ∧ schema.Get d0 "region" = schema.Get d "region"
       ∧ schema.Id d0 = schema.Id d)
    ∧ (schema.Get d' "share_access_id" = VString (sfs.AccessRight.ID rule)
       ∧ schema.Get d' "access_rule_status" = VString (sfs.AccessRight.State rule)
       ∧ schema.Get d' "access_to" = VString (sfs.AccessRight.AccessTo rule)
       ∧ schema.Get d' "access_type" = VString (sfs.AccessRight.AccessType rule)
       ∧ schema.Get d' "access_level" = VString (sfs.AccessRight.AccessLevel rule)).
Proof.
  intros Hs Hclient Hget Hlist.
  destruct (share_read_run h w w1 d meta share Hs Hclient Hget)
    as (d1 & d4 & [Hid1 Hregion1] & [Hs4 Hid4] & Hshare & _ & Hrun).
  rewrite Hlist in Hrun. cbn zeta in Hrun.
  eexists; exists d1. split; [exact Hrun|].
  destruct Hshare as (? & ? & ? & ? & ? & ? & ? & ? & ? & ? & ? & ? & _).
  split_and!; try done;
    first
      [ by rewrite Id_SetAll
      | by rewrite Get_SetAll_ne by not_in_list
      | apply Get_SetAll_eq; [not_in_list|in_list|in_schema Hs4] ].
Qed.

Lemma share_read_sets_state_witness :
  ∃ d' : schema.ResourceData,
    outcome (run sfs_scenario.cloud
               (sfs.resourceSFSFileSystemV2Read sfs_scenario.inState scenario.meta)
               (sfs_scenario.quiet []))
      = Returned (None, d')
    ∧ schema.Get d' "status" = VString "available"
    ∧ schema.Get d' "export_location" = VString "sfs.example:/share-s1"
    ∧ schema.Get d' "share_access_id" = VString "a1"
    ∧ schema.Get d' "access_to" = VString "vpc-1".
Proof.
  assert (H1 : schema.rd_schema sfs_scenario.inState = sfs.Schema) by reflexivity.
  assert (H2 : cfg.SfsV2Client scenario.meta
                 (cfg.GetRegion scenario.meta sfs_scenario.inState) = None)
    by reflexivity.
  assert (H3 : sfs_scenario.cloud (shares.Get (schema.Id sfs_scenario.inState))
                 (sfs_scenario.quiet [])
               = ((Some (sfs_scenario.share "available"), None), sfs_scenario.quiet []))
    by (vm_compute; reflexivity).
  assert (H4 : sfs_scenario.cloud
                 (shares.ListAccessRights (schema.Id sfs_scenario.inState))
                 (sfs_scenario.quiet [])
               = (([sfs_scenario.right], None), sfs_scenario.quiet []))
    by (vm_compute; reflexivity).
  destruct (share_read_sets_state sfs_scenario.cloud _ _ _ _ _ _ _ _ H1 H2 H3 H4)
    as (d' & d0 & Hrun & _ & Hshare & _ & Haccess).
  exists d'. rewrite Hrun. split; [reflexivity|].
  destruct Hshare as (_ & _ & ? & _ & _ & _ & _ & _ & _ & ? & _).
  destruct Haccess as (? & _ & ? & _). by split_and!.
Defined.

(** X11.  When Get finds the share but listing its access rights yields no
    rule, the attributes of the share are written all the same and the five
    access attributes are left as they were: with an empty list Read returns
    no error, with a 404 from ListAccessRights it clears the ID and returns no
    error, and with any other error it returns that error, wrapped. *)
Theorem share_read_without_rule
    {W : Type} (h : Cloud shares.result W) (w w1 w2 : W)
    (d : schema.ResourceData) (meta : cfg.Config) (share : sfs.Share.t)
    (rules : list sfs.AccessRight.t) (err : error) :
  schema.rd_schema d = sfs.Schema →
  cfg.SfsV2Client meta (cfg.GetRegion meta d) = None →
  h (shares.Get (schema.Id d)) w = ((Some share, None), w1) →
  h (shares.ListAccessRights (schema.Id d)) w1 = ((rules, err), w2) →
  (err = None → rules = []) →
  ∃ d4 : schema.ResourceData,
    outcome (run h (sfs.resourceSFSFileSystemV2Read d meta) w)
      = Returned
          match err with
          | None => (None, d4)
          | Some e =>
              if isErrDefault404 e then (None, schema.SetId d4 "")
              else (fmt.Errorf "error retrieving OpenTelekomCloud Shares: %s" [e], d4)
          end
    ∧ schema.Id d4 = schema.Id d
    ∧ schema.Get d4 "name" = VString (sfs.Share.Name share)
    ∧ schema.Get d4 "status" = VString (sfs.Share.Status share)
    ∧ schema.Get d4 "size" = VInt (sfs.Share.Size share)
    ∧ ∀ k, k ∈ ["share_access_id"; "access_rule_status"; "access_to";
                "access_type"; "access_level"] →
           schema.Get d4 k = schema.Get d k.
Proof.
  intros Hs Hclient Hget Hlist Hnone.
  destruct (share_read_run h w w1 d meta share Hs Hclient Hget)
    as (d1 & d4 & _ & [Hs4 Hid4] & Hshare & Hkept & Hrun).
  rewrite Hlist in Hrun. cbn zeta in Hrun.
  destruct Hshare as (? & _ & ? & ? & _).
  exists d4. rewrite Hrun. split_and!; try done.
  destruct err as [e|]; [by destruct (isErrDefault404 e)|].
  by rewrite (Hnone eq_refl).
Qed.

Lemma share_read_without_rule_witness :
  ∃ d4 : schema.ResourceData,
    outcome (run (sfs_scenario_read.listing ([], Some (ErrDefault404 "no such share")))
               (sfs.resourceSFSFileSystemV2Read sfs_scenario_read.ruled scenario.meta)
               (sfs_scenario.quiet []))
      = Returned (None, schema.SetId d4 "")
    ∧ schema.Get d4 "status" = VString "available"
    ∧ schema.Get d4 "share_access_id" = VString "a1".
Proof.
  set (h := sfs_scenario_read.listing ([], Some (ErrDefault404 "no such share"))).
  assert (H1 : schema.rd_schema sfs_scenario_read.ruled = sfs.Schema) by reflexivity.
  assert (H2 : cfg.SfsV2Client scenario.meta
                 (cfg.GetRegion scenario.meta sfs_scenario_read.ruled) = None)
    by reflexivity.
  assert (H3 : h (shares.Get (schema.Id sfs_scenario_read.ruled)) (sfs_scenario.quiet [])
               = ((Some (sfs_scenario.share "available"), None), sfs_scenario.quiet []))
    by (vm_compute; reflexivity).
  assert (H4 : h (shares.ListAccessRights (schema.Id sfs_scenario_read.ruled))
                 (sfs_scenario.quiet [])
               = (([], Some (ErrDefault404 "no such share")), sfs_scenario.quiet []))
    by (vm_compute; reflexivity).
  assert (H5 : Some (ErrDefault404 "no such share") = None → @nil sfs.AccessRight.t = [])
    by reflexivity.
  destruct (share_read_without_rule h _ _ _ _ _ _ _ _ H1 H2 H3 H4 H5)
    as (d4 & Hrun & _ & _ & Hstatus & _ & Hkept).
  exists d4. split; [exact Hrun|]. split; [exact Hstatus|].
  rewrite Hkept by in_list. by vm_compute.
Defined.

(** ** Update of a file share *)

Section LiftBase.
Context {W : Type}.
Implicit Types h : Cloud shares_update.result W.

(** A handler over the calls of Create, Read and Delete runs the same where
    the calls of Update are available: same outcome, same world, the same
    calls in the same order. *)
Lemma run_liftBase {A} h (p : Prog shares.result A) w :
  run h (shares_update.liftBase p) w =
    let '(o, w1, l) := run (shares_update.baseCloud h) p w in
    (o, w1, shares_update.Base <$> l).
Proof.
  revert w. induction p as [a|msg|c k IH]; intros w; cbn; [done..|].
  unfold shares_update.baseCloud at 1.
  destruct (h (shares_update.Base c) w) as [r w1]. rewrite IH.
  by destruct (run (shares_update.baseCloud h) (k r) w1) as [[o w2] l].
Qed.

Lemma calls_liftBase {A} h (p : Prog shares.result A) w c :
  c ∈ calls (run h (shares_update.liftBase p) w) →
  ∃ c0, c = shares_update.Base c0 ∧ c0 ∈ calls (run (shares_update.baseCloud h) p w).
Proof.
  rewrite run_liftBase.
  destruct (run (shares_update.baseCloud h) p w) as [[o w1] l]. cbn.
  intros (c0 & -> & Hc0)%list_elem_of_fmap. eauto.
Qed.
End LiftBase.

Section CallsOfBindRun.
Context {call : Type} {result : call → Type} {W : Type}.
Implicit Types h : Cloud result W.

(** A call of a sequence is a call of its first part, or a call of what
    follows, run on what the first part returned and in the world it left. *)
Lemma calls_bind_run {A B} h (m : Prog result A) (f : A → Prog result B) w c :
  c ∈ calls (run h (x <- m ;; f x) w) →
  c ∈ calls (run h m w)
  ∨ ∃ a, outcome (run h m w) = Returned a
         ∧ c ∈ calls (run h (f a) (world (run h m w))).
Proof.
  rewrite run_bind.
  destruct (run h m w) as [[[a|msg] w1] l1]; [|by left].
  destruct (run h (f a) w1) as [[o w2] l2] eqn:Hf. cbn.
  intros [?|?]%elem_of_app; [by left|]. right. exists a. by rewrite Hf.
Qed.
End CallsOfBindRun.

Ltac no_more Hc := cbn in Hc; by apply elem_of_nil in Hc.

(** X12.  Every call that Update of a file share issues goes to the share's
    own ID and is one of these: shares.Update, only if name or description
    changed, carrying the planned name and description; DeleteAccess of the
    stored share_access_id and GrantAccess of the planned access level, type
    and target, only if one of the three changed; Expand to the new size, only
    if the size grew; Shrink to the new size, only if it shrank; the Get and
    ListAccessRights of Read.  Update never creates or deletes a share. *)
Theorem share_update_requests
    {W : Type} (h : Cloud shares_update.result W) (w : W)
    (d : schema.ResourceData) (meta : cfg.Config) (c : shares_update.call) :
  c ∈ calls (run h (sfs_update.resourceSFSFileSystemV2Update d meta) w) →
  match c with
  | shares_update.Update id opts =>
      id = schema.Id d
      ∧ schema.HasChange d "description" || schema.HasChange d "name" = true
      ∧ schema.Get d "name" = VString (sfs_update.UpdateOpts.DisplayName opts)
      ∧ schema.Get d "description"
          = VString (sfs_update.UpdateOpts.DisplayDescription opts)
  | shares_update.DeleteAccess id opts =>
      id = schema.Id d
      ∧ schema.HasChange d "access_to" || schema.HasChange d "access_level"
          || schema.HasChange d "access_type" = true
      ∧ schema.Get d "share_access_id"
          = VString (sfs_update.DeleteAccessOpts.AccessID opts)
  | shares_update.Base (shares.GrantAccess id opts) =>
      id = schema.Id d
      ∧ schema.HasChange d "access_to" || schema.HasChange d "access_level"
          || schema.HasChange d "access_type" = true
      ∧ schema.Get d "access_level" = VString (sfs.GrantAccessOpts.AccessLevel opts)
      ∧ schema.Get d "access_type" = VString (sfs.GrantAccessOpts.AccessType opts)
      ∧ schema.Get d "access_to" = VString (sfs.GrantAccessOpts.AccessTo opts)
  | shares_update.Expand id opts =>
      id = schema.Id d
      ∧ schema.HasChange d "size" = true
      ∧ ∃ old : Z,
          let new := sfs_update.OSExtendOpts.NewSize
                       (sfs_update.ExpandOpts.OSExtend opts) in
          schema.GetChange d "size" = (VInt old, VInt new) ∧ old < new
  | shares_update.Shrink id opts =>
      id = schema.Id d
      ∧ schema.HasChange d "size" = true
      ∧ ∃ old : Z,
          let new := sfs_update.OSShrinkOpts.NewSize
                       (sfs_update.ShrinkOpts.OSShrink opts) in
          schema.GetChange d "size" = (VInt old, VInt new) ∧ new < old
  | shares_update.Base (shares.Get id)
  | shares_update.Base (shares.ListAccessRights id) => id = schema.Id d
  | shares_update.Base (shares.Create _)
  | shares_update.Base (shares.Delete _) => False
  end.
Proof.
  unfold sfs_update.resourceSFSFileSystemV2Update.
  destruct (cfg.SfsV2Client meta _); [by intros ?%elem_of_nil|].
  intros [Hc|([e|] & w1 & Hc)]%calls_bind; [| no_more Hc |].
  { destruct (schema.HasChange d "description" || schema.HasChange d "name") eqn:Hch; [|no_more Hc].
    destruct (schema.Get d "name") as [| |name| | |] eqn:Hname; try no_more Hc.
    destruct (schema.Get d "description") as [| |descr| | |] eqn:Hdescr; try no_more Hc.
    cbn [asString bind] in Hc.
    apply calls_bind in Hc as [->%calls_sdk|([? [e|]] & w1 & Hc)];
      [done | no_more Hc..]. }
  apply calls_bind in Hc as [Hc|([e|] & w2 & Hc)]; [| no_more Hc |].
  { destruct (schema.HasChange d "access_to" || schema.HasChange d "access_level"
              || schema.HasChange d "access_type") eqn:Hch; [|no_more Hc].
    destruct (schema.Get d "share_access_id") as [| |said| | |] eqn:Hsaid; try no_more Hc.
    cbn [asString bind] in Hc.
    apply calls_bind in Hc as [->%calls_sdk|([e|] & w2 & Hc)]; [done | no_more Hc |].
    destruct (schema.Get d "access_level") as [| |level| | |] eqn:Hlevel; try no_more Hc.
    destruct (schema.Get d "access_type") as [| |type| | |] eqn:Htype; try no_more Hc.
    destruct (schema.Get d "access_to") as [| |to| | |] eqn:Hto; try no_more Hc.
    cbn [asString bind] in Hc.
    apply calls_bind in Hc as [->%calls_sdk|([? [e|]] & w3 & Hc)];
      [done | no_more Hc..]. }
  apply calls_bind in Hc as [Hc|([e|] & w3 & Hc)]; [| no_more Hc |].
  { destruct (schema.HasChange d "size") eqn:Hch; [|no_more Hc].
    destruct (schema.GetChange d "size") as [oldRaw newRaw] eqn:Hgc.
    destruct newRaw as [| | |new| |]; try no_more Hc.
    destruct oldRaw as [| | |old| |]; try no_more Hc.
    cbn [asInt bind] in Hc.
    destruct (old <? new) eqn:Hlt.
    - apply calls_bind in Hc as [->%calls_sdk|([e|] & w3 & Hc)]; [| no_more Hc..].
      split_and!; [done..|]. exists old. split; [done|]. by apply Z.ltb_lt.
    - apply calls_bind in Hc as [->%calls_sdk|([e|] & w3 & Hc)]; [| no_more Hc..].
      split_and!; [done..|]. exists old. split; [done|].
      apply Z.ltb_ge in Hlt. unfold schema.HasChange in Hch. rewrite Hgc in Hch.
      apply bool_decide_eq_true in Hch.
      assert (old ≠ new) by congruence. cbn. lia. }
  apply calls_liftBase in Hc as (c0 & -> & Hc).
  by apply share_read_calls in Hc as [->| ->].
Qed.

Lemma share_update_requests_witness :
  schema.HasChange sfs_scenario_more.grown "size" = true
  ∧ ∃ old : Z,
      schema.GetChange sfs_scenario_more.grown "size" = (VInt old, VInt 20) ∧ old < 20.
Proof.
  set (c := shares_update.Expand "s1"
              (sfs_update.ExpandOpts.mk (sfs_update.OSExtendOpts.mk 20))).
  assert (Hcalls :
    calls (run sfs_scenario_more.updateCloud
             (sfs_update.resourceSFSFileSystemV2Update sfs_scenario_more.grown
                scenario.meta)
             (sfs_scenario.quiet []))
    = [c; shares_update.Base (shares.Get "s1");
       shares_update.Base (shares.ListAccessRights "s1")])
    by (vm_compute; reflexivity).
  assert (Hin :
    c ∈ calls (run sfs_scenario_more.updateCloud
                 (sfs_update.resourceSFSFileSystemV2Update sfs_scenario_more.grown
                    scenario.meta)
                 (sfs_scenario.quiet [])))
    by (rewrite Hcalls; left).
  destruct (share_update_requests sfs_scenario_more.updateCloud (sfs_scenario.quiet [])
              sfs_scenario_more.grown scenario.meta c Hin)
    as (_ & Hch & old & Hgc & Hlt).
  split; [exact Hch|]. exists old. by split.
Defined.





(** ** [strconv]: parsing what [FormatInt] prints *)

Section StrconvRoundTrip.
Import strconv.

Lemma of_uint_acc_ge (u : Decimal.uint) (a : positive) :
  (a <= Pos.of_uint_acc u a)%positive.
Proof.
  revert a. induction u as [|u IH|u IH|u IH|u IH|u IH|u IH|u IH|u IH|u IH|u IH];
    intros a; cbn [Pos.of_uint_acc]; [lia|..];
    (eapply Pos.le_trans; [|apply IH]); lia.
Qed.

(** The digit loop reads the digits of a decimal numeral as the standard
    library does, as long as the number fits 64 bits. *)
Lemma parseDigits_acc (u : Decimal.uint) (a : positive) :
  Z.pos (Pos.of_uint_acc u a) <= maxUint64 →
  parseDigits (NilEmpty.string_of_uint u) (Z.pos a)
    = (Z.pos (Pos.of_uint_acc u a), None).
Proof.
  assert (Hm : maxUint64 = 18446744073709551615) by done.
  revert a. induction u as [|u IH|u IH|u IH|u IH|u IH|u IH|u IH|u IH|u IH|u IH];
    intros a Hmax; [done|..];
    cbn [NilEmpty.string_of_uint parseDigits Pos.of_uint_acc] in *;
    (replace (isDigit _) with true by (by vm_compute));
    cbv zeta;
    match type of Hmax with context [Pos.of_uint_acc u ?a'] =>
      pose proof (of_uint_acc_ge u a') as Hge;
      replace (10 * Z.pos a + digitVal _) with (Z.pos a')
        by (unfold digitVal; cbn [N_of_ascii N_of_digits]; lia)
    end;
    rewrite Hm in *;
    (replace (18446744073709551615 / 10 + 1) with 1844674407370955162 by done);
    rewrite (proj2 (Z.leb_gt _ _)) by lia;
    rewrite (proj2 (Z.ltb_ge _ _)) by lia;
    by apply IH.
Qed.

Lemma parseDigits_uint (u : Decimal.uint) :
  Z.of_N (Pos.of_uint u) <= maxUint64 →
  parseDigits (NilEmpty.string_of_uint u) 0 = (Z.of_N (Pos.of_uint u), None).
Proof.
  assert (Hm : maxUint64 = 18446744073709551615) by done.
  induction u as [|u IH|u IH|u IH|u IH|u IH|u IH|u IH|u IH|u IH|u IH];
    intros Hmax; [done|..];
    cbn [NilEmpty.string_of_uint parseDigits Pos.of_uint Z.of_N] in *;
    (replace (isDigit _) with true by (by vm_compute));
    cbv zeta;
    (replace (maxUint64 / 10 + 1 <=? 0) with false by (by vm_compute));
    [replace (10 * 0 + digitVal "0") with 0 by (by vm_compute);
     replace (maxUint64 <? 0) with false by (by vm_compute);
     by apply IH|..];
    match type of Hmax with context [Pos.of_uint_acc u ?a'] =>
      replace (10 * 0 + digitVal _) with (Z.pos a') by (by vm_compute);
      replace (maxUint64 <? Z.pos a') with false by (by vm_compute)
    end;
    by apply parseDigits_acc.
Qed.

Lemma parseDigits_positive (p : positive) :
  Z.pos p <= maxUint64 →
  parseDigits (NilEmpty.string_of_uint (Pos.to_uint p)) 0 = (Z.pos p, None).
Proof.
  intros Hmax.
  pose proof (parseDigits_uint (Pos.to_uint p)) as Hp.
  rewrite DecimalPos.Unsigned.of_to in Hp. by apply Hp.
Qed.

(** A numeral starts with a digit, not with a sign. *)
Lemma string_of_uint_head (u : Decimal.uint) :
  u ≠ Decimal.Nil →
  ∃ c rest, NilEmpty.string_of_uint u = String c rest
            ∧ bool_decide (c = "+"%char) = false
            ∧ bool_decide (c = "-"%char) = false.
Proof. destruct u; [done|..]; intros _; cbn; do 2 eexists; by split_and!. Qed.

Lemma ParseUint_positive (p : positive) :
  Z.pos p <= maxUint64 →
  ParseUint (NilEmpty.string_of_uint (Pos.to_uint p)) = (Z.pos p, None).
Proof.
  intros Hmax. unfold ParseUint.
  pose proof (parseDigits_positive p Hmax) as Hp.
  destruct (string_of_uint_head (Pos.to_uint p)) as (c & rest & Hstr & _);
    [apply DecimalPos.Unsigned.to_uint_nonnil|].
  by rewrite Hstr in Hp |- *.
Qed.

(** [ParseInt] reads back what [FormatInt] prints of an int64. *)
Lemma ParseInt_FormatInt (z : Z) :
  - 2 ^ 63 <= z < 2 ^ 63 → ParseInt (FormatInt z) = (z, None).
Proof.
  intros Hz. unfold FormatInt. destruct z as [|p|p]; [done|..];
    cbn [Z.to_int NilZero.string_of_int];
    pose proof (DecimalPos.Unsigned.to_uint_nonnil p) as Hnil;
    destruct (string_of_uint_head _ Hnil) as (c & rest & Hstr & Hplus & Hminus);
    assert (Hzero : NilZero.string_of_uint (Pos.to_uint p)
                    = NilEmpty.string_of_uint (Pos.to_uint p))
      by (by destruct (Pos.to_uint p));
    rewrite Hzero.
  - rewrite Hstr. unfold ParseInt. rewrite Hplus, Hminus. cbn [orb negb andb].
    rewrite <- Hstr, ParseUint_positive by (unfold maxUint64; lia).
    by rewrite (proj2 (Z.leb_gt _ _)) by lia.
  - unfold ParseInt. cbn [orb negb andb].
    replace (bool_decide ("-"%char = "+"%char)) with false by done.
    replace (bool_decide ("-"%char = "-"%char)) with true by done.
    cbn [orb negb andb]. rewrite ParseUint_positive by (unfold maxUint64; lia).
    by rewrite (proj2 (Z.ltb_ge _ _)) by lia.
Qed.
End StrconvRoundTrip.

(** ** WAF rules: from the state back to a create request *)

Section WafRoundTrip.
Import schema cfg waf.
Context {W : Type}.
Implicit Types (h : Cloud preciseprotection_rules.result W) (d : ResourceData).

Local Ltac no_call := cbn; try by intros ?%elem_of_nil.

Lemma GetOk_Set_ne d k k' v : k ≠ k' → GetOk (Set_ d k v).1 k' = GetOk d k'.
Proof.
  intros Hne. unfold GetOk, Set_, readLevel.
  destruct (rd_schema d !! k); [|done]. cbn.
  by rewrite !lookup_union, lookup_insert_ne.
Qed.

Lemma GetOk_Set_eq d k v t :
  rd_schema d !! k = Some t →
  GetOk (Set_ d k v).1 k = (v, bool_decide (v ≠ zeroValue t)).
Proof.
  intros Ht. unfold GetOk, Set_, readLevel. rewrite Ht. cbn. rewrite Ht.
  by erewrite lookup_union_Some_l by apply lookup_insert_eq.
Qed.

(** [getConditions] decodes the list Read writes under [conditions]. *)
Lemma getConditions_conditionValue d (conds : list Condition.t) :
  Get d "conditions" = VList (conditionValue <$> conds) →
  getConditions d = Ret conds.
Proof.
  intros Hd. unfold getConditions. rewrite Hd. cbn [asList bind].
  rewrite <- (list_fmap_id conds) at 2.
  apply forRange_fmap_ret. intros [category idx logic contents].
  cbn [conditionValue asMap bind Condition.Category Condition.Index Condition.Logic
       Condition.Contents].
  replace (index _ "contents") with (VList (VString <$> contents))
    by (by vm_compute).
  replace (index _ "category") with (VString category) by (by vm_compute).
  replace (index _ "index") with (VString idx) by (by vm_compute).
  replace (index _ "logic") with (VInt logic) by (by vm_compute).
  cbn [asList bind].
  rewrite (forRange_fmap_ret asString VString id) by done.
  cbn. by rewrite list_fmap_id.
Qed.

(** A successful Read, attribute by attribute. *)
Lemma waf_read_state h w w' d meta pid n :
  rd_schema d = waf.Schema →
  WafV1Client meta (GetRegion meta d) = None →
  Get d "policy_id" = VString pid →
  h (preciseprotection_rules.Get pid (Id d)) w = ((Some n, None), w') →
  ∃ d',
    run h (resourceWafPreciseProtectionRuleV1Read d meta) w
      = (Returned ([], d'), w', [preciseprotection_rules.Get pid (Id d)])
    ∧ rd_schema d' = waf.Schema
    ∧ Id d' = Precise.Id n
    ∧ Get d' "policy_id" = VString (Precise.PolicyID n)
    ∧ Get d' "name" = VString (Precise.Name n)
    ∧ Get d' "time" = VBool (Precise.Time n)
    ∧ Get d' "start" = VString (strconv.FormatInt (Precise.Start n))
    ∧ (GetOk d' "start").2
        = bool_decide (VString (strconv.FormatInt (Precise.Start n)) ≠ VString "")
    ∧ Get d' "conditions" = VList (conditionValue <$> Precise.Conditions n)
    ∧ Get d' "action_category" = VString (Action.Category (Precise.Action n))
    ∧ Get d' "priority" = VInt (Precise.Priority n).
Proof.
  intros Hs Hclient Hpid Hget.
  unfold resourceWafPreciseProtectionRuleV1Read.
  rewrite Hclient, Hpid. cbn. rewrite Hget. cbn.
  eexists. split; [reflexivity|].
  assert (Hknown : ∀ d0 k, rd_schema d0 = waf.Schema →
            is_Some (waf.Schema !! k) → is_Some (rd_schema d0 !! k))
    by (by intros d0 k ->).
  assert (Hin : ∀ k, k ∈ ["policy_id"; "name"; "time"; "start"; "end"; "conditions";
                          "action_category"; "priority"] →
                 is_Some (waf.Schema !! k)).
  { intros k Hk. repeat (apply elem_of_cons in Hk as [->|Hk]; [vm_compute; by eauto|]).
    by apply elem_of_nil in Hk. }
  split_and!;
    try (rewrite ?Id_Set; done);
    try (by rewrite ?schema_Set, ?schema_SetId);
    try (rewrite ?Get_Set_ne by done; apply Get_Set_eq, Hknown;
         [by rewrite ?schema_Set, ?schema_SetId | apply Hin; in_list]).
  rewrite !GetOk_Set_ne by done.
  by erewrite GetOk_Set_eq by (by rewrite ?schema_Set, ?schema_SetId, Hs).
Qed.

(** What a create request carries besides the conditions and the times. *)
Lemma waf_create_sends_rest h w d meta pid opts :
  preciseprotection_rules.Create pid opts
    ∈ calls (run h (resourceWafPreciseProtectionRuleV1Create d meta) w) →
  Get d "policy_id" = VString pid
  ∧ Get d "name" = VString (CreateOpts.Name opts)
  ∧ Get d "time" = VBool (CreateOpts.Time opts)
  ∧ Get d "action_category" = VString (Action.Category (CreateOpts.Action opts))
  ∧ ∃ priority, Get d "priority" = VInt priority
                ∧ CreateOpts.Priority opts = Some priority.
Proof.
  unfold resourceWafPreciseProtectionRuleV1Create.
  destruct (WafV1Client meta _); no_call.
  destruct (Get d "priority") as [| | |priority| |] eqn:Hpriority; no_call.
  destruct (Get d "name") as [|name| | | |] eqn:Hname; no_call.
  destruct (Get d "time") as [| |time| | |] eqn:Htime; no_call.
  destruct (getConditions_no_call d) as [[conds ->]|[msg ->]]; no_call.
  unfold getPreciseAction.
  destruct (Get d "action_category") as [|category| | | |] eqn:Hcategory; no_call.
  set (o0 := CreateOpts.mk _ _ _ _ _ _ _).
  assert (∀ o : CreateOpts.t,
    preciseprotection_rules.Create pid opts
      ∈ calls (run h
          (policy_id <- asString (Get d "policy_id") ;;
           r <- sdk (preciseprotection_rules.Create policy_id o) ;;
           let '(rule, err) := r in
           match err with
           | Some err =>
               Ret (fmterr.Errorf
                      "error creating OpenTelekomcomCloud WAF Precise Protection Rule: %s"
                      [err], d)
           | None =>
               rule <- deref rule ;;
               let d := SetId d (Precise.Id rule) in
               resourceWafPreciseProtectionRuleV1Read d meta
           end) w) →
    opts = o ∧ Get d "policy_id" = VString pid) as Hsend.
  { intros o. destruct (Get d "policy_id") as [|pid'| | | |]; no_call.
    destruct (h _ w) as [[rule [e|]] w1]; cbn.
    - by intros [= -> ->]%list_elem_of_singleton.
    - destruct rule as [rule|]; cbn.
      + destruct (run h _ w1) as [[out w2] log] eqn:Hrun. cbn.
        intros [[= -> ->]|Hin]%elem_of_cons; [done|].
        assert (Hin' : preciseprotection_rules.Create pid opts
                  ∈ calls (run h (resourceWafPreciseProtectionRuleV1Read
                                    (SetId d (Precise.Id rule)) meta) w1))
          by by rewrite Hrun.
        by destruct (waf_read_calls _ _ _ _ _ Hin') as (? & ? & ?).
      + by intros [= -> ->]%list_elem_of_singleton. }
  destruct (GetOk d "start") as [? []]; cbn.
  - destruct (Get d "start") as [|s1| | | |]; no_call.
    destruct (strconv.ParseInt s1) as [z1 [e|]]; no_call.
    destruct (GetOk d "cache_control") as [? []]; cbn.
    + destruct (Get d "end") as [|s2| | | |]; no_call.
      destruct (strconv.ParseInt s2) as [z2 [e|]]; no_call.
      intros [-> Hpid]%Hsend. cbn. split_and!; eauto.
    + intros [-> Hpid]%Hsend. cbn. split_and!; eauto.
  - destruct (GetOk d "cache_control") as [? []]; cbn.
    + destruct (Get d "end") as [|s2| | | |]; no_call.
      destruct (strconv.ParseInt s2) as [z2 [e|]]; no_call.
      intros [-> Hpid]%Hsend. cbn. split_and!; eauto.
    + intros [-> Hpid]%Hsend. cbn. split_and!; eauto.
Qed.
End WafRoundTrip.

(** X15.  Round trip from the state to a create request: after a Read that
    found the rule, with a start time that fits an int64, every create request
    that Create sends from the resulting resource goes to the policy of the
    rule and carries its name, time flag, start time, conditions, action and
    priority; the end time is not carried over, it is sent as 0. *)
Theorem waf_read_then_create_round_trip
    {W : Type} (h : Cloud preciseprotection_rules.result W) (w w' : W)
    (d : schema.ResourceData) (meta : cfg.Config) (pid : string)
    (n : waf.Precise.t) :
  schema.rd_schema d = waf.Schema →
  cfg.WafV1Client meta (cfg.GetRegion meta d) = None →
  schema.Get d "policy_id" = VString pid →
  h (preciseprotection_rules.Get pid (schema.Id d)) w = ((Some n, None), w') →
  - 2 ^ 63 <= waf.Precise.Start n < 2 ^ 63 →
  ∃ d' : schema.ResourceData,
    outcome (run h (waf.resourceWafPreciseProtectionRuleV1Read d meta) w)
      = Returned ([], d')
    ∧ ∀ (h2 : Cloud preciseprotection_rules.result W) (w2 : W)
        (pid2 : string) (opts : waf.CreateOpts.t),
        preciseprotection_rules.Create pid2 opts
          ∈ calls (run h2 (waf.resourceWafPreciseProtectionRuleV1Create d' meta) w2) →
        pid2 = waf.Precise.PolicyID n
        ∧ waf.CreateOpts.Name opts = waf.Precise.Name n
        ∧ waf.CreateOpts.Time opts = waf.Precise.Time n
        ∧ waf.CreateOpts.Start opts = waf.Precise.Start n
        ∧ waf.CreateOpts.End_ opts = 0
        ∧ waf.CreateOpts.Conditions opts = waf.Precise.Conditions n
        ∧ waf.CreateOpts.Action opts = waf.Precise.Action n
        ∧ waf.CreateOpts.Priority opts = Some (waf.Precise.Priority n).
Proof.
  intros Hs Hclient Hpid Hget Hstart.
  destruct (waf_read_state h w w' d meta pid n Hs Hclient Hpid Hget)
    as (d' & Hrun & Hs' & _ & Hpid' & Hname & Htime & Hstart' & Hok & Hconds
        & Haction & Hpriority).
  exists d'. split; [by rewrite Hrun|].
  intros h2 w2 pid2 opts Hin.
  pose proof (ParseInt_FormatInt _ Hstart) as Hparse.
  destruct (waf_create_sends_rest _ _ _ _ _ _ Hin)
    as (Hpid2 & Hname2 & Htime2 & Haction2 & p & Hp & Hpriority2).
  destruct (waf_create_sends _ _ _ _ _ _ Hin) as (Hconds2 & Hstart2 & Hend2).
  rewrite (getConditions_conditionValue _ _ Hconds) in Hconds2.
  rewrite GetOk_unknown in Hend2 by (by rewrite Hs').
  rewrite Hok in Hstart2.
  rewrite bool_decide_eq_true_2 in Hstart2.
  2:{ intros [= Hempty]. by rewrite Hempty in Hparse. }
  destruct Hstart2 as (s & Hs2 & Hparse2).
  rewrite Hstart' in Hs2. injection Hs2 as <-.
  rewrite Hparse in Hparse2.
  destruct (waf.CreateOpts.Action opts) as [category] eqn:Hcat.
  destruct (waf.Precise.Action n) as [category'] eqn:Hcat'.
  cbn in *.
  split_and!; try congruence.
Qed.

Lemma waf_read_then_create_round_trip_witness :
  ∃ (d' : schema.ResourceData) (opts : waf.CreateOpts.t),
    outcome (run waf_scenario.cloud
               (waf.resourceWafPreciseProtectionRuleV1Read waf_scenario.inState
                  scenario.meta)
               [waf_scenario.sentOpts])
      = Returned ([], d')
    ∧ calls (run waf_scenario.cloud
               (waf.resourceWafPreciseProtectionRuleV1Create d' scenario.meta) [])
      = [preciseprotection_rules.Create "p1" opts;
         preciseprotection_rules.Get "p1" "r1"]
    ∧ waf.CreateOpts.Start opts = 1700000000
    ∧ waf.CreateOpts.Priority opts = Some 7.
Proof.
  set (n := waf_scenario.stored waf_scenario.sentOpts).
  assert (H1 : schema.rd_schema waf_scenario.inState = waf.Schema) by reflexivity.
  assert (H2 : cfg.WafV1Client scenario.meta
                 (cfg.GetRegion scenario.meta waf_scenario.inState) = None)
    by reflexivity.
  assert (H3 : schema.Get waf_scenario.inState "policy_id" = VString "p1")
    by (vm_compute; reflexivity).
  assert (H4 : waf_scenario.cloud
                 (preciseprotection_rules.Get "p1" (schema.Id waf_scenario.inState))
                 [waf_scenario.sentOpts]
               = ((Some n, None), [waf_scenario.sentOpts]))
    by (vm_compute; reflexivity).
  assert (H5 : - 2 ^ 63 <= waf.Precise.Start n < 2 ^ 63) by (by vm_compute).
  destruct (waf_read_then_create_round_trip waf_scenario.cloud _ _ _ _ _ _
              H1 H2 H3 H4 H5) as (d' & Hrun & Hcreate).
  pose proof Hrun as Hd'. vm_compute in Hd'. injection Hd' as Hd'.
  assert (Hcalls :
    calls (run waf_scenario.cloud
             (waf.resourceWafPreciseProtectionRuleV1Create d' scenario.meta) [])
    = [preciseprotection_rules.Create "p1" waf_scenario.sentOpts;
       preciseprotection_rules.Get "p1" "r1"])
    by (rewrite <- Hd'; vm_compute; reflexivity).
  destruct (Hcreate waf_scenario.cloud [] "p1" waf_scenario.sentOpts)
    as (_ & _ & _ & Hstart & _ & _ & _ & Hpriority); [rewrite Hcalls; left|].
  exists d', waf_scenario.sentOpts. by split_and!.
Defined.

(** ** Update of a router, from the request to the read *)

(** X16.  Update of a well-typed router that passes the check of enable_snat
    sends exactly one update request, also when no attribute changed.  When
    the request is refused, Update returns the error, leaves the resource as
    it was and does not read the router; when it is accepted, Update ends with
    Read on the unchanged resource and returns what Read returns. *)
Theorem router_update_sends_then_reads
    {W : Type} (h : Cloud routers.result W) (w : W)
    (d : schema.ResourceData) (meta : cfg.Config) :
  schema.rd_schema d = vpc.Schema →
  schema.wellTyped d = true →
  cfg.NetworkingV2Client meta (cfg.GetRegion meta d) = None →
  (schema.HasChange d "enable_snat" = true →
   schema.Get d "external_gateway" ≠ VString "") →
  ∃ opts : vpc.UpdateOpts.t,
    let request := routers.Update (schema.Id d) opts in
    match h request w with
    | ((_, Some e), w1) =>
        run h (vpc.resourceNetworkingRouterV2Update d meta) w
          = (Returned
               (fmterr.Errorf "error updating OpenTelekomCloud Neutron Router: %s" [e],
                d),
             w1, [request])
    | ((_, None), w1) =>
        let r := run h (vpc.resourceNetworkingRouterV2Read d meta) w1 in
        run h (vpc.resourceNetworkingRouterV2Update d meta) w
          = (outcome r, world r, request :: calls r)
    end.
Proof.
  intros Hs Hd Hclient Hguard.
  assert (Hty : ∀ k t, vpc.Schema !! k = Some t → schema.rd_schema d !! k = Some t)
    by (by rewrite Hs).
  destruct (Get_string d "name" Hd) as [name Hname]; [by apply Hty|].
  destruct (Get_bool d "admin_state_up" Hd) as [asu Hasu]; [by apply Hty|].
  destruct (Get_string d "external_gateway" Hd) as [gw Hgw]; [by apply Hty|].
  destruct (Get_bool d "enable_snat" Hd) as [snat Hsnat]; [by apply Hty|].
  unfold vpc.resourceNetworkingRouterV2Update.
  rewrite Hclient, Hname, Hasu, Hgw, Hsnat. rewrite Hgw in Hguard.
  assert (Hsent : ∀ opts : vpc.UpdateOpts.t,
    let request := routers.Update (schema.Id d) opts in
    match h request w with
    | ((_, Some e), w1) =>
        run h
          (x <- sdk (routers.Update (schema.Id d) opts) ;;
           let '(_, err) := x in
           match err with
           | Some err =>
               Ret (fmterr.Errorf "error updating OpenTelekomCloud Neutron Router: %s"
                      [err], d)
           | None => vpc.resourceNetworkingRouterV2Read d meta
           end) w
          = (Returned
               (fmterr.Errorf "error updating OpenTelekomCloud Neutron Router: %s" [e],
                d),
             w1, [request])
    | ((_, None), w1) =>
        let r := run h (vpc.resourceNetworkingRouterV2Read d meta) w1 in
        run h
          (x <- sdk (routers.Update (schema.Id d) opts) ;;
           let '(_, err) := x in
           match err with
           | Some err =>
               Ret (fmterr.Errorf "error updating OpenTelekomCloud Neutron Router: %s"
                      [err], d)
           | None => vpc.resourceNetworkingRouterV2Read d meta
           end) w
          = (outcome r, world r, request :: calls r)
    end).
  { intros opts. cbn [bind sdk run].
    destruct (h _ w) as [[n [e|]] w1]; cbn [bind run]; [done|].
    by destruct (run h _ w1) as [[o w2] l]. }
  destruct (schema.HasChange d "name"), (schema.HasChange d "admin_state_up"),
    (schema.HasChange d "external_gateway"), (schema.HasChange d "enable_snat");
    cbn [asString asBool bind orb];
    (destruct (decide (gw = "")) as [->|Hne];
       [try (by destruct Hguard);
        rewrite ?(bool_decide_eq_false_2 ("" ≠ "")) by (by intros ?);
        rewrite ?(bool_decide_eq_true_2 ("" = "")) by done
       |rewrite ?(bool_decide_eq_true_2 (gw ≠ "")) by done;
        rewrite ?(bool_decide_eq_false_2 (gw = "")) by done];
       cbn [bind asBool];
       eexists; apply Hsent).
Qed.

Lemma router_update_sends_then_reads_witness :
  ∃ opts : vpc.UpdateOpts.t,
    let r := run vpc_scenario.cloud
               (vpc.resourceNetworkingRouterV2Read vpc_scenario.inState scenario.meta)
               [] in
    run vpc_scenario.cloud
      (vpc.resourceNetworkingRouterV2Update vpc_scenario.inState scenario.meta) []
    = (outcome r, world r, routers.Update "r1" opts :: calls r).
Proof.
  assert (H1 : schema.rd_schema vpc_scenario.inState = vpc.Schema) by reflexivity.
  assert (H2 : schema.wellTyped vpc_scenario.inState = true)
    by (vm_compute; reflexivity).
  assert (H3 : cfg.NetworkingV2Client scenario.meta
                 (cfg.GetRegion scenario.meta vpc_scenario.inState) = None)
    by reflexivity.
  assert (H4 : schema.HasChange vpc_scenario.inState "enable_snat" = true →
               schema.Get vpc_scenario.inState "external_gateway" ≠ VString "")
    by (by vm_compute).
  destruct (router_update_sends_then_reads vpc_scenario.cloud []
              vpc_scenario.inState scenario.meta H1 H2 H3 H4) as [opts Hrun].
  exists opts. exact Hrun.
Defined.

(** ** WAF rules: Delete and the outcome of Create *)

(** X17.  Delete of a well-typed WAF rule that is in the state issues exactly
    one call, the delete of the rule under its policy, and does not poll.  It
    clears the ID exactly when the cloud accepts that call, and then returns
    no diagnostics; when the call is refused it returns the error and leaves
    the resource as it was. *)
Theorem waf_delete_clears_id_iff_accepted
    {W : Type} (h : Cloud preciseprotection_rules.result W) (w : W)
    (d : schema.ResourceData) (meta : cfg.Config) :
  schema.rd_schema d = waf.Schema →
  schema.wellTyped d = true →
  cfg.WafV1Client meta (cfg.GetRegion meta d) = None →
  schema.Id d ≠ "" →
  ∃ pid : string,
    let request := preciseprotection_rules.Delete pid (schema.Id d) in
    let r := run h (waf.resourceWafPreciseProtectionRuleV1Delete d meta) w in
    schema.Get d "policy_id" = VString pid
    ∧ calls r = [request]
    ∧ world r = (h request w).2
    ∧ (verdict.idCleared r ↔ (h request w).1 = None)
    ∧ outcome r
        = Returned
            match (h request w).1 with
            | None => ([], schema.SetId d "")
            | Some e =>
                (fmterr.Errorf
                   "error deleting OpenTelekomCloud WAF Precise Protection Rule: %s" [e],
                 d)
            end.
Proof.
  intros Hs Hd Hclient Hid.
  destruct (Get_string d "policy_id" Hd) as [pid Hpid]; [by rewrite Hs|].
  exists pid. cbn zeta.
  unfold waf.resourceWafPreciseProtectionRuleV1Delete, verdict.idCleared.
  rewrite Hclient, Hpid. cbn [asString bind sdk run].
  destruct (h _ w) as [[e|] w1]; cbn; split_and!; try done.
  - split; [|by intros [=]]. by intros (a & d' & [= _ <-] & Hempty).
  - split; [done|]. intros _. by exists [], (schema.SetId d "").
Qed.

Lemma waf_delete_clears_id_iff_accepted_witness :
  verdict.idCleared
    (run waf_scenario.cloud
       (waf.resourceWafPreciseProtectionRuleV1Delete waf_scenario.inState scenario.meta)
       [waf_scenario.sentOpts])
  ∧ ¬ verdict.idCleared
        (run waf_scenario.brokenCloud
           (waf.resourceWafPreciseProtectionRuleV1Delete waf_scenario.inState
              scenario.meta)
           [waf_scenario.sentOpts]).
Proof.
  assert (H1 : schema.rd_schema waf_scenario.inState = waf.Schema) by reflexivity.
  assert (H2 : schema.wellTyped waf_scenario.inState = true)
    by (vm_compute; reflexivity).
  assert (H3 : cfg.WafV1Client scenario.meta
                 (cfg.GetRegion scenario.meta waf_scenario.inState) = None)
    by reflexivity.
  assert (H4 : schema.Id waf_scenario.inState ≠ "") by (by vm_compute).
  assert (H5 : schema.Get waf_scenario.inState "policy_id" = VString "p1")
    by (vm_compute; reflexivity).
  split.
  - destruct (waf_delete_clears_id_iff_accepted waf_scenario.cloud
                [waf_scenario.sentOpts] waf_scenario.inState scenario.meta H1 H2 H3 H4)
      as (pid & Hpid & _ & _ & Hiff & _).
    rewrite H5 in Hpid. injection Hpid as <-. by apply Hiff.
  - destruct (waf_delete_clears_id_iff_accepted waf_scenario.brokenCloud
                [waf_scenario.sentOpts] waf_scenario.inState scenario.meta H1 H2 H3 H4)
      as (pid & Hpid & _ & _ & Hiff & _).
    rewrite H5 in Hpid. injection Hpid as <-. by intros ?%Hiff.
Defined.



(** ** Refused create requests *)




